(** * HelixMind: the analysis client, the upload filter and the session memory

    A shallow embedding of the TypeScript client of HelixMind (the API client
    [lib/api], the page component with [handleAnalyze], the [FileUpload]
    drop zone and the [MemoryPanel]) together with the session memory store
    that the specification describes, and the properties the specification
    states about them.

    JavaScript strings are sequences of UTF-16 code units, and that is how they
    are modelled: operations such as [split], [startsWith], [slice], [trim]
    and [endsWith] work on code units exactly as the language defines them. *)

From Stdlib Require Import Ascii String DecimalString.
From Stdlib Require Import NArith ZArith Lia Bool List.
Import ListNotations.

Set Implicit Arguments.
Set Warnings "-register-all".


(** ** JavaScript strings *)

Module JS.

Definition code_unit := N.
Definition jsstring := list code_unit.

(** An ASCII literal of the source, as code units. *)
Definition lit (s : string) : jsstring :=
  map N_of_ascii (list_ascii_of_string s).

Fixpoint str_eqb (a b : jsstring) : bool :=
  match a, b with
  | [], [] => true
  | x :: a', y :: b' => N.eqb x y && str_eqb a' b'
  | _, _ => false
  end.

(** [s.startsWith(p)] *)
Fixpoint startsWith (s p : jsstring) : bool :=
  match p, s with
  | [], _ => true
  | y :: p', x :: s' => N.eqb x y && startsWith s' p'
  | _ :: _, [] => false
  end.

(** [s.slice(n)] for a non-negative [n]. *)
Definition slice (s : jsstring) (n : nat) : jsstring := skipn n s.

(** [s.endsWith(p)] *)
Definition endsWith (s p : jsstring) : bool :=
  (length p <=? length s)%nat && str_eqb (skipn (length s - length p) s) p.

(** [s.split(sep)] for a separator of one code unit: never empty, and a
    trailing separator yields a last empty piece. *)
Fixpoint split (sep : code_unit) (s : jsstring) : list jsstring :=
  match s with
  | [] => [[]]
  | c :: s' =>
      if N.eqb c sep then [] :: split sep s'
      else match split sep s' with
           | l :: ls => (c :: l) :: ls
           | [] => [[c]]
           end
  end.

(** WhiteSpace and LineTerminator of ECMAScript, which [trim] strips: TAB, LF,
    VT, FF, CR, SP, NBSP, U+1680, U+2000..U+200A, U+2028, U+2029, U+202F,
    U+205F, U+3000 and U+FEFF.  All lie in the basic plane, so a code unit
    decides. *)
Definition is_whitespace (c : code_unit) : bool :=
  ((9 <=? c) && (c <=? 13) || (c =? 32) || (c =? 160) || (c =? 5760)
   || (8192 <=? c) && (c <=? 8202) || (c =? 8232) || (c =? 8233)
   || (c =? 8239) || (c =? 8287) || (c =? 12288) || (c =? 65279))%N.

Fixpoint trimStart (s : jsstring) : jsstring :=
  match s with
  | c :: s' => if is_whitespace c then trimStart s' else s
  | [] => []
  end.

(** [s.trim()] *)
Definition trim (s : jsstring) : jsstring :=
  rev (trimStart (rev (trimStart s))).

(** [s.toLowerCase()] on the ASCII letters.  The patterns this program
    compares lowered text with are ASCII and contain neither [k] nor an [i]
    followed by U+0307, the only ASCII outputs a letter outside ASCII can
    lower to, so the comparison results are those of the full mapping. *)
Definition lower_unit (c : code_unit) : code_unit :=
  if ((65 <=? c) && (c <=? 90))%N then (c + 32)%N else c.

Definition toLowerCase (s : jsstring) : jsstring := map lower_unit s.

(** The pieces a [for ... of] over a string yields: one per code point, a
    surrogate pair staying together. *)
Definition is_high_surrogate (c : code_unit) : bool :=
  ((55296 <=? c) && (c <=? 56319))%N.
Definition is_low_surrogate (c : code_unit) : bool :=
  ((56320 <=? c) && (c <=? 57343))%N.

Fixpoint code_points (s : jsstring) : list jsstring :=
  match s with
  | [] => []
  | c :: s' =>
      match s' with
      | d :: s'' =>
          if is_high_surrogate c && is_low_surrogate d
          then match code_points s' with
               | _ :: rest => [c; d] :: rest
               | [] => [[c; d]]
               end
          else [c] :: code_points s'
      | [] => [[c]]
      end
  end.

(** Decimal text of a natural number, as template literals print it. *)
Definition decimal (n : N) : jsstring :=
  lit (NilZero.string_of_uint (N.to_uint n)).

(** ** JavaScript values *)

(** The values a JSON text or an HTTP body parses to, and [undefined].  A
    number is identified by the text [Number.prototype.toString] gives for it
    (["0"] for both zeros); the client never computes with numbers.  An object
    is its list of properties in source order, a later duplicate key
    overriding an earlier one, as [JSON.parse] has it. *)
Inductive jsval : Type :=
| VUndefined
| VNull
| VBool (b : bool)
| VNum (repr : jsstring)
| VStr (s : jsstring)
| VArr (elems : list jsval)
| VObj (fields : list (jsstring * jsval)).

(** The binding of [k] that wins in a property list. *)
Fixpoint lookup (k : jsstring) (fields : list (jsstring * jsval)) : option jsval :=
  match fields with
  | [] => None
  | (k', v) :: rest =>
      match lookup k rest with
      | Some w => Some w
      | None => if str_eqb k' k then Some v else None
      end
  end.

(** [v.k] for the property names the client reads ([type], [content],
    [session_id], [thinking_trace], [charts]), none of which is defined on a
    prototype: [None] is the TypeError raised on [undefined] and [null]. *)
Definition get_prop (v : jsval) (k : jsstring) : option jsval :=
  match v with
  | VUndefined | VNull => None
  | VObj fields =>
      match lookup k fields with
      | Some w => Some w
      | None => Some VUndefined
      end
  | _ => Some VUndefined
  end.

(** ToBoolean *)
Definition truthy (v : jsval) : bool :=
  match v with
  | VUndefined | VNull => false
  | VBool b => b
  | VNum r => negb (str_eqb r (lit "0") || str_eqb r (lit "NaN"))
  | VStr s => match s with [] => false | _ => true end
  | VArr _ | VObj _ => true
  end.

(** [a || b] *)
Definition js_or (a b : jsval) : jsval := if truthy a then a else b.

(** [v === 'literal'] *)
Definition is_string (v : jsval) (s : jsstring) : bool :=
  match v with
  | VStr t => str_eqb t s
  | _ => false
  end.

Fixpoint join (sep : jsstring) (l : list jsstring) : jsstring :=
  match l with
  | [] => []
  | [x] => x
  | x :: rest => x ++ sep ++ join sep rest
  end.

(** ToString, which string concatenation, template literals and
    [FormData.append] apply; [None] is the TypeError it can raise.  An array
    joins its elements with commas, [null] and [undefined] elements printing
    as nothing.  An object parsed from JSON prints as [[object Object]]
    through the [toString] of its prototype, unless it has a property
    [toString] of its own: that one is no function, and with [valueOf]
    giving back the object there is no primitive to be had. *)
Fixpoint ToString (v : jsval) : option jsstring :=
  match v with
  | VUndefined => Some (lit "undefined")
  | VNull => Some (lit "null")
  | VBool true => Some (lit "true")
  | VBool false => Some (lit "false")
  | VNum r => Some r
  | VStr s => Some s
  | VArr elems =>
      match (fix pieces (l : list jsval) : option (list jsstring) :=
               match l with
               | [] => Some []
               | e :: rest =>
                   match match e with
                         | VUndefined | VNull => Some []
                         | _ => ToString e
                         end with
                   | None => None
                   | Some piece =>
                       match pieces rest with
                       | Some more => Some (piece :: more)
                       | None => None
                       end
                   end
               end) elems with
      | Some ps => Some (join (lit ",") ps)
      | None => None
      end
  | VObj fields =>
      match lookup (lit "toString") fields with
      | Some _ => None
      | None => Some (lit "[object Object]")
      end
  end.

(** The conversion to a USVString that [FormData.append] applies to a
    string: a surrogate that is not half of a pair becomes U+FFFD. *)
Fixpoint toUSVString (s : jsstring) : jsstring :=
  match s with
  | [] => []
  | c :: rest =>
      if is_high_surrogate c then
        match rest with
        | d :: rest' =>
            if is_low_surrogate d then c :: d :: toUSVString rest'
            else 65533%N :: toUSVString rest
        | [] => [65533%N]
        end
      else if is_low_surrogate c then 65533%N :: toUSVString rest
      else c :: toUSVString rest
  end.

(** What [for (const x of v)] iterates over: the elements of an array, the
    code points of a string; any other value is not iterable (TypeError). *)
Definition iterate (v : jsval) : option (list jsval) :=
  match v with
  | VArr elems => Some elems
  | VStr s => Some (map VStr (code_points s))
  | _ => None
  end.

(** How a statement or a call ends. *)
Inductive error : Type :=
| AxiosTimeout            (* ECONNABORTED: the timeout of the request passed *)
| AxiosNetwork            (* ERR_NETWORK *)
| AxiosBadStatus (status : N)
| FetchFailed
| StreamFailed
| JsTypeError
| JsError (message : jsstring).

Inductive completion (A : Type) : Type :=
| Returned (a : A)
| Threw (e : error).

Arguments Returned {A} a.
Arguments Threw {A} e.

End JS.

(** ** The API client ([lib/api]) *)

Module Api.
Import JS.

Record File : Type := {
  file_name : jsstring;
  file_type : jsstring;
  file_size : N
}.

(** A [FormData]: its entries in the order of the [append] calls; a value
    that is not a file is stored as its string, converted to a USVString. *)
Inductive form_value : Type :=
| FString (s : jsstring)
| FFile (f : File).

Definition FormData := list (jsstring * form_value).

Record AnalyzeOptions : Type := {
  query : jsstring;
  files : option (list File);
  sessionId : jsval;
  onThinkingStep : bool      (* whether a callback is supplied *)
}.

(** What a call does that the outside can observe, in order.  A call of the
    thinking-step callback is [ACallback]; what the callback does with the
    step is the caller's business. *)
Inductive action : Type :=
| ACallback (step : jsval)
| ASleep (ms : N)
| ARequest (path : jsstring) (body : FormData) (timeout : option N)
| ASettled (waited : N)          (* the whole response is in, or the request failed *)
| AHeaders (status : N)          (* [fetch] resolved: the status line is in *)
| ARead (chunk : jsstring)       (* [reader.read()] gave a chunk *)
| AEnd                           (* [reader.read()] gave [done] *)
| AConsoleError.

(** A computation: the actions so far and how it ended. *)
Definition M (A : Type) : Type := (list action * completion A)%type.

Definition ret {A} (a : A) : M A := ([], Returned a).
Definition throw {A} (e : error) : M A := ([], Threw e).
Definition emit (a : action) : M unit := ([a], Returned tt).
Definition emits (l : list action) : M unit := (l, Returned tt).

Definition bind {A B} (m : M A) (k : A -> M B) : M B :=
  match m with
  | (l, Returned a) => let (l', r) := k a in (l ++ l', r)
  | (l, Threw e) => (l, Threw e)
  end.

Notation "x <- m ;; k" := (bind m (fun x => k))
  (at level 61, m at next level, right associativity).
Notation "m ;;; k" := (bind m (fun _ => k))
  (at level 61, right associativity).

(** The other side of one HTTP exchange: how long the reply takes and what it
    is. *)
Inductive http_reply : Type :=
| Reply (status : N) (data : jsval)
| NoReply.                       (* the connection failed *)

Record exchange : Type := {
  latency : N;                   (* milliseconds until the reply is complete *)
  reply : http_reply
}.

Definition ok_status (status : N) : bool :=
  ((200 <=? status) && (status <? 300))%N.

(** [axios.post(url, body, {timeout})]: the promise rejects when the timeout
    passes first, when the connection fails, and on a status outside 2xx;
    otherwise it resolves with the parsed body. *)
Definition axios_post (path : jsstring) (body : FormData) (timeout : N)
    (x : exchange) : M jsval :=
  emit (ARequest path body (Some timeout)) ;;;
  if (timeout <? latency x)%N then
    emit (ASettled timeout) ;;; throw AxiosTimeout
  else
    emit (ASettled (latency x)) ;;;
    match reply x with
    | NoReply => throw AxiosNetwork
    | Reply status data =>
        if ok_status status then ret data else throw (AxiosBadStatus status)
    end.

(** The four simulated steps of [analyzeData]. *)
Definition thinkingSteps : list jsstring :=
  [ [55357; 56620]%N ++ lit " Initializing analysis pipeline...";
    [55357; 56516]%N ++ lit " Processing uploaded documents...";
    [55358; 56812]%N ++ lit " Applying AI reasoning...";
    [55357; 56522]%N ++ lit " Generating visualizations..." ].

(** The [session_id] entry: none for a falsy session id; [None] when the
    session id cannot be converted to a string and [append] throws. *)
Definition session_entry (sessionId : jsval) : option FormData :=
  if truthy sessionId then
    match ToString sessionId with
    | Some text => Some [(lit "session_id", FString (toUSVString text))]
    | None => None
    end
  else Some [].

(** The form [analyzeData] builds before anything else; [None] when an
    [append] throws. *)
Definition build_form (o : AnalyzeOptions) : option FormData :=
  match session_entry (sessionId o) with
  | None => None
  | Some session =>
      Some ([(lit "text", FString (toUSVString (query o)))]
            ++ session
            ++ map (fun f => (lit "files", FFile f))
                   (match files o with Some fs => fs | None => [] end))
  end.

Fixpoint for_each {A} (l : list A) (body : A -> M unit) : M unit :=
  match l with
  | [] => ret tt
  | x :: rest => body x ;;; for_each rest body
  end.

(** [analyzeData(options)], against the backend [backend] that answers the
    request. *)
Definition analyzeData (backend : FormData -> exchange) (o : AnalyzeOptions)
    : M jsval :=
  match build_form o with
  | None => throw JsTypeError
  | Some formData =>
  (if onThinkingStep o then
     for_each thinkingSteps (fun step =>
       emit (ACallback (VStr step)) ;;; emit (ASleep 500))
   else ret tt) ;;;
  data <- axios_post (lit "/analyze") formData 120000 (backend formData) ;;
  (if onThinkingStep o then
     match get_prop data (lit "thinking_trace") with
     | None => throw JsTypeError
     | Some trace =>
         if truthy trace then
           match iterate trace with
           | None => throw JsTypeError
           | Some steps => for_each steps (fun step => emit (ACallback step))
           end
         else ret tt
     end
   else ret tt) ;;;
  ret data
  end.

(** The result object [analyzeWithStreaming] accumulates. *)
Record AnalysisResult : Type := {
  session_id : jsval;
  result : jsstring;
  thinking_trace : list jsval;
  charts : list jsval;
  memory_context : list jsval;
  timestamp : jsstring
}.

Definition initial_result (now : jsstring) : AnalysisResult :=
  {| session_id := VStr []; result := []; thinking_trace := [];
     charts := []; memory_context := []; timestamp := now |}.

(** The body of a streamed response: the decoded chunks the reader yields,
    and whether the stream then ends or breaks. *)
Inductive stream_end : Type := StreamDone | StreamBroken.

Inductive fetch_reply : Type :=
| FetchRejected
| FetchResolved (status : N) (body : option (list jsstring * stream_end)).

Section Streaming.

(** [JSON.parse]: [None] when it throws a SyntaxError. *)
Variable JSON_parse : jsstring -> option jsval.

(** The [switch (data.type)] of the loop, on the parsed [data]: the callback
    calls it makes and the updated result.  [None] is a TypeError, raised by
    reading a property of [null] or by [+=] on a content that has no string,
    which the surrounding [try] swallows. *)
Definition dispatch (data : jsval) (r : AnalysisResult)
    : option (list jsval * AnalysisResult) :=
  match get_prop data (lit "type") with
  | None => None
  | Some ty =>
      let content := match get_prop data (lit "content") with
                     | Some c => c | None => VUndefined end in
      if is_string ty (lit "thinking") then
        Some ([content],
              {| session_id := session_id r; result := result r;
                 thinking_trace := thinking_trace r ++ [content];
                 charts := charts r; memory_context := memory_context r;
                 timestamp := timestamp r |})
      else if is_string ty (lit "response") then
        match ToString content with
        | None => None
        | Some text =>
            Some ([],
                  {| session_id := session_id r;
                     result := result r ++ text;
                     thinking_trace := thinking_trace r;
                     charts := charts r; memory_context := memory_context r;
                     timestamp := timestamp r |})
        end
      else if is_string ty (lit "chart") then
        Some ([],
              {| session_id := session_id r; result := result r;
                 thinking_trace := thinking_trace r;
                 charts := charts r ++ [content];
                 memory_context := memory_context r;
                 timestamp := timestamp r |})
      else if is_string ty (lit "complete") then
        Some ([],
              {| session_id := match get_prop data (lit "session_id") with
                               | Some s => s | None => VUndefined end;
                 result := result r;
                 thinking_trace := thinking_trace r;
                 charts := charts r; memory_context := memory_context r;
                 timestamp := timestamp r |})
      else Some ([], r)
  end.

(** One turn of [for (const line of lines)]. *)
Definition process_line (line : jsstring) (r : AnalysisResult)
    : list jsval * AnalysisResult :=
  if startsWith line (lit "data: ") then
    match JSON_parse (slice line 6) with
    | None => ([], r)                       (* skip invalid JSON *)
    | Some data =>
        match dispatch data r with
        | Some out => out
        | None => ([], r)
        end
    end
  else ([], r).

Fixpoint process_lines (lines : list jsstring) (r : AnalysisResult)
    : list jsval * AnalysisResult :=
  match lines with
  | [] => ([], r)
  | line :: rest =>
      let (cb1, r1) := process_line line r in
      let (cb2, r2) := process_lines rest r1 in
      (cb1 ++ cb2, r2)
  end.

(** One turn of the [while (true)] loop for a chunk that was read. *)
Definition process_chunk (chunk : jsstring) (r : AnalysisResult)
    : list jsval * AnalysisResult :=
  process_lines (split 10%N chunk) r.

Fixpoint read_loop (chunks : list jsstring) (fin : stream_end)
    (r : AnalysisResult) : M AnalysisResult :=
  match chunks with
  | [] =>
      match fin with
      | StreamDone => emit AEnd ;;; ret r
      | StreamBroken => throw StreamFailed
      end
  | chunk :: rest =>
      emit (ARead chunk) ;;;
      let (cbs, r') := process_chunk chunk r in
      emits (map ACallback cbs) ;;;
      read_loop rest fin r'
  end.

(** [analyzeWithStreaming(formData, onThinkingStep)], against the reply
    [server] of the streaming endpoint, at the time [now]. *)
Definition analyzeWithStreaming (server : fetch_reply) (now : jsstring)
    (formData : FormData) : M AnalysisResult :=
  emit (ARequest (lit "/analyze/stream") formData None) ;;;
  match server with
  | FetchRejected => throw FetchFailed
  | FetchResolved status body =>
      emit (AHeaders status) ;;;
      if negb (ok_status status) then
        throw (JsError (lit "Analysis failed: " ++ decimal status))
      else
        match body with
        | None => throw (JsError (lit "No response body"))
        | Some (chunks, fin) => read_loop chunks fin (initial_result now)
        end
  end.

End Streaming.

(** [clearMemory(sessionId)]: one DELETE; it rejects as [axios] does. *)
Definition axios_delete (path : jsstring) (x : exchange) : M jsval :=
  emit (ARequest path [] None) ;;;
  emit (ASettled (latency x)) ;;;
  match reply x with
  | NoReply => throw AxiosNetwork
  | Reply status data =>
      if ok_status status then ret data else throw (AxiosBadStatus status)
  end.

Definition clearMemory (backend : jsstring -> exchange) (sessionId : jsstring)
    : M unit :=
  axios_delete (lit "/memory/" ++ sessionId) (backend sessionId) ;;; ret tt.

End Api.

(** ** The page component ([Home]) *)

Module Page.
Import JS.

Inductive panel : Type := PanelMain | PanelMemory | PanelSettings.

(** The [useState] cells of [Home].  [result] is [VNull] for [null]; what
    the cells typed [string[]] and [any[]] hold at run time is whatever the
    response carried, so they are values. *)
Record PageState : Type := {
  sessionId : jsval;
  query : jsstring;
  files : list Api.File;
  isAnalyzing : bool;
  thinkingSteps : list jsval;
  result : jsval;
  charts : jsval;
  activePanel : panel;
  isDockMinimized : bool;
  showDock : bool
}.

Definition initial : PageState :=
  {| sessionId := VNull; query := []; files := []; isAnalyzing := false;
     thinkingSteps := []; result := VNull; charts := VArr [];
     activePanel := PanelMain; isDockMinimized := false; showDock := true |}.

(** [handleFilesDropped] and [handleRemoveFile] *)
Definition handleFilesDropped (newFiles : list Api.File) (st : PageState)
    : PageState :=
  {| sessionId := sessionId st; query := query st;
     files := files st ++ newFiles;
     isAnalyzing := isAnalyzing st; thinkingSteps := thinkingSteps st;
     result := result st; charts := charts st;
     activePanel := activePanel st; isDockMinimized := isDockMinimized st;
     showDock := showDock st |}.

(** The step the [catch] of [handleAnalyze] appends. *)
Definition failure_step : jsstring :=
  [10060]%N ++ lit " Analysis failed. Please try again.".

(** The callback [handleAnalyze] passes: [setThinkingSteps(prev => [...prev, step])]. *)
Definition push_step (step : jsval) (st : PageState) : PageState :=
  {| sessionId := sessionId st; query := query st; files := files st;
     isAnalyzing := isAnalyzing st;
     thinkingSteps := thinkingSteps st ++ [step];
     result := result st; charts := charts st;
     activePanel := activePanel st; isDockMinimized := isDockMinimized st;
     showDock := showDock st |}.

(** The state after the calls of the callback that a log records. *)
Fixpoint run_callbacks (log : list Api.action) (st : PageState) : PageState :=
  match log with
  | [] => st
  | Api.ACallback step :: rest => run_callbacks rest (push_step step st)
  | _ :: rest => run_callbacks rest st
  end.

(** The guard of [handleAnalyze], also the [disabled] test of the button:
    [!query.trim() && files.length === 0]. *)
Definition nothing_to_analyze (st : PageState) : bool :=
  negb (truthy (VStr (trim (query st)))) && (length (files st) =? 0)%nat.

(** The five setters before the [try]. *)
Definition begin_analysis (st : PageState) : PageState :=
  {| sessionId := sessionId st; query := query st; files := files st;
     isAnalyzing := true; thinkingSteps := []; result := VNull;
     charts := VArr [];
     activePanel := activePanel st; isDockMinimized := false;
     showDock := showDock st |}.

(** The three setters after the [await]; [None] when reading
    [response.session_id] raises a TypeError. *)
Definition store_response (response : jsval) (st : PageState)
    : option PageState :=
  match get_prop response (lit "session_id") with
  | None => None
  | Some sid =>
      let cs := match get_prop response (lit "charts") with
                | Some c => c | None => VUndefined end in
      Some {| sessionId := sid; query := query st; files := files st;
              isAnalyzing := isAnalyzing st;
              thinkingSteps := thinkingSteps st;
              result := response; charts := js_or cs (VArr []);
              activePanel := activePanel st;
              isDockMinimized := isDockMinimized st;
              showDock := showDock st |}
  end.

Definition set_isAnalyzing (b : bool) (st : PageState) : PageState :=
  {| sessionId := sessionId st; query := query st; files := files st;
     isAnalyzing := b; thinkingSteps := thinkingSteps st;
     result := result st; charts := charts st;
     activePanel := activePanel st; isDockMinimized := isDockMinimized st;
     showDock := showDock st |}.

(** The options [handleAnalyze] calls [analyzeData] with. *)
Definition analyze_options (st : PageState) : Api.AnalyzeOptions :=
  {| Api.query := query st; Api.files := Some (files st);
     Api.sessionId := js_or (sessionId st) VUndefined;
     Api.onThinkingStep := true |}.

(** [handleAnalyze()]: the new state, the actions observed and how the call
    ended. *)
Definition handleAnalyze (backend : Api.FormData -> Api.exchange)
    (st : PageState) : PageState * list Api.action * completion unit :=
  if nothing_to_analyze st then (st, [], Returned tt)
  else
    let st1 := begin_analysis st in
    let (log, r) := Api.analyzeData backend (analyze_options st) in
    let st2 := run_callbacks log st1 in
    let stored := match r with
                  | Returned response => store_response response st2
                  | Threw _ => None
                  end in
    match stored with
    | Some st3 => (set_isAnalyzing false st3, log, Returned tt)
    | None =>
        (set_isAnalyzing false (push_step (VStr failure_step) st2),
         log ++ [Api.AConsoleError], Returned tt)
    end.

(** [prev.filter((_, i) => i !== index)]: the elements whose position,
    counted from [i], is not [index]. *)
Fixpoint filter_out_index {A} (index : Z) (i : nat) (l : list A) : list A :=
  match l with
  | [] => []
  | x :: rest =>
      if (Z.of_nat i =? index)%Z
      then filter_out_index index (S i) rest
      else x :: filter_out_index index (S i) rest
  end.

(** [handleRemoveFile(index)] *)
Definition handleRemoveFile (index : Z) (st : PageState) : PageState :=
  {| sessionId := sessionId st; query := query st;
     files := filter_out_index index 0 (files st);
     isAnalyzing := isAnalyzing st; thinkingSteps := thinkingSteps st;
     result := result st; charts := charts st;
     activePanel := activePanel st; isDockMinimized := isDockMinimized st;
     showDock := showDock st |}.

(** [handleResultDisplayed()] *)
Definition handleResultDisplayed (st : PageState) : PageState :=
  {| sessionId := sessionId st; query := query st; files := files st;
     isAnalyzing := isAnalyzing st; thinkingSteps := thinkingSteps st;
     result := result st; charts := charts st;
     activePanel := activePanel st; isDockMinimized := true;
     showDock := showDock st |}.

(** [handleNewAnalysis()]: the six setters; the session is not among
    them. *)
Definition handleNewAnalysis (st : PageState) : PageState :=
  {| sessionId := sessionId st; query := []; files := [];
     isAnalyzing := isAnalyzing st; thinkingSteps := [];
     result := VNull; charts := VArr [];
     activePanel := activePanel st; isDockMinimized := false;
     showDock := showDock st |}.

End Page.

(** ** The drop zone ([FileUpload]) *)

Module FileUpload.
Import JS.

(** The [accept] option and [maxSize] passed to [useDropzone]. *)
Definition accept : list (jsstring * list jsstring) :=
  [ (lit "application/pdf", [lit ".pdf"]);
    (lit "image/*", [lit ".png"; lit ".jpg"; lit ".jpeg"; lit ".gif"; lit ".webp"]);
    (lit "video/*", [lit ".mp4"; lit ".webm"; lit ".mov"]);
    (lit "text/*", [lit ".txt"; lit ".csv"; lit ".fasta"; lit ".pdb"]) ].

Definition maxSize : N := 50 * 1024 * 1024.

(** What [useDropzone] does with them is the library's: react-dropzone
    reads the offered files through file-selector, which gives a file that
    has no type the type its table has for the extension; it flattens
    [accept] into the list of its keys and extensions; and a file passes
    when attr-accept matches one entry and the size is not above [maxSize].
    The definitions below follow the libraries. *)

(** [acceptPropAsAcceptAttr]: each key followed by its extensions.  The
    library drops entries that are neither a type nor an extension; every
    entry of [accept] is one or the other. *)
Definition acceptPropAsAcceptAttr (a : list (jsstring * list jsstring))
    : list jsstring :=
  flat_map (fun entry => fst entry :: snd entry) a.

Definition is_line_terminator (c : code_unit) : bool :=
  ((c =? 10) || (c =? 13) || (c =? 8232) || (c =? 8233))%N.

(** [s.replace(/\/.*$/, '')]: cut at the first slash after which no line
    terminator comes. *)
Fixpoint cut_at_slash (s : jsstring) : jsstring :=
  match s with
  | [] => []
  | c :: s' =>
      if (c =? 47)%N && forallb (fun d => negb (is_line_terminator d)) s'
      then []
      else c :: cut_at_slash s'
  end.

(** attr-accept: an entry starting with a dot is a suffix of the lowered
    file name, an entry ending in [/*] is a base type, any other entry is
    the whole type. *)
Definition matches_entry (f : Api.File) (entry : jsstring) : bool :=
  let mimeType := toLowerCase (Api.file_type f) in
  let baseMimeType := cut_at_slash mimeType in
  let validType := toLowerCase (trim entry) in
  match validType with
  | 46%N :: _ => endsWith (toLowerCase (Api.file_name f)) validType
  | _ =>
      if endsWith validType (lit "/*")
      then str_eqb baseMimeType (cut_at_slash validType)
      else str_eqb mimeType validType
  end.

Definition accepts (f : Api.File) (acceptedFiles : list jsstring) : bool :=
  match acceptedFiles with
  | [] => true
  | _ => existsb (matches_entry f) acceptedFiles
  end.

(** [fileAccepted] and [fileMatchSize] of react-dropzone. *)
Definition fileAccepted (f : Api.File) : bool :=
  str_eqb (Api.file_type f) (lit "application/x-moz-file")
  || accepts f (acceptPropAsAcceptAttr accept).

Definition fileMatchSize (f : Api.File) : bool :=
  negb (maxSize <? Api.file_size f)%N.

(** The types and the extensions of the [accept] option. *)
Definition accepted_types : list jsstring := map fst accept.
Definition accepted_extensions : list jsstring := flat_map snd accept.

Section FileSelector.

(** [COMMON_MIME_TYPES.get] of file-selector: the type the library's table
    has for an extension.  The table is the library's and is not part of
    this repository. *)
Variable COMMON_MIME_TYPES : jsstring -> option jsstring.

(** [withMimeType] of file-selector: a file without a type, whose name has
    a dot, gets the type of the table for what follows the last dot, in
    lower case, when the table has one. *)
Definition withMimeType (f : Api.File) : Api.File :=
  if existsb (N.eqb 46) (Api.file_name f)
     && match Api.file_type f with [] => true | _ => false end
  then
    match COMMON_MIME_TYPES
            (toLowerCase (last (split 46%N (Api.file_name f)) [])) with
    | Some (c :: type) =>
        {| Api.file_name := Api.file_name f;
           Api.file_type := c :: type;
           Api.file_size := Api.file_size f |}
    | _ => f
    end
  else f.

(** Whether a file offered to the drop zone is handed to [onDrop]: the
    tests are made on the file as file-selector gives it. *)
Definition accepted (f : Api.File) : bool :=
  fileAccepted (withMimeType f) && fileMatchSize (withMimeType f).

(** [onDrop]: the accepted files, as file-selector gives them, go to
    [onFilesDropped]. *)
Definition onDrop (offered : list Api.File) (st : Page.PageState)
    : Page.PageState :=
  Page.handleFilesDropped
    (filter (fun f => fileAccepted f && fileMatchSize f)
            (map withMimeType offered)) st.

End FileSelector.

(** The allow-list in the words of the specification: pdf, image/*,
    video/*, text/plain, fasta, pdb.  The two sequence formats have no type
    of their own and are read as file extensions. *)
Definition in_documented_allow_list (f : Api.File) : bool :=
  let mimeType := toLowerCase (Api.file_type f) in
  let name := toLowerCase (Api.file_name f) in
  str_eqb mimeType (lit "application/pdf") || endsWith name (lit ".pdf")
  || str_eqb (cut_at_slash mimeType) (lit "image")
  || str_eqb (cut_at_slash mimeType) (lit "video")
  || str_eqb mimeType (lit "text/plain")
  || endsWith name (lit ".fasta")
  || endsWith name (lit ".pdb").

(** [x.toFixed(1)] for [x = num / den] with [num] below [2^53] and [den] a
    power of two, so that [num] and [x] are doubles: the tenths nearest to
    [x], the larger of two that are equally near, printed with one
    decimal. *)
Definition nearest_tenths (num den : N) : N := (num * 10 + den / 2) / den.

Definition toFixed1 (num den : N) : jsstring :=
  decimal (nearest_tenths num den / 10) ++ lit "."
  ++ decimal (nearest_tenths num den mod 10).

(** The integers a double holds one by one: those below [2^53]. *)
Definition MAX_SAFE_SIZE : N := 9007199254740992.

(** [formatFileSize(bytes)] for a size below [2^53], about nine million
    gigabytes.  A larger size need not be a double, and from [10^21] on
    [toFixed] prints an exponent: such sizes are left out, [None]. *)
Definition formatFileSize (bytes : N) : option jsstring :=
  if (bytes <? 1024)%N then Some (decimal bytes ++ lit " B")
  else if (bytes <? 1024 * 1024)%N
  then Some (toFixed1 bytes 1024 ++ lit " KB")
  else if (bytes <? MAX_SAFE_SIZE)%N
  then Some (toFixed1 bytes (1024 * 1024) ++ lit " MB")
  else None.

End FileUpload.

(** ** The session memory store *)

Module MemoryStore.
Import JS.

Inductive record_kind : Type := query_result | ingested_chunk.

(** Modelled from the spec: the MemoryRecord of the data model.  The store
    itself is server code that is not part of the client sources. *)
Record MemoryRecord : Type := {
  id : N;
  session_id : jsstring;
  kind : record_kind;
  content : jsval;
  created_at : Z
}.

(** Modelled from the spec: the MemoryStore with the VectorIndex behind it.
    [records] holds the records in the order they were written, [vectors]
    the ids of the records whose vector is indexed. *)
Record Store : Type := {
  records : list MemoryRecord;
  vectors : list N
}.

(** Modelled from the spec: the store before any write. *)
Definition empty : Store := {| records := []; vectors := [] |}.

(** Modelled from the spec: a record is owned by the session it names. *)
Definition in_session (s : jsstring) (r : MemoryRecord) : bool :=
  str_eqb (session_id r) s.

(** Modelled from the spec: count(session). *)
Definition count (s : jsstring) (st : Store) : nat :=
  length (filter (in_session s) (records st)).

(** Modelled from the spec: "oldest (by created_at)", the least
    [created_at] among the records of a session. *)
Fixpoint oldest_time (s : jsstring) (l : list MemoryRecord) : option Z :=
  match l with
  | [] => None
  | r :: rest =>
      if in_session s r then
        match oldest_time s rest with
        | Some t => Some (Z.min (created_at r) t)
        | None => Some (created_at r)
        end
      else oldest_time s rest
  end.

(** Modelled from the spec: a record of the session written at that time. *)
Definition is_oldest (s : jsstring) (t : Z) (r : MemoryRecord) : bool :=
  in_session s r && (created_at r =? t)%Z.

(** Modelled from the spec: deleting one record, the first in storage order
    that satisfies [p]; the record comes with what is left. *)
Fixpoint take_out {A} (p : A -> bool) (l : list A) : option A * list A :=
  match l with
  | [] => (None, [])
  | x :: rest =>
      if p x then (Some x, rest)
      else let (found, rest') := take_out p rest in (found, x :: rest')
  end.

(** Modelled from the spec: delete the oldest record of the session, by
    [created_at], and its vector. *)
Definition evict_oldest (s : jsstring) (st : Store) : Store :=
  match oldest_time s (records st) with
  | None => st
  | Some t =>
      match take_out (is_oldest s t) (records st) with
      | (Some r, rest) =>
          {| records := rest;
             vectors := snd (take_out (N.eqb (id r)) (vectors st)) |}
      | (None, _) => st
      end
  end.

Section Bounded.

(** The configuration option [MAX_MEMORY_ITEMS] (100 unless set). *)
Variable MAX_MEMORY_ITEMS : nat.

(** Modelled from the spec: the eviction policy, "if count(session) >
    MAX_MEMORY_ITEMS, delete the oldest record(s) until count equals
    MAX_MEMORY_ITEMS".  The loop runs at most [fuel] times. *)
Fixpoint evict (fuel : nat) (s : jsstring) (st : Store) : Store :=
  match fuel with
  | O => st
  | S fuel' =>
      if (MAX_MEMORY_ITEMS <? count s st)%nat
      then evict fuel' s (evict_oldest s st)
      else st
  end.

(** Modelled from the spec: Append(record), the write followed by the
    eviction check.  The session holds no more records than the store, so
    the loop has all the turns it can need. *)
Definition Append (r : MemoryRecord) (st : Store) : Store :=
  let written := {| records := records st ++ [r];
                    vectors := vectors st ++ [id r] |} in
  evict (length (records written)) (session_id r) written.

(** Modelled from the spec: a sequence of Appends, first to last. *)
Definition Appends (rs : list MemoryRecord) (st : Store) : Store :=
  fold_left (fun acc r => Append r acc) rs st.

End Bounded.

(** The value of [MAX_MEMORY_ITEMS] in the documented configuration. *)
Definition default_MAX_MEMORY_ITEMS : nat := 100.

(** Modelled from the spec: whether [i] is the id of a record of the
    session. *)
Definition has_id_in (s : jsstring) (l : list MemoryRecord) (i : N) : bool :=
  existsb (fun r => in_session s r && N.eqb (id r) i) l.

(** Modelled from the spec: Clear(session), which purges all records and
    vectors of the session and nothing else. *)
Definition Clear (s : jsstring) (st : Store) : Store :=
  {| records := filter (fun r => negb (in_session s r)) (records st);
     vectors := filter (fun i => negb (has_id_in s (records st) i))
                       (vectors st) |}.

(** Modelled from the spec: the endpoint behind [clearMemory],
    ClearMemory(session_id) -> (), for which the specification has no
    failure: it clears and replies with a success status after [delay]
    milliseconds. *)
Definition serve_clear (delay : N) (st : Store) (s : jsstring)
    : Store * Api.exchange :=
  (Clear s st, {| Api.latency := delay; Api.reply := Api.Reply 200 VNull |}).

End MemoryStore.

(** ** The memory panel ([MemoryPanel]) *)

Module MemoryPanel.
Import JS.

Record PanelState : Type := {
  memories : list jsval;
  isLoading : bool;
  error : option jsstring
}.

(** [clearMemories()] for the [sessionId] prop ([None] is [null]), given
    how the DELETE it sends is answered. *)
Definition clearMemories (sessionId : option jsstring) (x : Api.exchange)
    (st : PanelState) : PanelState * list Api.action * completion unit :=
  match sessionId with
  | None | Some [] => (st, [], Returned tt)
  | Some sid =>
      match Api.axios_delete (lit "/api/memory/" ++ sid) x with
      | (log, Returned _) =>
          ({| memories := []; isLoading := isLoading st; error := error st |},
           log, Returned tt)
      | (log, Threw _) =>
          ({| memories := memories st; isLoading := isLoading st;
              error := Some (lit "Failed to clear memories") |},
           log, Returned tt)
      end
  end.

(** The panel clearing the memory of a session on the server [store]: the
    server changes only when a request was sent. *)
Definition clear_on_server (delay : N) (sessionId : option jsstring)
    (sys : MemoryStore.Store * PanelState)
    : (MemoryStore.Store * PanelState) * completion unit :=
  let (store, panel) := sys in
  let sid := match sessionId with Some s => s | None => [] end in
  let (store', x) := MemoryStore.serve_clear delay store sid in
  let '(panel', log, c) := clearMemories sessionId x panel in
  ((match log with [] => store | _ => store' end, panel'), c).

Section Preview.

(** [JSON.stringify] on an object or an array, for which it gives a
    string. *)
Variable JSON_stringify : jsval -> jsstring.

(** [getContentPreview(content)].  [typeof null] is ['object'], so a
    [null] content reaches [content.query] and raises a TypeError; neither
    [query] nor [result] is a property of a prototype; a truthy [result]
    that is neither a string nor an array has no [slice] to call, and an
    array that has no string cannot be put before the dots. *)
Definition getContentPreview (content : jsval) : completion jsval :=
  match content with
  | VStr _ => Returned content
  | VNull => Threw JsTypeError
  | VArr _ | VObj _ =>
      let q := match get_prop content (lit "query") with
               | Some v => v | None => VUndefined end in
      if truthy q then Returned q
      else
        let r := match get_prop content (lit "result") with
                 | Some v => v | None => VUndefined end in
        if truthy r then
          match r with
          | VStr text => Returned (VStr (firstn 100 text ++ lit "..."))
          | VArr elems =>
              match ToString (VArr (firstn 100 elems)) with
              | Some text => Returned (VStr (text ++ lit "..."))
              | None => Threw JsTypeError
              end
          | _ => Threw JsTypeError
          end
        else Returned (VStr (firstn 100 (JSON_stringify content) ++ lit "..."))
  | _ =>
      match ToString content with
      | Some text => Returned (VStr text)
      | None => Threw JsTypeError
      end
  end.

End Preview.

End MemoryPanel.

(** ** The chart panel ([ChartLab]) *)

Module ChartLab.
Import JS.

(** [goToPrevChart] and [goToNextChart]: the updates of [activeChart], for
    [charts.length = length]. *)
Definition goToPrevChart (length : Z) (prev : Z) : Z :=
  if (0 <? prev)%Z then (prev - 1)%Z else (length - 1)%Z.

Definition goToNextChart (length : Z) (prev : Z) : Z :=
  if (prev <? length - 1)%Z then (prev + 1)%Z else 0%Z.

(** [s.replace(/\s+/g, '_')]: each run of white space becomes one
    underscore.  [in_run] says that the code unit before was white space. *)
Fixpoint underscore_runs (in_run : bool) (s : jsstring) : jsstring :=
  match s with
  | [] => []
  | c :: rest =>
      if is_whitespace c then
        if in_run then underscore_runs true rest
        else 95%N :: underscore_runs true rest
      else c :: underscore_runs false rest
  end.

(** What [handleDownload] gives the link it clicks. *)
Record download : Type := {
  href : jsstring;
  file_name : jsstring
}.

(** [handleDownload()]: [None] when the chart has no image and nothing is
    downloaded.  Reading a chart that is not there, an image that has no
    string, or replacing in a title that is not a string, raises a
    TypeError. *)
Definition handleDownload (charts : list jsval) (activeChart : nat)
    : completion (option download) :=
  match nth_error charts activeChart with
  | None => Threw JsTypeError
  | Some chart =>
      match get_prop chart (lit "image_base64") with
      | None => Threw JsTypeError
      | Some image =>
          if truthy image then
            match ToString image, get_prop chart (lit "title") with
            | Some text, Some (VStr title) =>
                Returned
                  (Some {| href := lit "data:image/png;base64," ++ text;
                           file_name := underscore_runs false title ++ lit ".png" |})
            | _, _ => Threw JsTypeError
            end
          else Returned None
      end
  end.

End ChartLab.

(** ** A JSON reader for the examples *)

(** [analyzeWithStreaming] is stated for whatever [JSON.parse] is.  To run it
    on concrete server text the examples use this reader, which follows the
    JSON grammar (ECMA-404) except for numbers: it reads integers of at most
    fifteen digits and gives up on any other number. *)
Module Json.
Import JS.

Definition is_ws (c : code_unit) : bool :=
  ((c =? 32) || (c =? 9) || (c =? 10) || (c =? 13))%N.

Fixpoint skip_ws (s : jsstring) : jsstring :=
  match s with
  | c :: s' => if is_ws c then skip_ws s' else s
  | [] => []
  end.

Definition hex_value (c : code_unit) : option N :=
  if ((48 <=? c) && (c <=? 57))%N then Some (c - 48)%N
  else if ((65 <=? c) && (c <=? 70))%N then Some (c - 55)%N
  else if ((97 <=? c) && (c <=? 102))%N then Some (c - 87)%N
  else None.

Definition hex4 (a b c d : code_unit) : option code_unit :=
  match hex_value a, hex_value b, hex_value c, hex_value d with
  | Some x, Some y, Some z, Some w => Some (((x * 16 + y) * 16 + z) * 16 + w)%N
  | _, _, _, _ => None
  end.

Definition escape (c : code_unit) : option code_unit :=
  if (c =? 34)%N then Some 34%N            (* quote *)
  else if (c =? 92)%N then Some 92%N       (* backslash *)
  else if (c =? 47)%N then Some 47%N       (* slash *)
  else if (c =? 98)%N then Some 8%N        (* b *)
  else if (c =? 102)%N then Some 12%N      (* f *)
  else if (c =? 110)%N then Some 10%N      (* n *)
  else if (c =? 114)%N then Some 13%N      (* r *)
  else if (c =? 116)%N then Some 9%N       (* t *)
  else None.

(** The rest of a string after its opening quote. *)
Fixpoint read_string (s : jsstring) (acc : jsstring)
    : option (jsstring * jsstring) :=
  match s with
  | [] => None
  | c :: rest =>
      if (c =? 34)%N then Some (rev acc, rest)
      else if (c =? 92)%N then
        match rest with
        | e :: rest1 =>
            if (e =? 117)%N then
              match rest1 with
              | h1 :: h2 :: h3 :: h4 :: rest2 =>
                  match hex4 h1 h2 h3 h4 with
                  | Some u => read_string rest2 (u :: acc)
                  | None => None
                  end
              | _ => None
              end
            else match escape e with
                 | Some u => read_string rest1 (u :: acc)
                 | None => None
                 end
        | [] => None
        end
      else if (c <? 32)%N then None
      else read_string rest (c :: acc)
  end.

Definition is_digit (c : code_unit) : bool := ((48 <=? c) && (c <=? 57))%N.

Fixpoint read_digits (s : jsstring) : jsstring * jsstring :=
  match s with
  | c :: s' =>
      if is_digit c then let (ds, rest) := read_digits s' in (c :: ds, rest)
      else ([], s)
  | [] => ([], [])
  end.

Definition starts_fraction_or_exponent (s : jsstring) : bool :=
  match s with
  | c :: _ => ((c =? 46) || (c =? 101) || (c =? 69))%N
  | [] => false
  end.

Definition read_number (s : jsstring) : option (jsval * jsstring) :=
  let (negative, body) :=
    match s with
    | 45%N :: s' => (true, s')
    | _ => (false, s)
    end in
  let (ds, rest) := read_digits body in
  match ds with
  | [] => None
  | [48%N] =>
      if starts_fraction_or_exponent rest then None
      else Some (VNum (lit "0"), rest)
  | 48%N :: _ => None
  | _ =>
      if starts_fraction_or_exponent rest || (15 <? length ds)%nat then None
      else Some (VNum (if negative then 45%N :: ds else ds), rest)
  end.

Definition read_word (w : jsstring) (v : jsval) (s : jsstring)
    : option (jsval * jsstring) :=
  if startsWith s w then Some (v, skipn (length w) s) else None.

Fixpoint read_value (fuel : nat) (s : jsstring) : option (jsval * jsstring) :=
  match fuel with
  | O => None
  | S fuel' =>
      match skip_ws s with
      | [] => None
      | c :: rest =>
          if (c =? 123)%N then
            match skip_ws rest with
            | 125%N :: rest1 => Some (VObj [], rest1)
            | _ =>
                match read_members fuel' rest [] with
                | Some (fs, rest1) => Some (VObj fs, rest1)
                | None => None
                end
            end
          else if (c =? 91)%N then
            match skip_ws rest with
            | 93%N :: rest1 => Some (VArr [], rest1)
            | _ =>
                match read_elements fuel' rest [] with
                | Some (vs, rest1) => Some (VArr vs, rest1)
                | None => None
                end
            end
          else if (c =? 34)%N then
            match read_string rest [] with
            | Some (str, rest1) => Some (VStr str, rest1)
            | None => None
            end
          else if (c =? 116)%N then read_word (lit "true") (VBool true) (c :: rest)
          else if (c =? 102)%N then read_word (lit "false") (VBool false) (c :: rest)
          else if (c =? 110)%N then read_word (lit "null") VNull (c :: rest)
          else read_number (c :: rest)
      end
  end
with read_elements (fuel : nat) (s : jsstring) (acc : list jsval)
    : option (list jsval * jsstring) :=
  match fuel with
  | O => None
  | S fuel' =>
      match read_value fuel' s with
      | None => None
      | Some (v, rest) =>
          match skip_ws rest with
          | c :: rest1 =>
              if (c =? 44)%N then read_elements fuel' rest1 (v :: acc)
              else if (c =? 93)%N then Some (rev (v :: acc), rest1)
              else None
          | [] => None
          end
      end
  end
with read_members (fuel : nat) (s : jsstring) (acc : list (jsstring * jsval))
    : option (list (jsstring * jsval) * jsstring) :=
  match fuel with
  | O => None
  | S fuel' =>
      match skip_ws s with
      | 34%N :: rest =>
          match read_string rest [] with
          | None => None
          | Some (key, rest1) =>
              match skip_ws rest1 with
              | 58%N :: rest2 =>
                  match read_value fuel' rest2 with
                  | None => None
                  | Some (v, rest3) =>
                      match skip_ws rest3 with
                      | c :: rest4 =>
                          if (c =? 44)%N
                          then read_members fuel' rest4 ((key, v) :: acc)
                          else if (c =? 125)%N
                          then Some (rev ((key, v) :: acc), rest4)
                          else None
                      | [] => None
                      end
                  end
              | _ => None
              end
          end
      | _ => None
      end
  end.

Definition parse (s : jsstring) : option jsval :=
  match read_value (2 * length s + 2) s with
  | Some (v, rest) =>
      match skip_ws rest with
      | [] => Some v
      | _ => None
      end
  | None => None
  end.

End Json.

(** ** What the specification says, as predicates on the model *)

Module Props.
Import JS.

(** The steps a log delivers to the callback, in order. *)
Fixpoint callbacks_of (log : list Api.action) : list jsval :=
  match log with
  | [] => []
  | Api.ACallback step :: rest => step :: callbacks_of rest
  | _ :: rest => callbacks_of rest
  end.

(** The log of the four simulated steps: each is delivered and followed by a
    pause of half a second. *)
Definition simulated_steps : list Api.action :=
  flat_map (fun step => [Api.ACallback (VStr step); Api.ASleep 500])
           Api.thinkingSteps.

(** The request [analyzeData] sends, for the form it has built. *)
Definition analyze_request (form : Api.FormData) : Api.action :=
  Api.ARequest (lit "/analyze") form (Some 120000%N).

(** An action after which the answer of the backend is complete: the whole
    body of the buffered response is in, or the stream has ended. *)
Definition completes (a : Api.action) : bool :=
  match a with
  | Api.ASettled _ | Api.AEnd => true
  | _ => false
  end.

(** Live delivery: once the answer is complete no step is delivered any
    more, every step having reached the caller before. *)
Definition delivered_live (log : list Api.action) : Prop :=
  forall before a after step,
    log = before ++ a :: after ->
    completes a = true ->
    ~ In (Api.ACallback step) after.

(** The time a log takes: its pauses and the waits for replies; computing
    takes none. *)
Fixpoint elapsed (log : list Api.action) : N :=
  match log with
  | [] => 0
  | Api.ASleep ms :: rest => ms + elapsed rest
  | Api.ASettled waited :: rest => waited + elapsed rest
  | _ :: rest => elapsed rest
  end.

(** The ceiling as the specification words it: a call that lasts longer
    than [ceiling] fails with the timeout error. *)
Definition within_ceiling {A} (ceiling : N) (m : Api.M A) : Prop :=
  (elapsed (fst m) <= ceiling)%N \/ snd m = Threw AxiosTimeout.

(** The upload contract as the specification words it: a file is accepted
    only if it is at most 50 MB and in the documented allow-list.  The type
    is the one the drop zone sees, for a given table of file-selector. *)
Definition accepted_only_if_documented
    (COMMON_MIME_TYPES : jsstring -> option jsstring) (f : Api.File) : Prop :=
  FileUpload.accepted COMMON_MIME_TYPES f = true ->
  (Api.file_size f <= 52428800)%N
  /\ FileUpload.in_documented_allow_list
       (FileUpload.withMimeType COMMON_MIME_TYPES f) = true.

(** A call that fails with an error. *)
Definition fails {A S} (out : S * list Api.action * completion A) : Prop :=
  exists e, snd out = Threw e.

(** [data.type === ty], false when reading the type fails. *)
Definition has_type (ty : jsstring) (data : jsval) : bool :=
  match get_prop data (lit "type") with
  | Some t => is_string t ty
  | None => false
  end.

(** [data.k], [undefined] when there is none. *)
Definition field (k : jsstring) (data : jsval) : jsval :=
  match get_prop data k with
  | Some v => v
  | None => VUndefined
  end.

(** The contents of the events of one type, in arrival order. *)
Definition contents_of (ty : jsstring) (events : list jsval) : list jsval :=
  map (field (lit "content")) (filter (has_type ty) events).

Section Events.

Variable JSON_parse : jsstring -> option jsval.

(** The events a line and a chunk carry: the payloads of the [data: ] lines
    that parse. *)
Definition event_of_line (line : jsstring) : list jsval :=
  if startsWith line (lit "data: ") then
    match JSON_parse (slice line 6) with
    | Some data => [data]
    | None => []
    end
  else [].

Definition events_of_chunk (chunk : jsstring) : list jsval :=
  flat_map event_of_line (split 10%N chunk).

(** What the reading loop does for one chunk that was read: the read, then
    the thinking steps of the chunk, delivered one by one. *)
Definition chunk_log (chunk : jsstring) : list Api.action :=
  Api.ARead chunk
  :: map Api.ACallback (contents_of (lit "thinking") (events_of_chunk chunk)).

End Events.

(** The session id the last [complete] event carries, [otherwise] if there
    is no such event. *)
Definition last_session_id (otherwise : jsval) (events : list jsval) : jsval :=
  fold_left (fun acc data =>
               if has_type (lit "complete") data
               then field (lit "session_id") data else acc)
            events otherwise.

(** What [+=] adds to the result text for a content: its string, and
    nothing for a content that has none, whose event the loop skips. *)
Definition text_of (content : jsval) : jsstring :=
  match ToString content with
  | Some text => text
  | None => []
  end.

(** The result after further events: what the four kinds of event add to
    a result [r]. *)
Definition extend (r : Api.AnalysisResult) (events : list jsval)
    : Api.AnalysisResult :=
  {| Api.session_id := last_session_id (Api.session_id r) events;
     Api.result :=
       Api.result r ++ concat (map text_of (contents_of (lit "response") events));
     Api.thinking_trace :=
       Api.thinking_trace r ++ contents_of (lit "thinking") events;
     Api.charts := Api.charts r ++ contents_of (lit "chart") events;
     Api.memory_context := Api.memory_context r;
     Api.timestamp := Api.timestamp r |}.

(** A survivor [x] of an eviction is at least as young as any record [y]
    that was evicted. *)
Definition evicted_are_oldest (before after : list MemoryStore.MemoryRecord)
    (s : jsstring) : Prop :=
  forall x y,
    In x after -> MemoryStore.in_session s x = true ->
    In y before -> MemoryStore.in_session s y = true ->
    ~ In y after ->
    (MemoryStore.created_at y <= MemoryStore.created_at x)%Z.

(** The VectorIndex agrees with the MemoryStore: it holds the vector of
    each stored record and no other, and record ids are not reused. *)
Definition index_consistent (st : MemoryStore.Store) : Prop :=
  MemoryStore.vectors st = map MemoryStore.id (MemoryStore.records st)
  /\ NoDup (map MemoryStore.id (MemoryStore.records st)).

(** JSON text for the examples: apostrophes stand for the double quotes. *)
Definition json (s : string) : jsstring :=
  map (fun c => if (c =? 39)%N then 34%N else c) (lit s).

(** The files a form carries, in order. *)
Fixpoint form_files (form : Api.FormData) : list Api.File :=
  match form with
  | [] => []
  | (_, Api.FFile f) :: rest => f :: form_files rest
  | (_, Api.FString _) :: rest => form_files rest
  end.

(** The text fields of a form under a name, in order. *)
Fixpoint form_texts (name : jsstring) (form : Api.FormData) : list jsstring :=
  match form with
  | [] => []
  | (k, Api.FString v) :: rest =>
      if str_eqb k name then v :: form_texts name rest
      else form_texts name rest
  | (_, Api.FFile _) :: rest => form_texts name rest
  end.

(** The chunks that a log read. *)
Fixpoint reads_of (log : list Api.action) : list jsstring :=
  match log with
  | [] => []
  | Api.ARead chunk :: rest => chunk :: reads_of rest
  | _ :: rest => reads_of rest
  end.

(** A chunk that holds whole lines: it is empty or ends with a line feed. *)
Definition whole_lines (chunk : jsstring) : bool :=
  match chunk with
  | [] => true
  | _ => (last chunk 0 =? 10)%N
  end.

(** The reads of a body cut it at line ends: every chunk but the last holds
    whole lines. *)
Definition cut_at_line_ends (chunks : list jsstring) : Prop :=
  forallb whole_lines (removelast chunks) = true.

(** A string in which every surrogate is half of a pair, a high one
    followed by a low one: what a USVString is. *)
Fixpoint well_formed (s : jsstring) : bool :=
  match s with
  | [] => true
  | c :: rest =>
      if is_high_surrogate c then
        match rest with
        | d :: rest' => is_low_surrogate d && well_formed rest'
        | [] => false
        end
      else negb (is_low_surrogate c) && well_formed rest
  end.

(** The forms of the requests that a log sent to [/analyze]. *)
Fixpoint requests_of (log : list Api.action) : list Api.FormData :=
  match log with
  | [] => []
  | Api.ARequest url form _ :: rest =>
      if str_eqb url (lit "/analyze") then form :: requests_of rest
      else requests_of rest
  | _ :: rest => requests_of rest
  end.

End Props.

(** ** Concrete inputs for the examples *)

Module Examples.
Import JS.

(** A question with no attachment, asked with a callback. *)
Definition question : Api.AnalyzeOptions :=
  {| Api.query := lit "What does BRCA1 do?"; Api.files := Some [];
     Api.sessionId := VUndefined; Api.onThinkingStep := true |}.

(** The body of a good reply of [/analyze]. *)
Definition answer : jsval :=
  VObj [ (lit "session_id", VStr (lit "s-1"));
         (lit "result", VStr (lit "BRCA1 repairs DNA."));
         (lit "thinking_trace", VArr [VStr (lit "Reading"); VStr (lit "Done")]);
         (lit "charts", VArr []) ].

(** Backends that answer after three seconds, after 119 seconds and after
    130 seconds. *)
Definition backend_after (ms : N) (_ : Api.FormData) : Api.exchange :=
  {| Api.latency := ms; Api.reply := Api.Reply 200 answer |}.

Definition quick_backend := backend_after 3000.
Definition slow_backend := backend_after 119000.
Definition late_backend := backend_after 130000.

(** Two chunks of a streamed reply; the first also carries a comment line
    and a line whose payload is cut. *)
Definition chunk1 : jsstring :=
  Props.json "data: {'type':'thinking','content':'Reading'}" ++ [10%N]
  ++ lit ": keep-alive" ++ [10%N]
  ++ lit "data: {oops" ++ [10%N].

Definition chunk2 : jsstring :=
  Props.json "data: {'type':'response','content':'Hello '}" ++ [10%N]
  ++ Props.json "data: {'type':'response','content':'world'}" ++ [10%N]
  ++ Props.json "data: {'type':'chart','content':{'kind':'bar'}}" ++ [10%N]
  ++ Props.json "data: {'type':'complete','session_id':'s-1'}" ++ [10%N].

Definition stream : Api.fetch_reply :=
  Api.FetchResolved 200 (Some ([chunk1; chunk2], Api.StreamDone)).

Definition now : jsstring := lit "2026-01-01T00:00:00.000Z".

(** The page with a blank query and no file, and with a question typed. *)
Definition blank_page : Page.PageState :=
  {| Page.sessionId := VNull; Page.query := lit "   "; Page.files := [];
     Page.isAnalyzing := false; Page.thinkingSteps := [];
     Page.result := VNull; Page.charts := VArr [];
     Page.activePanel := Page.PanelMain; Page.isDockMinimized := false;
     Page.showDock := true |}.

Definition asking_page : Page.PageState :=
  {| Page.sessionId := VNull; Page.query := lit "What does BRCA1 do?";
     Page.files := [];
     Page.isAnalyzing := false; Page.thinkingSteps := [];
     Page.result := VNull; Page.charts := VArr [];
     Page.activePanel := Page.PanelMain; Page.isDockMinimized := false;
     Page.showDock := true |}.

(** A table of measurements, as a browser reports it. *)
Definition csv_file : Api.File :=
  {| Api.file_name := lit "table.csv"; Api.file_type := lit "text/csv";
     Api.file_size := 2048 |}.

Definition memory (i : N) (s : string) (t : Z) : MemoryStore.MemoryRecord :=
  {| MemoryStore.id := i; MemoryStore.session_id := lit s;
     MemoryStore.kind := MemoryStore.query_result;
     MemoryStore.content := VNull; MemoryStore.created_at := t |}.

(** A reply whose [thinking_trace] is an object, and one whose trace is a
    string. *)
Definition odd_answer (trace : jsval) : jsval :=
  VObj [ (lit "session_id", VStr (lit "s-1"));
         (lit "result", VStr (lit "BRCA1 repairs DNA."));
         (lit "thinking_trace", trace) ].

Definition odd_backend (trace : jsval) (_ : Api.FormData) : Api.exchange :=
  {| Api.latency := 3000; Api.reply := Api.Reply 200 (odd_answer trace) |}.

Definition paper : Api.File :=
  {| Api.file_name := lit "paper.pdf"; Api.file_type := lit "application/pdf";
     Api.file_size := 3145728 |}.

Definition film : Api.File :=
  {| Api.file_name := lit "cells.mp4"; Api.file_type := lit "video/mp4";
     Api.file_size := 60000000 |}.

(** A stored interaction, as the memory panel receives it. *)
Definition stored_interaction : jsval :=
  VObj [ (lit "query", VStr []);
         (lit "result", VStr (lit "BRCA1 repairs DNA.")) ].

(** An excerpt of the table of file-selector. *)
Definition mime_table (extension : jsstring) : option jsstring :=
  if str_eqb extension (lit "avi") then Some (lit "video/x-msvideo")
  else if str_eqb extension (lit "bmp") then Some (lit "image/bmp")
  else if str_eqb extension (lit "html") then Some (lit "text/html")
  else if str_eqb extension (lit "csv") then Some (lit "text/csv")
  else if str_eqb extension (lit "pdf") then Some (lit "application/pdf")
  else if str_eqb extension (lit "zip") then Some (lit "application/zip")
  else None.

(** A report and an archive for which the browser reports no type. *)
Definition report : Api.File :=
  {| Api.file_name := lit "Report.HTML"; Api.file_type := [];
     Api.file_size := 1200 |}.

Definition archive : Api.File :=
  {| Api.file_name := lit "reads.zip"; Api.file_type := [];
     Api.file_size := 1200 |}.

(** One thinking event, the body that carries it, and the body as two reads
    that meet inside the line. *)
Definition thought : jsstring :=
  Props.json "data: {'type':'thinking','content':'Reading'}" ++ [10%N].

Definition cut_stream : Api.fetch_reply :=
  Api.FetchResolved 200
    (Some ([firstn 19 thought; skipn 19 thought], Api.StreamDone)).

Definition whole_stream : Api.fetch_reply :=
  Api.FetchResolved 200 (Some ([thought], Api.StreamDone)).

(** A body whose only line does not start with [data: ], as one read and as
    two reads that meet after its first two characters. *)
Definition remark : jsstring :=
  Props.json ": data: {'type':'complete','session_id':'s-2'}" ++ [10%N].

Definition cut_remark : Api.fetch_reply :=
  Api.FetchResolved 200
    (Some ([firstn 2 remark; skipn 2 remark], Api.StreamDone)).

Definition whole_remark : Api.fetch_reply :=
  Api.FetchResolved 200 (Some ([remark], Api.StreamDone)).

(** Response events whose contents are a number, a list, an object, and an
    object that has no string. *)
Definition mixed_stream : Api.fetch_reply :=
  Api.FetchResolved 200
    (Some ([ Props.json "data: {'type':'response','content':'n='}" ++ [10%N]
             ++ Props.json "data: {'type':'response','content':42}" ++ [10%N];
             Props.json "data: {'type':'response','content':[1,null,'x']}" ++ [10%N]
             ++ Props.json "data: {'type':'response','content':{'toString':1}}"
             ++ [10%N]
             ++ Props.json "data: {'type':'response','content':{'a':1}}" ++ [10%N] ],
           Api.StreamDone)).

Definition bar_chart : jsval :=
  VObj [ (lit "type", VStr (lit "bar"));
         (lit "title", VStr (lit "Expression  by tissue"));
         (lit "image_base64", VStr (lit "iVBORw0KGgo=")) ].

End Examples.

(** * Properties *)

Import JS.

(** ** Strings *)

Lemma str_eqb_refl (a : jsstring) : str_eqb a a = true.
Proof.
  induction a as [|x a IH]; simpl; [reflexivity|].
  now rewrite N.eqb_refl, IH.
Qed.

Lemma str_eqb_eq (a b : jsstring) : str_eqb a b = true <-> a = b.
Proof.
  split.
  - revert b; induction a as [|x a IH]; intros [|y b] H; simpl in H;
      try discriminate; [reflexivity|].
    apply andb_true_iff in H as [Hx Hr].
    apply N.eqb_eq in Hx. apply IH in Hr. now subst.
  - intros ->. apply str_eqb_refl.
Qed.

Lemma str_eqb_neq (a b : jsstring) : a <> b -> str_eqb a b = false.
Proof.
  intros Hne. destruct (str_eqb a b) eqn:E; [|reflexivity].
  apply str_eqb_eq in E. contradiction.
Qed.

Lemma trimStart_all_whitespace (s : jsstring) :
  trimStart s = [] <-> forallb is_whitespace s = true.
Proof.
  induction s as [|c s IH]; simpl; [tauto|].
  destruct (is_whitespace c); simpl; [exact IH|].
  split; discriminate.
Qed.

(** [query.trim()] is empty exactly when the query is whitespace only. *)
Lemma trim_empty_iff (s : jsstring) :
  trim s = [] <-> forallb is_whitespace s = true.
Proof.
  unfold trim. split.
  - intros H. apply trimStart_all_whitespace.
    assert (Hr : trimStart (rev (trimStart s)) = []).
    { apply (f_equal (@rev _)) in H. now rewrite rev_involutive in H. }
    destruct (trimStart s) as [|c t] eqn:E; [reflexivity|].
    exfalso.
    (* the text left after trimming the start begins with a non-blank *)
    assert (Hc : is_whitespace c = false).
    { clear -E. induction s as [|d s IH]; simpl in E; [discriminate|].
      destruct (is_whitespace d) eqn:Ed; [now apply IH|].
      now injection E as -> _. }
    apply trimStart_all_whitespace in Hr.
    rewrite forallb_forall in Hr.
    specialize (Hr c). rewrite Hc in Hr.
    assert (In c (rev (c :: t))) by (apply in_rev; rewrite rev_involutive; now left).
    now specialize (Hr H0).
  - intros H. apply trimStart_all_whitespace in H. now rewrite H.
Qed.

Lemma split_not_empty (sep : code_unit) (s : jsstring) : split sep s <> [].
Proof.
  destruct s as [|c s]; simpl; [discriminate|].
  destruct (N.eqb c sep); [discriminate|].
  destruct (split sep s); discriminate.
Qed.

Lemma split_at_separator (sep : code_unit) (a b : jsstring) :
  split sep (a ++ sep :: b) = split sep a ++ split sep b.
Proof.
  induction a as [|c a IH].
  - simpl. now rewrite N.eqb_refl.
  - cbn [app split]. rewrite IH.
    destruct (N.eqb c sep); [reflexivity|].
    pose proof (split_not_empty sep a) as Hne.
    destruct (split sep a) as [|l ls]; [contradiction|reflexivity].
Qed.

Example split_keeps_the_last_empty_piece :
  split 10%N (lit "a" ++ [10%N] ++ lit "b" ++ [10%N]) = [lit "a"; lit "b"; []].
Proof. reflexivity. Qed.

Example trim_strips_both_ends :
  trim ([9; 32; 160]%N ++ lit "a b" ++ [13; 10; 8232]%N) = lit "a b".
Proof. reflexivity. Qed.

Example code_points_keep_pairs :
  code_points ([55357; 56620; 65]%N) = [[55357; 56620]%N; [65%N]].
Proof. reflexivity. Qed.

(** ** The computation monad *)

Lemma for_each_callbacks (steps : list jsval) :
  Api.for_each steps (fun step => Api.emit (Api.ACallback step))
  = (map Api.ACallback steps, Returned tt).
Proof.
  induction steps as [|x steps IH]; [reflexivity|].
  simpl. rewrite IH. reflexivity.
Qed.

Lemma simulated_steps_run :
  Api.for_each Api.thinkingSteps
    (fun step => Api.bind (Api.emit (Api.ACallback (VStr step)))
                          (fun _ => Api.emit (Api.ASleep 500)))
  = (Props.simulated_steps, Returned tt).
Proof. reflexivity. Qed.

Lemma callbacks_of_app (l1 l2 : list Api.action) :
  Props.callbacks_of (l1 ++ l2) = Props.callbacks_of l1 ++ Props.callbacks_of l2.
Proof.
  induction l1 as [|a l1 IH]; [reflexivity|].
  destruct a; simpl; rewrite IH; reflexivity.
Qed.

Lemma callbacks_of_map (steps : list jsval) :
  Props.callbacks_of (map Api.ACallback steps) = steps.
Proof.
  induction steps as [|x steps IH]; simpl; [reflexivity|now rewrite IH].
Qed.

Lemma elapsed_app (l1 l2 : list Api.action) :
  Props.elapsed (l1 ++ l2) = (Props.elapsed l1 + Props.elapsed l2)%N.
Proof.
  induction l1 as [|a l1 IH]; [reflexivity|].
  destruct a; simpl; rewrite IH; lia.
Qed.

Lemma elapsed_callbacks (steps : list jsval) :
  Props.elapsed (map Api.ACallback steps) = 0%N.
Proof. induction steps; simpl; auto. Qed.

(** ** [analyzeData] *)

Section AnalyzeData.

Variable backend : Api.FormData -> Api.exchange.
Variable o : Api.AnalyzeOptions.

(** The form of the call, when it can be built. *)
Variable form : Api.FormData.
Hypothesis Hform : Api.build_form o = Some form.

Let x := backend form.
Let pre := if Api.onThinkingStep o then Props.simulated_steps else [].

(** The request is the first thing after the simulated steps, whatever
    happens to it. *)
Lemma analyzeData_starts :
  exists rest waited,
    fst (Api.analyzeData backend o)
    = pre ++ Props.analyze_request form :: Api.ASettled waited :: rest
    /\ (waited <= 120000)%N
    /\ Props.elapsed rest = 0%N.
Proof.
  unfold Api.analyzeData, Api.axios_post, pre, Props.analyze_request.
  rewrite Hform. fold x.
  destruct (Api.onThinkingStep o); rewrite ?simulated_steps_run;
    (destruct (120000 <? Api.latency x)%N eqn:Hl;
     [ exists [], 120000%N; simpl; rewrite ?app_nil_r; repeat split; lia
     | apply N.ltb_ge in Hl ]).
  - destruct (Api.reply x) as [status data|]; simpl;
      [destruct (Api.ok_status status); simpl;
       [destruct (get_prop data (lit "thinking_trace")) as [trace|]; simpl;
        [destruct (truthy trace); simpl;
         [destruct (iterate trace) as [steps|]; simpl|]|]|]|].
    + rewrite for_each_callbacks. simpl.
      exists (map Api.ACallback steps ++ []), (Api.latency x).
      repeat split; auto.
      rewrite app_nil_r. apply elapsed_callbacks.
    + exists [], (Api.latency x). auto.
    + exists [], (Api.latency x). auto.
    + exists [], (Api.latency x). auto.
    + exists [], (Api.latency x). auto.
    + exists [], (Api.latency x). auto.
  - destruct (Api.reply x) as [status data|]; simpl;
      [destruct (Api.ok_status status); simpl|];
      exists [], (Api.latency x); auto.
Qed.

(** A reply that takes longer than the timeout of the request makes the
    call fail with the timeout error. *)
Lemma analyzeData_timeout :
  (120000 < Api.latency x)%N ->
  Api.analyzeData backend o
  = (pre ++ [Props.analyze_request form; Api.ASettled 120000], Threw AxiosTimeout).
Proof.
  intros Hl. apply N.ltb_lt in Hl.
  unfold Api.analyzeData, Api.axios_post, pre, Props.analyze_request.
  rewrite Hform. fold x. rewrite Hl.
  destruct (Api.onThinkingStep o).
  - rewrite simulated_steps_run. reflexivity.
  - reflexivity.
Qed.

(** A good reply in time whose [thinking_trace] is an array of steps: with
    a callback the steps are forwarded, after the reply is complete. *)
Lemma analyzeData_forwards (status : N) (data : jsval) (steps : list jsval) :
  Api.onThinkingStep o = true ->
  (Api.latency x <= 120000)%N ->
  Api.reply x = Api.Reply status data ->
  Api.ok_status status = true ->
  get_prop data (lit "thinking_trace") = Some (VArr steps) ->
  Api.analyzeData backend o
  = (Props.simulated_steps
       ++ [Props.analyze_request form; Api.ASettled (Api.latency x)]
       ++ map Api.ACallback steps,
     Returned data).
Proof.
  intros Hcb Hl Hr Hok Ht. apply N.ltb_ge in Hl.
  unfold Api.analyzeData, Api.axios_post, Props.analyze_request.
  rewrite Hform. fold x. rewrite Hcb, Hl, Hr, Hok, simulated_steps_run.
  simpl. rewrite Ht. simpl. rewrite for_each_callbacks. simpl.
  now rewrite app_nil_r.
Qed.

(** When the call throws, the only steps delivered are the simulated ones. *)
Lemma analyzeData_failure_log (log : list Api.action) (e : error) :
  Api.analyzeData backend o = (log, Threw e) ->
  Props.callbacks_of log = Props.callbacks_of pre.
Proof.
  unfold Api.analyzeData, Api.axios_post, pre.
  rewrite Hform. fold x.
  destruct (Api.onThinkingStep o); rewrite ?simulated_steps_run;
    (destruct (120000 <? Api.latency x)%N;
     [ simpl; intros H; injection H as <- _; reflexivity | ]);
    (destruct (Api.reply x) as [status data|]; simpl;
     [ destruct (Api.ok_status status); simpl
     | intros H; injection H as <- _; reflexivity ]);
    try (intros H; first [discriminate | injection H as <- _; reflexivity]).
  destruct (get_prop data (lit "thinking_trace")) as [trace|]; simpl;
    [ destruct (truthy trace); simpl;
      [ destruct (iterate trace) as [steps|]; simpl;
        [ rewrite for_each_callbacks; simpl | ] | ] | ];
    intros H; first [discriminate | injection H as <- _; reflexivity].
Qed.

End AnalyzeData.

(** When an [append] throws, the call ends there: nothing is delivered and
    nothing is sent. *)
Lemma analyzeData_no_form (backend : Api.FormData -> Api.exchange)
    (o : Api.AnalyzeOptions) :
  Api.build_form o = None ->
  Api.analyzeData backend o = ([], Threw JsTypeError).
Proof. unfold Api.analyzeData. now intros ->. Qed.

(** The form can be built unless the session id is an object or a list
    that has no string. *)
Lemma build_form_some (o : Api.AnalyzeOptions) :
  ToString (Api.sessionId o) <> None ->
  exists form, Api.build_form o = Some form.
Proof.
  unfold Api.build_form, Api.session_entry. intros H.
  destruct (truthy (Api.sessionId o)); [|eauto].
  destruct (ToString (Api.sessionId o)); [eauto|contradiction].
Qed.

(** ** [analyzeWithStreaming] *)

Lemma is_string_true (v : jsval) (s : jsstring) :
  is_string v s = true -> v = VStr s.
Proof.
  destruct v; simpl; try discriminate.
  intros H. apply str_eqb_eq in H. now subst.
Qed.

Lemma extend_nil (r : Api.AnalysisResult) : Props.extend r [] = r.
Proof.
  destruct r. unfold Props.extend. simpl. now rewrite !app_nil_r.
Qed.

Lemma contents_of_app (ty : jsstring) (e1 e2 : list jsval) :
  Props.contents_of ty (e1 ++ e2)
  = Props.contents_of ty e1 ++ Props.contents_of ty e2.
Proof.
  unfold Props.contents_of. now rewrite filter_app, map_app.
Qed.

Lemma extend_app (r : Api.AnalysisResult) (e1 e2 : list jsval) :
  Props.extend (Props.extend r e1) e2 = Props.extend r (e1 ++ e2).
Proof.
  unfold Props.extend, Props.last_session_id. simpl.
  rewrite !contents_of_app, fold_left_app, map_app, concat_app, !app_assoc.
  reflexivity.
Qed.

(** One event: the [switch] does what [extend] says, and calls the callback
    exactly for a thinking event. *)
Lemma dispatch_extend (data : jsval) (r : Api.AnalysisResult) :
  match Api.dispatch data r with
  | Some out => out
  | None => ([], r)
  end
  = (Props.contents_of (lit "thinking") [data], Props.extend r [data]).
Proof.
  unfold Api.dispatch, Props.extend, Props.contents_of, Props.last_session_id,
    Props.has_type, Props.field.
  cbn [filter map fold_left concat].
  destruct (get_prop data (lit "type")) as [ty|] eqn:Ety.
  - destruct (is_string ty (lit "thinking")) eqn:E1.
    { apply is_string_true in E1. subst ty.
      destruct r; cbn; now rewrite ?app_nil_r. }
    destruct (is_string ty (lit "response")) eqn:E2.
    { apply is_string_true in E2. subst ty. unfold Props.text_of.
      destruct r; cbn.
      change [99%N; 111%N; 110%N; 116%N; 101%N; 110%N; 116%N]
        with (lit "content").
      destruct (get_prop data (lit "content")) as [c|];
        [destruct (ToString c)|]; cbn; now rewrite ?app_nil_r. }
    destruct (is_string ty (lit "chart")) eqn:E3.
    { apply is_string_true in E3. subst ty.
      destruct r; cbn; now rewrite ?app_nil_r. }
    destruct (is_string ty (lit "complete")) eqn:E4.
    { apply is_string_true in E4. subst ty.
      destruct r; cbn; now rewrite ?app_nil_r. }
    destruct r; cbn; now rewrite ?app_nil_r.
  - destruct r; cbn; now rewrite ?app_nil_r.
Qed.

Section StreamingProps.

Variable JSON_parse : jsstring -> option jsval.

Lemma process_line_extend (line : jsstring) (r : Api.AnalysisResult) :
  Api.process_line JSON_parse line r
  = (Props.contents_of (lit "thinking") (Props.event_of_line JSON_parse line),
     Props.extend r (Props.event_of_line JSON_parse line)).
Proof.
  unfold Api.process_line, Props.event_of_line.
  destruct (startsWith line (lit "data: ")).
  - destruct (JSON_parse (slice line 6)) as [data|].
    + apply dispatch_extend.
    + now rewrite extend_nil.
  - now rewrite extend_nil.
Qed.

Lemma process_lines_extend (lines : list jsstring) (r : Api.AnalysisResult) :
  Api.process_lines JSON_parse lines r
  = (Props.contents_of (lit "thinking")
       (flat_map (Props.event_of_line JSON_parse) lines),
     Props.extend r (flat_map (Props.event_of_line JSON_parse) lines)).
Proof.
  revert r. induction lines as [|line lines IH]; intros r.
  - simpl. now rewrite extend_nil.
  - cbn [Api.process_lines flat_map].
    rewrite process_line_extend, IH, contents_of_app, extend_app.
    reflexivity.
Qed.

Lemma process_chunk_extend (chunk : jsstring) (r : Api.AnalysisResult) :
  Api.process_chunk JSON_parse chunk r
  = (Props.contents_of (lit "thinking") (Props.events_of_chunk JSON_parse chunk),
     Props.extend r (Props.events_of_chunk JSON_parse chunk)).
Proof. apply process_lines_extend. Qed.

Lemma read_loop_done (chunks : list jsstring) (r : Api.AnalysisResult) :
  Api.read_loop JSON_parse chunks Api.StreamDone r
  = (flat_map (Props.chunk_log JSON_parse) chunks ++ [Api.AEnd],
     Returned (Props.extend r (flat_map (Props.events_of_chunk JSON_parse) chunks))).
Proof.
  revert r. induction chunks as [|chunk chunks IH]; intros r.
  - simpl. now rewrite extend_nil.
  - cbn [Api.read_loop flat_map].
    rewrite process_chunk_extend, IH.
    unfold Props.chunk_log, Api.emit, Api.emits, Api.bind.
    rewrite extend_app. cbn [app]. rewrite <- app_assoc. reflexivity.
Qed.

End StreamingProps.

(** ** Delivery of the thinking steps *)

Lemma live_when_completion_is_last (l : list Api.action) :
  forallb (fun a => negb (Props.completes a)) l = true ->
  Props.delivered_live (l ++ [Api.AEnd]).
Proof.
  intros Hl before.
  revert l Hl. induction before as [|b before IH]; intros l Hl a after step E Hc.
  - destruct l as [|y l]; simpl in E.
    + injection E as _ <-. intros [].
    + injection E as -> _. simpl in Hl.
      rewrite Hc in Hl. discriminate.
  - destruct l as [|y l]; simpl in E.
    + injection E as _ E. destruct before; discriminate.
    + injection E as _ E. simpl in Hl. apply andb_true_iff in Hl as [_ Hl].
      now apply (IH l Hl a after step).
Qed.

Lemma chunk_logs_do_not_complete (JSON_parse : jsstring -> option jsval)
    (chunks : list jsstring) :
  forallb (fun a => negb (Props.completes a))
          (flat_map (Props.chunk_log JSON_parse) chunks) = true.
Proof.
  induction chunks as [|chunk chunks IH]; [reflexivity|].
  cbn [flat_map]. rewrite forallb_app, IH, andb_true_r.
  unfold Props.chunk_log. cbn [forallb Props.completes negb andb].
  apply forallb_forall. intros a Ha. apply in_map_iff in Ha as [v [<- _]].
  reflexivity.
Qed.

(** The whole of a streamed call whose body ends well. *)
Lemma analyzeWithStreaming_done (JSON_parse : jsstring -> option jsval)
    (status : N) (chunks : list jsstring) (now : jsstring)
    (formData : Api.FormData) :
  Api.ok_status status = true ->
  Api.analyzeWithStreaming JSON_parse
    (Api.FetchResolved status (Some (chunks, Api.StreamDone))) now formData
  = (Api.ARequest (lit "/analyze/stream") formData None
       :: Api.AHeaders status
       :: flat_map (Props.chunk_log JSON_parse) chunks ++ [Api.AEnd],
     Returned (Props.extend (Api.initial_result now)
                 (flat_map (Props.events_of_chunk JSON_parse) chunks))).
Proof.
  intros Hok. unfold Api.analyzeWithStreaming.
  rewrite Hok. cbn [negb]. rewrite read_loop_done. reflexivity.
Qed.

(** C9.  When a callback is supplied, [analyzeData] first calls it with the
    four fixed simulated steps of the client, in this order: initializing
    the analysis pipeline, processing the uploaded documents, applying AI
    reasoning, generating visualizations; each is followed by a pause of
    half a second.  Only then is the request sent, whatever the query, the
    files and the session are, as long as the form can be built; the
    entries of the [thinking_trace] of the reply are forwarded only
    afterwards, once the reply is in. *)
Theorem simulated_steps_before_request
    (backend : Api.FormData -> Api.exchange) (o : Api.AnalyzeOptions)
    (form : Api.FormData) :
  Api.onThinkingStep o = true ->
  Api.build_form o = Some form ->
  (exists waited rest,
     fst (Api.analyzeData backend o)
     = [ Api.ACallback
           (VStr ([55357; 56620]%N ++ lit " Initializing analysis pipeline..."));
         Api.ASleep 500;
         Api.ACallback
           (VStr ([55357; 56516]%N ++ lit " Processing uploaded documents..."));
         Api.ASleep 500;
         Api.ACallback
           (VStr ([55358; 56812]%N ++ lit " Applying AI reasoning..."));
         Api.ASleep 500;
         Api.ACallback
           (VStr ([55357; 56522]%N ++ lit " Generating visualizations..."));
         Api.ASleep 500;
         Api.ARequest (lit "/analyze") form (Some 120000%N);
         Api.ASettled waited ]
       ++ rest)
  /\ (forall status data steps,
        (Api.latency (backend form) <= 120000)%N ->
        Api.reply (backend form) = Api.Reply status data ->
        Api.ok_status status = true ->
        get_prop data (lit "thinking_trace") = Some (VArr steps) ->
        Api.analyzeData backend o
        = ([ Api.ACallback
               (VStr ([55357; 56620]%N ++ lit " Initializing analysis pipeline..."));
             Api.ASleep 500;
             Api.ACallback
               (VStr ([55357; 56516]%N ++ lit " Processing uploaded documents..."));
             Api.ASleep 500;
             Api.ACallback
               (VStr ([55358; 56812]%N ++ lit " Applying AI reasoning..."));
             Api.ASleep 500;
             Api.ACallback
               (VStr ([55357; 56522]%N ++ lit " Generating visualizations..."));
             Api.ASleep 500;
             Api.ARequest (lit "/analyze") form (Some 120000%N);
             Api.ASettled (Api.latency (backend form)) ]
             ++ map Api.ACallback steps,
           Returned data)).
Proof.
  intros Hcb Hform. split.
  - destruct (@analyzeData_starts backend o form Hform)
      as (rest & waited & E & _).
    rewrite Hcb in E. exists waited, rest. exact E.
  - intros status data steps Hl Hr Hok Ht.
    exact (@analyzeData_forwards backend o form Hform status data steps
             Hcb Hl Hr Hok Ht).
Qed.

Lemma simulated_steps_before_request_witness :
  Api.analyzeData Examples.quick_backend Examples.question
  = ([ Api.ACallback
         (VStr ([55357; 56620]%N ++ lit " Initializing analysis pipeline..."));
       Api.ASleep 500;
       Api.ACallback
         (VStr ([55357; 56516]%N ++ lit " Processing uploaded documents..."));
       Api.ASleep 500;
       Api.ACallback
         (VStr ([55358; 56812]%N ++ lit " Applying AI reasoning..."));
       Api.ASleep 500;
       Api.ACallback
         (VStr ([55357; 56522]%N ++ lit " Generating visualizations..."));
       Api.ASleep 500;
       Api.ARequest (lit "/analyze")
         [(lit "text", Api.FString (lit "What does BRCA1 do?"))]
         (Some 120000%N);
       Api.ASettled 3000 ]
       ++ map Api.ACallback [VStr (lit "Reading"); VStr (lit "Done")],
     Returned Examples.answer).
Proof.
  apply (proj2 (@simulated_steps_before_request
                  Examples.quick_backend Examples.question
                  [(lit "text", Api.FString (lit "What does BRCA1 do?"))]
                  eq_refl eq_refl)
           200%N Examples.answer).
  - simpl. lia.
  - reflexivity.
  - reflexivity.
  - reflexivity.
Defined.

(** C7, as stated, fails: with a callback the four simulated steps take two
    seconds before the request starts, so a reply after 119 seconds ends a
    call of 121 seconds that does not fail. *)
Lemma ceiling_exceeded_without_timeout :
  ~ Props.within_ceiling 120000
      (Api.analyzeData Examples.slow_backend Examples.question).
Proof.
  assert (E : Props.elapsed
                (fst (Api.analyzeData Examples.slow_backend Examples.question))
              = 121000%N) by (vm_compute; reflexivity).
  intros [H | H].
  - rewrite E in H. lia.
  - vm_compute in H. discriminate.
Qed.

(** C7, amended.  The request of [analyzeData] has a timeout of 120000 ms: a
    reply that takes longer makes the call fail with the timeout error, a
    call that returns got its reply within 120000 ms, and the call lasts at
    most 120000 ms beyond its simulated steps, which take 2000 ms when a
    callback is supplied. *)
Theorem request_timeout
    (backend : Api.FormData -> Api.exchange) (o : Api.AnalyzeOptions) :
  (forall form,
      Api.build_form o = Some form ->
      (120000 < Api.latency (backend form))%N ->
      snd (Api.analyzeData backend o) = Threw AxiosTimeout)
  /\ (forall data,
        snd (Api.analyzeData backend o) = Returned data ->
        exists form,
          Api.build_form o = Some form
          /\ (Api.latency (backend form) <= 120000)%N)
  /\ (Props.elapsed (fst (Api.analyzeData backend o))
      <= 120000 + (if Api.onThinkingStep o then 2000 else 0))%N.
Proof.
  split; [|split].
  - intros form Hform Hl.
    now rewrite (@analyzeData_timeout backend o form Hform Hl).
  - intros data Hd.
    destruct (Api.build_form o) as [form|] eqn:Hform.
    + exists form. split; [reflexivity|].
      destruct (N.ltb_spec 120000 (Api.latency (backend form)))
        as [Hl|Hl]; [|exact Hl].
      rewrite (@analyzeData_timeout backend o form Hform Hl) in Hd.
      discriminate.
    + rewrite (@analyzeData_no_form backend o Hform) in Hd. discriminate.
  - destruct (Api.build_form o) as [form|] eqn:Hform.
    + destruct (@analyzeData_starts backend o form Hform)
        as (rest & waited & E & Hw & Hr).
      rewrite E, elapsed_app. cbn [Props.elapsed Props.analyze_request].
      rewrite Hr.
      destruct (Api.onThinkingStep o).
      * change (Props.elapsed Props.simulated_steps) with 2000%N. lia.
      * simpl. lia.
    + rewrite (@analyzeData_no_form backend o Hform). simpl. lia.
Qed.

Lemma request_timeout_witness :
  snd (Api.analyzeData Examples.late_backend Examples.question)
  = Threw AxiosTimeout.
Proof.
  apply (proj1 (request_timeout Examples.late_backend Examples.question)
           [(lit "text", Api.FString (lit "What does BRCA1 do?"))]).
  - reflexivity.
  - simpl. lia.
Defined.

(** C2, as stated, fails: [analyzeData], the call the page makes, forwards
    the steps of the backend only when the whole reply is in. *)
Lemma buffered_steps_arrive_after_the_answer :
  ~ Props.delivered_live
      (fst (Api.analyzeData Examples.quick_backend Examples.question)).
Proof.
  intros H.
  apply (H (Props.simulated_steps
              ++ [Props.analyze_request
                    [(lit "text", Api.FString (lit "What does BRCA1 do?"))]])
           (Api.ASettled 3000)
           [Api.ACallback (VStr (lit "Reading")); Api.ACallback (VStr (lit "Done"))]
           (VStr (lit "Reading"))).
  - reflexivity.
  - reflexivity.
  - left. reflexivity.
Qed.

(** C2, amended.  In both variants the steps of the backend reach the
    callback one at a time and in the order the backend gave them.  The
    streaming variant delivers the thinking steps of a chunk as soon as the
    chunk is read, before the next chunk is read and before the stream
    ends.  The buffered [analyzeData] delivers them only after the whole
    reply is in; before the reply the callback gets nothing but the four
    simulated steps. *)
Theorem steps_delivered_in_order (JSON_parse : jsstring -> option jsval) :
  (forall backend o form status data steps,
      Api.build_form o = Some form ->
      Api.onThinkingStep o = true ->
      (Api.latency (backend form) <= 120000)%N ->
      Api.reply (backend form) = Api.Reply status data ->
      Api.ok_status status = true ->
      get_prop data (lit "thinking_trace") = Some (VArr steps) ->
      exists before,
        fst (Api.analyzeData backend o)
        = before
            ++ Api.ASettled (Api.latency (backend form))
            :: map Api.ACallback steps
        /\ Props.callbacks_of before = map VStr Api.thinkingSteps)
  /\ (forall status chunks now formData,
        Api.ok_status status = true ->
        fst (Api.analyzeWithStreaming JSON_parse
               (Api.FetchResolved status (Some (chunks, Api.StreamDone)))
               now formData)
        = Api.ARequest (lit "/analyze/stream") formData None
            :: Api.AHeaders status
            :: flat_map (Props.chunk_log JSON_parse) chunks ++ [Api.AEnd]
        /\ Props.delivered_live
             (fst (Api.analyzeWithStreaming JSON_parse
                     (Api.FetchResolved status (Some (chunks, Api.StreamDone)))
                     now formData))).
Proof.
  split.
  - intros backend o form status data steps Hform Hcb Hl Hr Hok Ht.
    exists (Props.simulated_steps ++ [Props.analyze_request form]).
    rewrite (@analyzeData_forwards backend o form Hform status data steps
               Hcb Hl Hr Hok Ht).
    split.
    + cbn [fst]. rewrite <- app_assoc. reflexivity.
    + rewrite callbacks_of_app. reflexivity.
  - intros status chunks now formData Hok.
    rewrite (@analyzeWithStreaming_done JSON_parse status chunks now formData Hok).
    cbn [fst]. split; [reflexivity|].
    change (Api.ARequest (lit "/analyze/stream") formData None
              :: Api.AHeaders status
              :: flat_map (Props.chunk_log JSON_parse) chunks ++ [Api.AEnd])
      with ((Api.ARequest (lit "/analyze/stream") formData None
               :: Api.AHeaders status
               :: flat_map (Props.chunk_log JSON_parse) chunks) ++ [Api.AEnd]).
    apply live_when_completion_is_last.
    cbn [forallb Props.completes negb andb].
    apply chunk_logs_do_not_complete.
Qed.

Lemma steps_delivered_in_order_witness :
  (exists before,
      fst (Api.analyzeData Examples.quick_backend Examples.question)
      = before ++ Api.ASettled 3000
          :: map Api.ACallback [VStr (lit "Reading"); VStr (lit "Done")]
      /\ Props.callbacks_of before = map VStr Api.thinkingSteps)
  /\ Props.delivered_live
       (fst (Api.analyzeWithStreaming Json.parse Examples.stream Examples.now [])).
Proof.
  split.
  - apply (proj1 (steps_delivered_in_order Json.parse)
             Examples.quick_backend Examples.question
             [(lit "text", Api.FString (lit "What does BRCA1 do?"))]
             200%N Examples.answer).
    + reflexivity.
    + reflexivity.
    + simpl. lia.
    + reflexivity.
    + reflexivity.
    + reflexivity.
  - apply (proj2 (steps_delivered_in_order Json.parse)
             200%N [Examples.chunk1; Examples.chunk2] Examples.now []).
    reflexivity.
Defined.

(** C3 does not hold of the reading loop.  The loop splits every chunk it
    reads into lines on its own and carries nothing over to the next read,
    so an event whose line is cut by the end of a read is lost.  A body
    that holds one thinking event gives, read in one piece, the step to the
    callback and to [thinking_trace]; read in two pieces that meet inside
    the line, it gives no call and the empty result. *)
Theorem cut_event_is_lost :
  Examples.thought
  = firstn 19 Examples.thought ++ skipn 19 Examples.thought
  /\ Api.analyzeWithStreaming Json.parse Examples.whole_stream Examples.now []
     = ([ Api.ARequest (lit "/analyze/stream") [] None;
          Api.AHeaders 200;
          Api.ARead Examples.thought;
          Api.ACallback (VStr (lit "Reading"));
          Api.AEnd ],
        Returned
          {| Api.session_id := VStr [];
             Api.result := [];
             Api.thinking_trace := [VStr (lit "Reading")];
             Api.charts := [];
             Api.memory_context := [];
             Api.timestamp := Examples.now |})
  /\ Api.analyzeWithStreaming Json.parse Examples.cut_stream Examples.now []
     = ([ Api.ARequest (lit "/analyze/stream") [] None;
          Api.AHeaders 200;
          Api.ARead (Props.json "data: {'type':'thin");
          Api.ARead (Props.json "king','content':'Reading'}" ++ [10%N]);
          Api.AEnd ],
        Returned
          {| Api.session_id := VStr [];
             Api.result := [];
             Api.thinking_trace := [];
             Api.charts := [];
             Api.memory_context := [];
             Api.timestamp := Examples.now |}).
Proof. repeat split; vm_compute; reflexivity. Qed.

(** A reply that is not in the 2xx range ends the streamed call with the
    status in the message. *)
Example streamed_call_bad_status :
  snd (Api.analyzeWithStreaming Json.parse (Api.FetchResolved 503 None)
         Examples.now [])
  = Threw (JsError (lit "Analysis failed: 503")).
Proof. reflexivity. Qed.

(** C10 does not hold of the reading loop, for the same reason: what
    follows the end of a read is taken for the start of a line.  The only
    line of this body is a remark that does not start with [data: ]; read
    in one piece it is skipped, but read in two pieces that meet after its
    first two characters, its rest is taken for an event and sets
    [session_id]. *)
Theorem cut_line_is_not_skipped :
  split 10%N Examples.remark
  = [Props.json ": data: {'type':'complete','session_id':'s-2'}"; []]
  /\ startsWith (Props.json ": data: {'type':'complete','session_id':'s-2'}")
       (lit "data: ") = false
  /\ Examples.remark = firstn 2 Examples.remark ++ skipn 2 Examples.remark
  /\ snd (Api.analyzeWithStreaming Json.parse Examples.whole_remark
            Examples.now [])
     = Returned
         {| Api.session_id := VStr [];
            Api.result := [];
            Api.thinking_trace := [];
            Api.charts := [];
            Api.memory_context := [];
            Api.timestamp := Examples.now |}
  /\ snd (Api.analyzeWithStreaming Json.parse Examples.cut_remark
            Examples.now [])
     = Returned
         {| Api.session_id := VStr (lit "s-2");
            Api.result := [];
            Api.thinking_trace := [];
            Api.charts := [];
            Api.memory_context := [];
            Api.timestamp := Examples.now |}.
Proof. repeat split; vm_compute; reflexivity. Qed.

(** ** [handleAnalyze] *)

Lemma run_callbacks_spec (log : list Api.action) (st : Page.PageState) :
  Page.run_callbacks log st
  = {| Page.sessionId := Page.sessionId st; Page.query := Page.query st;
       Page.files := Page.files st; Page.isAnalyzing := Page.isAnalyzing st;
       Page.thinkingSteps := Page.thinkingSteps st ++ Props.callbacks_of log;
       Page.result := Page.result st; Page.charts := Page.charts st;
       Page.activePanel := Page.activePanel st;
       Page.isDockMinimized := Page.isDockMinimized st;
       Page.showDock := Page.showDock st |}.
Proof.
  revert st. induction log as [|a log IH]; intros st.
  - destruct st. simpl. now rewrite app_nil_r.
  - destruct a; cbn [Page.run_callbacks Props.callbacks_of]; rewrite IH;
      try reflexivity.
    unfold Page.push_step. cbn. now rewrite <- app_assoc.
Qed.

Lemma nothing_to_analyze_iff (st : Page.PageState) :
  Page.nothing_to_analyze st = true
  <-> forallb is_whitespace (Page.query st) = true /\ Page.files st = [].
Proof.
  unfold Page.nothing_to_analyze. rewrite andb_true_iff, <- trim_empty_iff.
  cbn [truthy].
  split; intros [Hq Hf]; split.
  - now destruct (trim (Page.query st)).
  - destruct (Page.files st); [reflexivity|discriminate].
  - now rewrite Hq.
  - now rewrite Hf.
Qed.

(** C4, as stated, fails: a blank request is not answered with an error, the
    call just returns. *)
Lemma blank_request_returns_silently :
  Page.nothing_to_analyze Examples.blank_page = true
  /\ ~ Props.fails (Page.handleAnalyze Examples.quick_backend Examples.blank_page).
Proof.
  split; [reflexivity|].
  intros [e H]. vm_compute in H. discriminate.
Qed.

(** C4, amended.  When the query is empty after trimming and no file is
    attached, [handleAnalyze] does not proceed: it returns at once, sends
    nothing, changes nothing and raises no error.  This is the case exactly
    when the query is whitespace only and the file list is empty; in every
    other case the guard is passed and the request is sent with the form
    that was built, which holds the query and the files. *)
Theorem blank_request_is_ignored
    (backend : Api.FormData -> Api.exchange) (st : Page.PageState) :
  (Page.nothing_to_analyze st = true
   <-> forallb is_whitespace (Page.query st) = true /\ Page.files st = [])
  /\ (Page.nothing_to_analyze st = true ->
      Page.handleAnalyze backend st = (st, [], Returned tt))
  /\ (Page.nothing_to_analyze st = false ->
      forall form,
        Api.build_form (Page.analyze_options st) = Some form ->
        exists rest,
          snd (fst (Page.handleAnalyze backend st))
          = Props.simulated_steps ++ Props.analyze_request form :: rest
          /\ In (lit "text", Api.FString (toUSVString (Page.query st))) form
          /\ forall f, In f (Page.files st) ->
                In (lit "files", Api.FFile f) form).
Proof.
  split; [apply nothing_to_analyze_iff|split].
  - intros H. unfold Page.handleAnalyze. now rewrite H.
  - intros H form Hform. unfold Page.handleAnalyze. rewrite H.
    destruct (@analyzeData_starts backend (Page.analyze_options st) form Hform)
      as (rest & waited & E & _).
    cbn [Page.analyze_options Api.onThinkingStep] in E.
    destruct (Api.analyzeData backend (Page.analyze_options st)) as [log r].
    cbn [fst] in E.
    assert (Hin : In (lit "text", Api.FString (toUSVString (Page.query st))) form
                  /\ forall f, In f (Page.files st) ->
                       In (lit "files", Api.FFile f) form).
    { unfold Api.build_form in Hform.
      cbn [Page.analyze_options Api.query Api.files Api.sessionId] in Hform.
      destruct (Api.session_entry (js_or (Page.sessionId st) VUndefined))
        as [session|]; [|discriminate].
      injection Hform as <-. split.
      - now left.
      - intros f Hf. right. apply in_or_app. right.
        apply in_map_iff. now exists f. }
    destruct (match r with
              | Returned response =>
                  Page.store_response response
                    (Page.run_callbacks log (Page.begin_analysis st))
              | Threw _ => None
              end) as [st3|].
    + exists (Api.ASettled waited :: rest). cbn [fst snd]. now split.
    + exists (Api.ASettled waited :: rest ++ [Api.AConsoleError]).
      cbn [fst snd]. split; [|exact Hin].
      rewrite E, <- app_assoc. reflexivity.
Qed.

Lemma blank_request_is_ignored_witness :
  Page.handleAnalyze Examples.quick_backend Examples.blank_page
  = (Examples.blank_page, [], Returned tt)
  /\ exists rest,
       snd (fst (Page.handleAnalyze Examples.quick_backend Examples.asking_page))
       = Props.simulated_steps
           ++ Props.analyze_request
                [(lit "text", Api.FString (lit "What does BRCA1 do?"))]
           :: rest.
Proof.
  split.
  - apply (proj1 (proj2 (blank_request_is_ignored
                           Examples.quick_backend Examples.blank_page))).
    reflexivity.
  - destruct (proj2 (proj2 (blank_request_is_ignored
                              Examples.quick_backend Examples.asking_page))
                eq_refl [(lit "text", Api.FString (lit "What does BRCA1 do?"))]
                eq_refl) as (rest & E & _).
    exists rest. exact E.
Defined.

(** C6.  When the analysis fails, the steps that were delivered before the
    failure stay in the console, a final step that tells of the failure is
    added after them, and no answer is shown: the result stays empty, no
    chart is set and the session is left as it was. *)
Theorem failure_keeps_the_trace
    (backend : Api.FormData -> Api.exchange) (st : Page.PageState)
    (log : list Api.action) (e : error) :
  Page.nothing_to_analyze st = false ->
  Api.analyzeData backend (Page.analyze_options st) = (log, Threw e) ->
  Page.thinkingSteps (fst (fst (Page.handleAnalyze backend st)))
  = Props.callbacks_of log ++ [VStr Page.failure_step]
  /\ Page.result (fst (fst (Page.handleAnalyze backend st))) = VNull
  /\ Page.charts (fst (fst (Page.handleAnalyze backend st))) = VArr []
  /\ Page.sessionId (fst (fst (Page.handleAnalyze backend st)))
     = Page.sessionId st
  /\ Page.isAnalyzing (fst (fst (Page.handleAnalyze backend st))) = false
  /\ snd (Page.handleAnalyze backend st) = Returned tt.
Proof.
  intros Hgo Hfail. unfold Page.handleAnalyze.
  rewrite Hgo, Hfail. cbn [fst snd].
  rewrite run_callbacks_spec. cbn. repeat split; reflexivity.
Qed.

Lemma failure_keeps_the_trace_witness :
  Page.thinkingSteps
    (fst (fst (Page.handleAnalyze Examples.late_backend Examples.asking_page)))
  = map VStr Api.thinkingSteps ++ [VStr Page.failure_step]
  /\ Page.result
       (fst (fst (Page.handleAnalyze Examples.late_backend Examples.asking_page)))
     = VNull.
Proof.
  destruct (@failure_keeps_the_trace
              Examples.late_backend Examples.asking_page
              (Props.simulated_steps
                 ++ [Props.analyze_request
                       [(lit "text", Api.FString (lit "What does BRCA1 do?"))];
                     Api.ASettled 120000])
              AxiosTimeout eq_refl eq_refl) as (H1 & H2 & _).
  split; [exact H1 | exact H2].
Defined.

(** ** The drop zone *)

Lemma existsb_same {A} (p q : A -> bool) (l : list A) :
  (forall x, In x l -> p x = q x) -> existsb p l = existsb q l.
Proof.
  induction l as [|x l IH]; intros H; [reflexivity|].
  simpl. rewrite (H x) by now left.
  rewrite IH; [reflexivity|]. intros y Hy. apply H. now right.
Qed.

Lemma existsb_keys_and_extensions {A} (p : A -> bool)
    (a : list (A * list A)) :
  existsb p (flat_map (fun entry => fst entry :: snd entry) a)
  = existsb p (map fst a) || existsb p (flat_map snd a).
Proof.
  induction a as [|[k exts] a IH]; [reflexivity|].
  cbn [flat_map map fst snd]. rewrite !existsb_app, IH.
  cbn [existsb].
  generalize (p k) (existsb p exts) (existsb p (map fst a))
    (existsb p (flat_map snd a)).
  intros [|] [|] [|] [|]; reflexivity.
Qed.

Lemma matches_extension (f : Api.File) (ext : jsstring) :
  In ext FileUpload.accepted_extensions ->
  FileUpload.matches_entry f ext
  = endsWith (toLowerCase (Api.file_name f)) ext.
Proof.
  intros H. cbv [FileUpload.accepted_extensions FileUpload.accept flat_map snd app] in H.
  cbn [In] in H.
  repeat (destruct H as [<- | H]; [reflexivity|]).
  contradiction.
Qed.

Lemma matches_types (f : Api.File) :
  existsb (FileUpload.matches_entry f) FileUpload.accepted_types
  = str_eqb (toLowerCase (Api.file_type f)) (lit "application/pdf")
    || (str_eqb (FileUpload.cut_at_slash (toLowerCase (Api.file_type f))) (lit "image")
    || (str_eqb (FileUpload.cut_at_slash (toLowerCase (Api.file_type f))) (lit "video")
    || (str_eqb (FileUpload.cut_at_slash (toLowerCase (Api.file_type f))) (lit "text")
    || false))).
Proof. reflexivity. Qed.

(** file-selector changes nothing but the type, and only a missing one. *)
Lemma withMimeType_keeps (table : jsstring -> option jsstring) (f : Api.File) :
  Api.file_name (FileUpload.withMimeType table f) = Api.file_name f
  /\ Api.file_size (FileUpload.withMimeType table f) = Api.file_size f
  /\ (Api.file_type f <> [] ->
      FileUpload.withMimeType table f = f).
Proof.
  unfold FileUpload.withMimeType.
  destruct (existsb (N.eqb 46) (Api.file_name f)); cbn [andb].
  - destruct (Api.file_type f) as [|c t] eqn:Et.
    + destruct (table (toLowerCase (last (split 46%N (Api.file_name f)) [])))
        as [[|c t]|]; cbn; repeat split; intros; congruence.
    + repeat split; reflexivity.
  - repeat split; reflexivity.
Qed.

Lemma split_without_separator (sep : code_unit) (s : jsstring) :
  existsb (N.eqb sep) s = false -> split sep s = [s].
Proof.
  induction s as [|c s IH]; [reflexivity|].
  cbn [existsb split]. intros H. apply orb_false_iff in H as [Hc Hs].
  rewrite N.eqb_sym, Hc, (IH Hs). reflexivity.
Qed.

(** What follows the last dot of a name. *)
Lemma extension_after_last_dot (stem ext : jsstring) :
  existsb (N.eqb 46) ext = false ->
  last (split 46%N (stem ++ 46%N :: ext)) [] = ext.
Proof.
  intros H. rewrite split_at_separator, (split_without_separator _ _ H).
  apply last_last.
Qed.

(** A file without a type gets the type of the table for its extension. *)
Lemma withMimeType_fills (table : jsstring -> option jsstring)
    (stem ext : jsstring) (size : N) :
  existsb (N.eqb 46) ext = false ->
  Api.file_type
    (FileUpload.withMimeType table
       {| Api.file_name := stem ++ 46%N :: ext; Api.file_type := [];
          Api.file_size := size |})
  = match table (toLowerCase ext) with
    | Some type => type
    | None => []
    end.
Proof.
  intros H. unfold FileUpload.withMimeType. cbn [Api.file_name Api.file_type].
  rewrite existsb_app. cbn [existsb]. rewrite N.eqb_refl, orb_true_r.
  cbn [andb]. rewrite (extension_after_last_dot stem ext H).
  destruct (table (toLowerCase ext)) as [[|c t]|]; reflexivity.
Qed.

(** C5, as stated, fails: a table of comma-separated values, of type
    [text/csv], is accepted, and it is neither a pdf, an image, a video,
    plain text, a FASTA file nor a PDB file. *)
Lemma csv_file_is_accepted :
  ~ Props.accepted_only_if_documented Examples.mime_table Examples.csv_file.
Proof.
  intros H. destruct (H eq_refl) as [_ Hdoc].
  vm_compute in Hdoc. discriminate.
Qed.

(** C5, amended.  A file offered for upload is accepted exactly when its
    size is at most 50 MB (52428800 bytes) and it matches the accept
    option: its type is [application/pdf], or an image, video or text type
    of any kind, or its name ends with one of the listed extensions, which
    include [.csv], or its type is [application/x-moz-file], which the drop
    zone always lets through.  Types and names are compared in lower case.
    The type is the one the browser reports; when the browser reports none,
    it is the one that the table of file-selector has for what follows the
    last dot of the name, in lower case.  Every other file is rejected. *)
Theorem accepted_files (COMMON_MIME_TYPES : jsstring -> option jsstring)
    (f : Api.File) :
  (FileUpload.accepted COMMON_MIME_TYPES f = true
   <-> (Api.file_size f <= 52428800)%N
       /\ (Api.file_type (FileUpload.withMimeType COMMON_MIME_TYPES f)
           = lit "application/x-moz-file"
           \/ toLowerCase
                (Api.file_type (FileUpload.withMimeType COMMON_MIME_TYPES f))
              = lit "application/pdf"
           \/ FileUpload.cut_at_slash
                (toLowerCase
                   (Api.file_type (FileUpload.withMimeType COMMON_MIME_TYPES f)))
              = lit "image"
           \/ FileUpload.cut_at_slash
                (toLowerCase
                   (Api.file_type (FileUpload.withMimeType COMMON_MIME_TYPES f)))
              = lit "video"
           \/ FileUpload.cut_at_slash
                (toLowerCase
                   (Api.file_type (FileUpload.withMimeType COMMON_MIME_TYPES f)))
              = lit "text"
           \/ exists ext,
                In ext [lit ".pdf"; lit ".png"; lit ".jpg"; lit ".jpeg";
                        lit ".gif"; lit ".webp"; lit ".mp4"; lit ".webm";
                        lit ".mov"; lit ".txt"; lit ".csv"; lit ".fasta";
                        lit ".pdb"]
                /\ endsWith (toLowerCase (Api.file_name f)) ext = true))
  /\ (Api.file_type f <> [] ->
      Api.file_type (FileUpload.withMimeType COMMON_MIME_TYPES f)
      = Api.file_type f)
  /\ (forall stem ext,
        Api.file_type f = [] ->
        Api.file_name f = stem ++ 46%N :: ext ->
        existsb (N.eqb 46) ext = false ->
        Api.file_type (FileUpload.withMimeType COMMON_MIME_TYPES f)
        = match COMMON_MIME_TYPES (toLowerCase ext) with
          | Some type => type
          | None => []
          end)
  /\ (Api.file_type f = [] ->
      existsb (N.eqb 46) (Api.file_name f) = false ->
      Api.file_type (FileUpload.withMimeType COMMON_MIME_TYPES f) = []).
Proof.
  split; [|split; [|split]].
  - destruct (withMimeType_keeps COMMON_MIME_TYPES f) as (Hname & Hsize & _).
    unfold FileUpload.accepted.
    generalize dependent (FileUpload.withMimeType COMMON_MIME_TYPES f).
    intros g Hname Hsize. rewrite <- Hname, <- Hsize. clear Hname Hsize f.
    unfold FileUpload.fileAccepted, FileUpload.fileMatchSize, FileUpload.accepts.
    change (FileUpload.acceptPropAsAcceptAttr FileUpload.accept)
      with (flat_map (fun entry : jsstring * list jsstring => fst entry :: snd entry)
              FileUpload.accept).
    assert (Hne : flat_map (fun entry : jsstring * list jsstring => fst entry :: snd entry)
                    FileUpload.accept <> []) by discriminate.
    destruct (flat_map (fun entry : jsstring * list jsstring => fst entry :: snd entry)
                FileUpload.accept) as [|e0 rest] eqn:Eattr; [contradiction|].
    rewrite <- Eattr. clear Hne Eattr e0 rest.
    rewrite existsb_keys_and_extensions.
    change (map fst FileUpload.accept) with FileUpload.accepted_types.
    change (flat_map snd FileUpload.accept) with FileUpload.accepted_extensions.
    rewrite matches_types.
    rewrite (existsb_same (FileUpload.matches_entry g)
               (endsWith (toLowerCase (Api.file_name g)))
               FileUpload.accepted_extensions)
      by (intros ext Hext; now apply matches_extension).
    rewrite andb_true_iff, negb_true_iff, N.ltb_ge.
    rewrite !orb_true_iff, !str_eqb_eq, existsb_exists.
    change FileUpload.maxSize with 52428800%N.
    change FileUpload.accepted_extensions
      with [lit ".pdf"; lit ".png"; lit ".jpg"; lit ".jpeg";
            lit ".gif"; lit ".webp"; lit ".mp4"; lit ".webm";
            lit ".mov"; lit ".txt"; lit ".csv"; lit ".fasta"; lit ".pdb"].
    intuition discriminate.
  - intros Ht.
    destruct (withMimeType_keeps COMMON_MIME_TYPES f) as (_ & _ & Hsame).
    now rewrite (Hsame Ht).
  - intros stem ext Ht Hn Hext. destruct f as [name type size].
    cbn [Api.file_type Api.file_name] in Ht, Hn. subst name type.
    now apply withMimeType_fills.
  - intros Ht Hn. unfold FileUpload.withMimeType. now rewrite Hn, Ht.
Qed.

Lemma accepted_files_witness :
  FileUpload.accepted Examples.mime_table Examples.report = true
  /\ Api.file_type (FileUpload.withMimeType Examples.mime_table Examples.report)
     = lit "text/html".
Proof.
  split.
  - apply (proj2 (proj1 (accepted_files Examples.mime_table Examples.report))).
    split.
    + simpl. lia.
    + do 4 right. left. reflexivity.
  - apply (proj1 (proj2 (proj2 (accepted_files Examples.mime_table
                                  Examples.report)))
             (lit "Report") (lit "HTML")); reflexivity.
Defined.

(** A file without a type whose extension the table has under a type that
    the drop zone does not take is rejected, and so is a film that is too
    large. *)
Example archive_and_film_are_rejected :
  FileUpload.accepted Examples.mime_table Examples.archive = false
  /\ FileUpload.accepted Examples.mime_table Examples.film = false.
Proof. split; reflexivity. Qed.

(** What [onDrop] hands to the page was accepted, and is the file as
    file-selector gave it. *)
Lemma onDrop_adds_accepted_files (table : jsstring -> option jsstring)
    (offered : list Api.File) (st : Page.PageState) (g : Api.File) :
  In g (Page.files (FileUpload.onDrop table offered st)) ->
  In g (Page.files st)
  \/ exists f, In f offered
               /\ g = FileUpload.withMimeType table f
               /\ FileUpload.accepted table f = true.
Proof.
  unfold FileUpload.onDrop, Page.handleFilesDropped. cbn [Page.files].
  intros H. apply in_app_or in H as [H | H]; [now left | right].
  apply filter_In in H as [Hin Hok].
  apply in_map_iff in Hin as (f & <- & Hf).
  exists f. now repeat split.
Qed.

(** ** The session memory store *)

Lemma in_session_eq (s : jsstring) (r : MemoryStore.MemoryRecord) :
  MemoryStore.in_session s r = true <-> MemoryStore.session_id r = s.
Proof. apply str_eqb_eq. Qed.

Lemma in_session_other (s s' : jsstring) (r : MemoryStore.MemoryRecord) :
  s' <> s -> MemoryStore.in_session s r = true ->
  MemoryStore.in_session s' r = false.
Proof.
  intros Hne H. apply in_session_eq in H.
  apply str_eqb_neq. congruence.
Qed.

Lemma take_out_found {A} (p : A -> bool) (l : list A) :
  (exists x, In x l /\ p x = true) ->
  exists m l1 l2,
    MemoryStore.take_out p l = (Some m, l1 ++ l2)
    /\ l = l1 ++ m :: l2 /\ p m = true
    /\ (forall y, In y l1 -> p y = false).
Proof.
  induction l as [|x l IH]; intros (y & Hy & Hp); [contradiction|].
  simpl. destruct (p x) eqn:Ex.
  - exists x, [], l. repeat split; auto. intros z [].
  - destruct Hy as [-> | Hy]; [congruence|].
    destruct IH as (m & l1 & l2 & E & El & Hm & Hl1); [now exists y|].
    rewrite E. exists m, (x :: l1), l2. simpl. repeat split; auto.
    + now rewrite El.
    + intros z [<- | Hz]; auto.
Qed.

Lemma oldest_time_none (s : jsstring) (l : list MemoryStore.MemoryRecord) :
  MemoryStore.oldest_time s l = None ->
  filter (MemoryStore.in_session s) l = [].
Proof.
  induction l as [|r l IH]; [reflexivity|].
  simpl. destruct (MemoryStore.in_session s r).
  - destruct (MemoryStore.oldest_time s l); discriminate.
  - exact IH.
Qed.

Lemma oldest_time_some (s : jsstring) (l : list MemoryStore.MemoryRecord) (t : Z) :
  MemoryStore.oldest_time s l = Some t ->
  (exists m, In m l /\ MemoryStore.is_oldest s t m = true)
  /\ (forall x, In x l -> MemoryStore.in_session s x = true ->
        (t <= MemoryStore.created_at x)%Z).
Proof.
  revert t. induction l as [|r l IH]; intros t; [discriminate|].
  simpl. destruct (MemoryStore.in_session s r) eqn:Er.
  - destruct (MemoryStore.oldest_time s l) as [t'|] eqn:Et.
    + intros H. injection H as <-.
      destruct (IH t' eq_refl) as ((m & Hm & Hold) & Hmin).
      split.
      * destruct (Z.leb_spec (MemoryStore.created_at r) t') as [Hle|Hgt].
        -- exists r. split; [now left|].
           unfold MemoryStore.is_oldest. rewrite Er. simpl.
           apply Z.eqb_eq. lia.
        -- exists m. split; [now right|].
           unfold MemoryStore.is_oldest in *.
           apply andb_true_iff in Hold as [Hs Ht].
           rewrite Hs. simpl. apply Z.eqb_eq in Ht. apply Z.eqb_eq. lia.
      * intros x [<- | Hx] Hs; [lia|].
        specialize (Hmin x Hx Hs). lia.
    + intros H. injection H as <-.
      split.
      * exists r. split; [now left|].
        unfold MemoryStore.is_oldest. rewrite Er. simpl. apply Z.eqb_refl.
      * intros x [<- | Hx] Hs; [lia|].
        apply oldest_time_none in Et.
        assert (Hin : In x (filter (MemoryStore.in_session s) l))
          by (apply filter_In; now split).
        rewrite Et in Hin. contradiction.
  - intros H. destruct (IH t H) as ((m & Hm & Hold) & Hmin).
    split.
    + exists m. split; [now right|exact Hold].
    + intros x [<- | Hx] Hs; [congruence|]. now apply Hmin.
Qed.

(** One eviction: nothing happens to a session without records; otherwise
    one record of the session leaves, and none of the session is older. *)
Lemma evict_oldest_spec (s : jsstring) (st : MemoryStore.Store) :
  (MemoryStore.count s st = 0 /\ MemoryStore.evict_oldest s st = st)
  \/ exists m l1 l2,
       MemoryStore.records st = l1 ++ m :: l2
       /\ MemoryStore.records (MemoryStore.evict_oldest s st) = l1 ++ l2
       /\ MemoryStore.vectors (MemoryStore.evict_oldest s st)
          = snd (MemoryStore.take_out (N.eqb (MemoryStore.id m))
                   (MemoryStore.vectors st))
       /\ MemoryStore.in_session s m = true
       /\ (forall x, In x (MemoryStore.records st) ->
             MemoryStore.in_session s x = true ->
             (MemoryStore.created_at m <= MemoryStore.created_at x)%Z).
Proof.
  unfold MemoryStore.evict_oldest, MemoryStore.count.
  destruct (MemoryStore.oldest_time s (MemoryStore.records st)) as [t|] eqn:Et.
  - right. destruct (oldest_time_some _ _ Et) as (Hex & Hmin).
    destruct (take_out_found (MemoryStore.is_oldest s t)
                (MemoryStore.records st) Hex)
      as (m & l1 & l2 & E & El & Hm & _).
    rewrite E. exists m, l1, l2. cbn [MemoryStore.records MemoryStore.vectors].
    unfold MemoryStore.is_oldest in Hm.
    apply andb_true_iff in Hm as [Hs Ht]. apply Z.eqb_eq in Ht.
    repeat split; auto.
    intros x Hx Hsx. rewrite Ht. now apply Hmin.
  - left. apply oldest_time_none in Et. rewrite Et. now split.
Qed.

Lemma count_records (s : jsstring) (st : MemoryStore.Store) :
  MemoryStore.count s st
  = length (filter (MemoryStore.in_session s) (MemoryStore.records st)).
Proof. reflexivity. Qed.

Lemma evict_oldest_count (s : jsstring) (st : MemoryStore.Store) :
  MemoryStore.count s (MemoryStore.evict_oldest s st)
  = pred (MemoryStore.count s st).
Proof.
  destruct (evict_oldest_spec s st)
    as [[H0 E] | (m & l1 & l2 & E & E' & _ & Hs & _)].
  - now rewrite E, H0.
  - rewrite !count_records, E, E', !filter_app. cbn [filter].
    rewrite Hs, !length_app. simpl. lia.
Qed.

Lemma evict_oldest_other (s s' : jsstring) (st : MemoryStore.Store) :
  s' <> s ->
  MemoryStore.count s' (MemoryStore.evict_oldest s st) = MemoryStore.count s' st.
Proof.
  intros Hne.
  destruct (evict_oldest_spec s st)
    as [[_ E] | (m & l1 & l2 & E & E' & _ & Hs & _)].
  - now rewrite E.
  - rewrite !count_records, E, E', !filter_app. cbn [filter].
    now rewrite (@in_session_other s s' m Hne Hs).
Qed.

Lemma evict_oldest_subset (s : jsstring) (st : MemoryStore.Store)
    (x : MemoryStore.MemoryRecord) :
  In x (MemoryStore.records (MemoryStore.evict_oldest s st)) ->
  In x (MemoryStore.records st).
Proof.
  destruct (evict_oldest_spec s st)
    as [[_ E] | (m & l1 & l2 & E & E' & _)].
  - now rewrite E.
  - rewrite E, E'. intros H. apply in_app_or in H as [H | H];
      apply in_or_app; [now left | right; now right].
Qed.

Section BoundedProps.

Variable MAX : nat.

Lemma evict_count (s : jsstring) (fuel : nat) (st : MemoryStore.Store) :
  MemoryStore.count s st <= MAX + fuel ->
  MemoryStore.count s (MemoryStore.evict MAX fuel s st)
  = Nat.min (MemoryStore.count s st) MAX.
Proof.
  revert st. induction fuel as [|fuel IH]; intros st Hfuel; simpl.
  - lia.
  - destruct (Nat.ltb_spec MAX (MemoryStore.count s st)) as [Hgt | Hle].
    + rewrite IH; rewrite evict_oldest_count; lia.
    + lia.
Qed.

Lemma evict_other (s s' : jsstring) (fuel : nat) (st : MemoryStore.Store) :
  s' <> s ->
  MemoryStore.count s' (MemoryStore.evict MAX fuel s st) = MemoryStore.count s' st.
Proof.
  intros Hne. revert st. induction fuel as [|fuel IH]; intros st; simpl.
  - reflexivity.
  - destruct (MAX <? MemoryStore.count s st); [|reflexivity].
    now rewrite IH, evict_oldest_other.
Qed.

Lemma evict_subset (s : jsstring) (fuel : nat) (st : MemoryStore.Store)
    (x : MemoryStore.MemoryRecord) :
  In x (MemoryStore.records (MemoryStore.evict MAX fuel s st)) ->
  In x (MemoryStore.records st).
Proof.
  revert st. induction fuel as [|fuel IH]; intros st; simpl; [auto|].
  destruct (MAX <? MemoryStore.count s st); [|auto].
  intros H. apply IH in H. now apply evict_oldest_subset in H.
Qed.

(** What the loop evicts is never younger than what it keeps. *)
Lemma evict_oldest_first (s : jsstring) (before : list MemoryStore.MemoryRecord)
    (fuel : nat) (st : MemoryStore.Store) :
  (forall x, In x (MemoryStore.records st) -> In x before) ->
  Props.evicted_are_oldest before (MemoryStore.records st) s ->
  Props.evicted_are_oldest before
    (MemoryStore.records (MemoryStore.evict MAX fuel s st)) s.
Proof.
  revert st. induction fuel as [|fuel IH]; intros st Hsub Hinv; simpl; [exact Hinv|].
  destruct (MAX <? MemoryStore.count s st); [|exact Hinv].
  apply IH.
  - intros x Hx. apply Hsub. now apply evict_oldest_subset in Hx.
  - destruct (evict_oldest_spec s st)
      as [[_ E] | (m & l1 & l2 & E & E' & _ & Hs & Hmin)].
    + now rewrite E.
    + rewrite E'. intros x y Hx Hsx Hy Hsy Hgone.
      assert (Hx' : In x (MemoryStore.records st)).
      { rewrite E. apply in_app_or in Hx as [Hx | Hx];
          apply in_or_app; [now left | right; now right]. }
      destruct (Z_le_gt_dec (MemoryStore.created_at y) (MemoryStore.created_at x))
        as [Hle | Hgt]; [exact Hle | exfalso].
      (* [y] cannot have left earlier, so it is the record that just left *)
      assert (Hnn : ~ ~ In y (MemoryStore.records st)).
      { intros Hout. specialize (Hinv x y Hx' Hsx Hy Hsy Hout). lia. }
      apply Hnn. intros Hin. rewrite E in Hin.
      apply in_app_or in Hin as [Hin | [Hin | Hin]].
      * apply Hgone. apply in_or_app. now left.
      * subst y. specialize (Hmin x Hx' Hsx). lia.
      * apply Hgone. apply in_or_app. now right.
Qed.

End BoundedProps.

Lemma take_out_at {A} (p : A -> bool) (l1 l2 : list A) (x : A) :
  p x = true -> (forall y, In y l1 -> p y = false) ->
  MemoryStore.take_out p (l1 ++ x :: l2) = (Some x, l1 ++ l2).
Proof.
  intros Hx. induction l1 as [|y l1 IH]; intros Hl1; simpl.
  - now rewrite Hx.
  - rewrite (Hl1 y) by now left.
    rewrite IH; [reflexivity|]. intros z Hz. apply Hl1. now right.
Qed.

Lemma evict_oldest_consistent (s : jsstring) (st : MemoryStore.Store) :
  Props.index_consistent st ->
  Props.index_consistent (MemoryStore.evict_oldest s st).
Proof.
  intros [Hv Hnd].
  destruct (evict_oldest_spec s st)
    as [[_ E] | (m & l1 & l2 & E & E' & Ev & _)].
  - rewrite E. now split.
  - unfold Props.index_consistent. rewrite E', Ev, Hv.
    rewrite E in Hnd |- *. rewrite map_app in Hnd |- *. cbn [map] in Hnd |- *.
    split.
    + rewrite take_out_at.
      * cbn [snd]. now rewrite map_app.
      * apply N.eqb_refl.
      * intros i Hi. apply N.eqb_neq. intros <-.
        apply NoDup_remove_2 in Hnd. apply Hnd. apply in_or_app. now left.
    + rewrite map_app. now apply NoDup_remove_1 in Hnd.
Qed.

Lemma evict_consistent (MAX : nat) (s : jsstring) (fuel : nat)
    (st : MemoryStore.Store) :
  Props.index_consistent st ->
  Props.index_consistent (MemoryStore.evict MAX fuel s st).
Proof.
  revert st. induction fuel as [|fuel IH]; intros st H; simpl; [exact H|].
  destruct (MAX <? MemoryStore.count s st); [|exact H].
  apply IH. now apply evict_oldest_consistent.
Qed.

Section AppendProps.

Variable MAX : nat.

Lemma Append_count (r : MemoryStore.MemoryRecord) (st : MemoryStore.Store) :
  MemoryStore.count (MemoryStore.session_id r) (MemoryStore.Append MAX r st)
  = Nat.min (S (MemoryStore.count (MemoryStore.session_id r) st)) MAX.
Proof.
  unfold MemoryStore.Append.
  rewrite evict_count.
  - rewrite count_records. cbn [MemoryStore.records].
    rewrite filter_app, length_app. cbn [filter].
    unfold MemoryStore.in_session at 2. rewrite str_eqb_refl.
    rewrite count_records. cbn [length]. f_equal. lia.
  - rewrite count_records. cbn [MemoryStore.records].
    pose proof (filter_length_le
                  (MemoryStore.in_session (MemoryStore.session_id r))
                  (MemoryStore.records st ++ [r])).
    lia.
Qed.

Lemma Append_count_other (r : MemoryStore.MemoryRecord)
    (st : MemoryStore.Store) (s : jsstring) :
  s <> MemoryStore.session_id r ->
  MemoryStore.count s (MemoryStore.Append MAX r st) = MemoryStore.count s st.
Proof.
  intros Hne. unfold MemoryStore.Append.
  rewrite evict_other by exact Hne.
  rewrite !count_records. cbn [MemoryStore.records].
  rewrite filter_app. cbn [filter].
  unfold MemoryStore.in_session at 2.
  rewrite str_eqb_neq by congruence.
  now rewrite app_nil_r.
Qed.

(** The bound is an invariant of Append. *)
Lemma Appends_bounded (rs : list MemoryStore.MemoryRecord)
    (st : MemoryStore.Store) :
  (forall s, MemoryStore.count s st <= MAX) ->
  forall s, MemoryStore.count s (MemoryStore.Appends MAX rs st) <= MAX.
Proof.
  unfold MemoryStore.Appends.
  revert st. induction rs as [|r rs IH]; intros st Hst s; [apply Hst|].
  cbn [fold_left]. apply IH. intros s1.
  destruct (str_eqb s1 (MemoryStore.session_id r)) eqn:Es.
  - apply str_eqb_eq in Es. subst s1. rewrite Append_count. lia.
  - rewrite Append_count_other; [apply Hst|].
    intros ->. now rewrite str_eqb_refl in Es.
Qed.

End AppendProps.

(** C1.  After any sequence of Appends no session holds more than
    MAX_MEMORY_ITEMS records.  An Append that would exceed the bound leaves
    the session with exactly MAX_MEMORY_ITEMS records, evicting records of
    that session only, oldest by [created_at] first, and with each its
    vector in the index; the other sessions keep what they had. *)
Theorem memory_is_bounded (MAX_MEMORY_ITEMS : nat) :
  (forall rs s,
      MemoryStore.count s (MemoryStore.Appends MAX_MEMORY_ITEMS rs MemoryStore.empty)
      <= MAX_MEMORY_ITEMS)
  /\ (forall r st,
        MemoryStore.count (MemoryStore.session_id r)
          (MemoryStore.Append MAX_MEMORY_ITEMS r st)
        = Nat.min (S (MemoryStore.count (MemoryStore.session_id r) st))
                  MAX_MEMORY_ITEMS)
  /\ (forall r st s,
        s <> MemoryStore.session_id r ->
        MemoryStore.count s (MemoryStore.Append MAX_MEMORY_ITEMS r st)
        = MemoryStore.count s st)
  /\ (forall r st,
        Props.evicted_are_oldest
          (MemoryStore.records st ++ [r])
          (MemoryStore.records (MemoryStore.Append MAX_MEMORY_ITEMS r st))
          (MemoryStore.session_id r))
  /\ (forall r st,
        Props.index_consistent st ->
        ~ In (MemoryStore.id r) (map MemoryStore.id (MemoryStore.records st)) ->
        Props.index_consistent (MemoryStore.Append MAX_MEMORY_ITEMS r st)).
Proof.
  split; [|split; [|split; [|split]]].
  - intros rs s. apply Appends_bounded.
    intros s0. unfold MemoryStore.count. simpl. lia.
  - intros r st. apply Append_count.
  - intros r st s Hne. now apply Append_count_other.
  - intros r st. unfold MemoryStore.Append.
    apply evict_oldest_first.
    + auto.
    + intros x y _ _ Hy _ Hgone. contradiction.
  - intros r st [Hv Hnd] Hfresh. unfold MemoryStore.Append.
    apply evict_consistent. split; cbn [MemoryStore.records MemoryStore.vectors].
    + now rewrite Hv, map_app.
    + rewrite map_app. cbn [map].
      apply NoDup_app; [exact Hnd | now constructor; [intros []|constructor] | ].
      intros i Hi [<- | []]. contradiction.
Qed.

Lemma memory_is_bounded_witness :
  MemoryStore.count (lit "s")
    (MemoryStore.Append 3 (Examples.memory 4 "s" 40)
       (MemoryStore.Appends 3
          [Examples.memory 1 "s" 10; Examples.memory 2 "s" 20;
           Examples.memory 3 "s" 30]
          MemoryStore.empty))
  = 3
  /\ MemoryStore.count (lit "t")
       (MemoryStore.Append 3 (Examples.memory 4 "s" 40)
          (MemoryStore.Appends 3 [Examples.memory 1 "t" 10] MemoryStore.empty))
     = 1.
Proof.
  split.
  - apply (proj1 (proj2 (memory_is_bounded 3)) (Examples.memory 4 "s" 40)).
  - apply (proj1 (proj2 (proj2 (memory_is_bounded 3)))
             (Examples.memory 4 "s" 40)).
    discriminate.
Defined.

(** With the documented configuration no session ever holds more than a
    hundred records. *)
Corollary default_bound (rs : list MemoryStore.MemoryRecord) (s : jsstring) :
  MemoryStore.count s
    (MemoryStore.Appends MemoryStore.default_MAX_MEMORY_ITEMS rs
       MemoryStore.empty)
  <= 100.
Proof.
  apply (@Appends_bounded MemoryStore.default_MAX_MEMORY_ITEMS rs).
  intros s0. unfold MemoryStore.count. simpl. lia.
Qed.

(** The scenario of the specification: with a bound of three, the fourth
    record evicts the first, and the three newest remain, each with its
    vector. *)
Example fourth_record_evicts_the_first :
  MemoryStore.Appends 3
    [Examples.memory 1 "s" 10; Examples.memory 2 "s" 20;
     Examples.memory 3 "s" 30; Examples.memory 4 "s" 40]
    MemoryStore.empty
  = {| MemoryStore.records :=
         [Examples.memory 2 "s" 20; Examples.memory 3 "s" 30;
          Examples.memory 4 "s" 40];
       MemoryStore.vectors := [2; 3; 4]%N |}.
Proof. reflexivity. Qed.

Lemma filter_twice {A} (p : A -> bool) (l : list A) :
  filter p (filter p l) = filter p l.
Proof.
  induction l as [|x l IH]; [reflexivity|].
  simpl. destruct (p x) eqn:E; simpl; rewrite ?E, IH; reflexivity.
Qed.

Lemma filter_all {A} (p : A -> bool) (l : list A) :
  (forall x, In x l -> p x = true) -> filter p l = l.
Proof.
  induction l as [|x l IH]; intros H; [reflexivity|].
  simpl. rewrite (H x) by now left.
  rewrite IH; [reflexivity|]. intros y Hy. apply H. now right.
Qed.

Lemma cleared_has_no_id (s : jsstring) (st : MemoryStore.Store) (i : N) :
  MemoryStore.has_id_in s (MemoryStore.records (MemoryStore.Clear s st)) i = false.
Proof.
  unfold MemoryStore.has_id_in, MemoryStore.Clear. cbn [MemoryStore.records].
  induction (MemoryStore.records st) as [|r l IH]; [reflexivity|].
  simpl. destruct (MemoryStore.in_session s r) eqn:E; simpl; [exact IH|].
  now rewrite E, IH.
Qed.

Lemma Clear_twice (s : jsstring) (st : MemoryStore.Store) :
  MemoryStore.Clear s (MemoryStore.Clear s st) = MemoryStore.Clear s st.
Proof.
  assert (Hr : MemoryStore.records (MemoryStore.Clear s (MemoryStore.Clear s st))
               = MemoryStore.records (MemoryStore.Clear s st)).
  { unfold MemoryStore.Clear. cbn [MemoryStore.records]. apply filter_twice. }
  assert (Hv : MemoryStore.vectors (MemoryStore.Clear s (MemoryStore.Clear s st))
               = MemoryStore.vectors (MemoryStore.Clear s st)).
  { unfold MemoryStore.Clear at 1. cbn [MemoryStore.vectors].
    apply filter_all. intros i _. now rewrite cleared_has_no_id. }
  destruct (MemoryStore.Clear s (MemoryStore.Clear s st)),
    (MemoryStore.Clear s st).
  cbn in Hr, Hv. now subst.
Qed.

Lemma Clear_count (s : jsstring) (st : MemoryStore.Store) :
  MemoryStore.count s (MemoryStore.Clear s st) = 0.
Proof.
  unfold MemoryStore.count, MemoryStore.Clear. cbn [MemoryStore.records].
  induction (MemoryStore.records st) as [|r l IH]; [reflexivity|].
  simpl. destruct (MemoryStore.in_session s r) eqn:E; simpl; [exact IH|].
  now rewrite E.
Qed.

Lemma Clear_other (s s' : jsstring) (st : MemoryStore.Store) :
  s' <> s ->
  MemoryStore.count s' (MemoryStore.Clear s st) = MemoryStore.count s' st.
Proof.
  intros Hne.
  unfold MemoryStore.count, MemoryStore.Clear. cbn [MemoryStore.records].
  induction (MemoryStore.records st) as [|r l IH]; [reflexivity|].
  simpl. destruct (MemoryStore.in_session s r) eqn:E; simpl.
  - now rewrite (@in_session_other s s' r Hne E).
  - destruct (MemoryStore.in_session s' r); simpl; now rewrite IH.
Qed.

(** C8.  Clearing the memory of a session twice in a row leaves what
    clearing it once leaves, on the server and in the panel: the second
    call finds nothing to remove, and it ends without an error, in the
    panel as in [clearMemory] of the API client.  After a clear the session
    has no record, and the other sessions keep theirs. *)
Theorem clear_memory_twice (delay : N) (sessionId : option jsstring)
    (sys : MemoryStore.Store * MemoryPanel.PanelState) :
  fst (MemoryPanel.clear_on_server delay sessionId
         (fst (MemoryPanel.clear_on_server delay sessionId sys)))
  = fst (MemoryPanel.clear_on_server delay sessionId sys)
  /\ snd (MemoryPanel.clear_on_server delay sessionId
            (fst (MemoryPanel.clear_on_server delay sessionId sys)))
     = Returned tt
  /\ MemoryPanel.error
       (snd (fst (MemoryPanel.clear_on_server delay sessionId
                    (fst (MemoryPanel.clear_on_server delay sessionId sys)))))
     = MemoryPanel.error (snd sys)
  /\ (forall s st,
        snd (Api.clearMemory
               (fun sid => snd (MemoryStore.serve_clear delay
                                  (MemoryStore.Clear s st) sid))
               s)
        = Returned tt)
  /\ (forall s st,
        MemoryStore.Clear s (MemoryStore.Clear s st) = MemoryStore.Clear s st
        /\ MemoryStore.count s (MemoryStore.Clear s st) = 0
        /\ (forall s', s' <> s ->
              MemoryStore.count s' (MemoryStore.Clear s st)
              = MemoryStore.count s' st)).
Proof.
  destruct sys as [store panel].
  split; [|split; [|split; [|split]]].
  - destruct sessionId as [[|c sid]|]; try reflexivity.
    unfold MemoryPanel.clear_on_server, MemoryPanel.clearMemories,
      MemoryStore.serve_clear, Api.axios_delete.
    cbn. now rewrite Clear_twice.
  - destruct sessionId as [[|c sid]|]; reflexivity.
  - destruct sessionId as [[|c sid]|]; reflexivity.
  - reflexivity.
  - intros s st. split; [apply Clear_twice|split].
    + apply Clear_count.
    + intros s' Hne. now apply Clear_other.
Qed.

Lemma clear_memory_twice_witness :
  MemoryStore.count (lit "t")
    (MemoryStore.Clear (lit "s")
       (MemoryStore.Appends 3
          [Examples.memory 1 "s" 10; Examples.memory 2 "t" 20]
          MemoryStore.empty))
  = 1.
Proof.
  destruct (clear_memory_twice 0 None
              (MemoryStore.empty,
               {| MemoryPanel.memories := []; MemoryPanel.isLoading := false;
                  MemoryPanel.error := None |}))
    as (_ & _ & _ & _ & Hstore).
  destruct (Hstore (lit "s")
              (MemoryStore.Appends 3
                 [Examples.memory 1 "s" 10; Examples.memory 2 "t" 20]
                 MemoryStore.empty))
    as (_ & _ & Hother).
  rewrite (Hother (lit "t")) by discriminate.
  reflexivity.
Defined.

(** * Further properties of the client *)

(** ** The file list of the page *)

Lemma filter_out_index_outside {A} (index : Z) (i : nat) (l : list A) :
  (index < Z.of_nat i \/ Z.of_nat (i + length l) <= index)%Z ->
  Page.filter_out_index index i l = l.
Proof.
  revert i. induction l as [|x l IH]; intros i H; [reflexivity|].
  simpl. destruct (Z.eqb_spec (Z.of_nat i) index) as [E|_].
  - simpl in H. lia.
  - rewrite IH; [reflexivity|]. simpl in H. lia.
Qed.

Lemma filter_out_index_inside {A} (n i : nat) (l : list A) :
  n < length l ->
  Page.filter_out_index (Z.of_nat (i + n)) i l = firstn n l ++ skipn (S n) l.
Proof.
  revert n i. induction l as [|x l IH]; intros n i H; [simpl in H; lia|].
  destruct n as [|n].
  - simpl. rewrite Nat.add_0_r, Z.eqb_refl.
    apply filter_out_index_outside. lia.
  - cbn [Page.filter_out_index firstn skipn app].
    destruct (Z.eqb_spec (Z.of_nat i) (Z.of_nat (i + S n))) as [E|_]; [lia|].
    replace (i + S n) with (S i + n) by lia.
    rewrite IH by (simpl in H; lia). reflexivity.
Qed.

Lemma filter_out_index_from_start {A} (n : nat) (l : list A) :
  n < length l ->
  Page.filter_out_index (Z.of_nat n) 0 l = firstn n l ++ skipn (S n) l.
Proof. intros H. exact (filter_out_index_inside 0 l H). Qed.

(** X1.  [handleRemoveFile] with the position of a file removes that file
    and no other, the rest keeping their order; with any other number, a
    negative one or one past the end, it changes nothing. *)
Theorem remove_file_at_position (st : Page.PageState) :
  (forall n, n < length (Page.files st) ->
     Page.files (Page.handleRemoveFile (Z.of_nat n) st)
     = firstn n (Page.files st) ++ skipn (S n) (Page.files st)
     /\ S (length (Page.files (Page.handleRemoveFile (Z.of_nat n) st)))
        = length (Page.files st))
  /\ (forall index,
        (index < 0 \/ Z.of_nat (length (Page.files st)) <= index)%Z ->
        Page.handleRemoveFile index st = st).
Proof.
  split.
  - intros n Hn. unfold Page.handleRemoveFile. cbn [Page.files].
    rewrite (filter_out_index_from_start (Page.files st) Hn).
    split; [reflexivity|].
    rewrite length_app, length_firstn, length_skipn. lia.
  - intros index H. unfold Page.handleRemoveFile.
    rewrite filter_out_index_outside by (simpl; lia).
    now destruct st.
Qed.

Lemma remove_file_at_position_witness :
  Page.files
    (Page.handleRemoveFile 1
       (Page.handleFilesDropped
          [Examples.paper; Examples.csv_file; Examples.film] Page.initial))
  = [Examples.paper; Examples.film].
Proof.
  apply (proj1 (remove_file_at_position
                  (Page.handleFilesDropped
                     [Examples.paper; Examples.csv_file; Examples.film]
                     Page.initial)) 1).
  simpl. lia.
Defined.

(** X2.  Dropping one file and then removing the last position gives back
    the page as it was. *)
Theorem drop_then_remove_last (f : Api.File) (st : Page.PageState) :
  Page.handleRemoveFile (Z.of_nat (length (Page.files st)))
    (Page.handleFilesDropped [f] st)
  = st.
Proof.
  unfold Page.handleRemoveFile, Page.handleFilesDropped. cbn.
  assert (H : length (Page.files st) < length (Page.files st ++ [f]))
    by (rewrite length_app; simpl; lia).
  rewrite (filter_out_index_from_start (Page.files st ++ [f]) H).
  rewrite firstn_app, Nat.sub_diag, firstn_all. cbn [firstn].
  rewrite skipn_all2 by (rewrite length_app; simpl; lia).
  rewrite !app_nil_r. now destruct st.
Qed.

(** ** [handleAnalyze], beyond the guard *)

Lemma store_response_fields (response : jsval) (st st' : Page.PageState) :
  Page.store_response response st = Some st' ->
  Page.query st' = Page.query st /\ Page.files st' = Page.files st
  /\ Page.activePanel st' = Page.activePanel st
  /\ Page.showDock st' = Page.showDock st
  /\ Page.thinkingSteps st' = Page.thinkingSteps st.
Proof.
  unfold Page.store_response.
  destruct (get_prop response (lit "session_id")); [|discriminate].
  intros H. injection H as <-. repeat split.
Qed.

(** X3.  [handleAnalyze] never throws, whatever the backend does, and never
    touches the query, the files, the active panel or the dock switch; when
    it went past the guard it leaves [isAnalyzing] off. *)
Theorem handleAnalyze_settles
    (backend : Api.FormData -> Api.exchange) (st : Page.PageState) :
  snd (Page.handleAnalyze backend st) = Returned tt
  /\ Page.query (fst (fst (Page.handleAnalyze backend st))) = Page.query st
  /\ Page.files (fst (fst (Page.handleAnalyze backend st))) = Page.files st
  /\ Page.activePanel (fst (fst (Page.handleAnalyze backend st)))
     = Page.activePanel st
  /\ Page.showDock (fst (fst (Page.handleAnalyze backend st)))
     = Page.showDock st
  /\ (Page.nothing_to_analyze st = false ->
      Page.isAnalyzing (fst (fst (Page.handleAnalyze backend st))) = false).
Proof.
  unfold Page.handleAnalyze.
  destruct (Page.nothing_to_analyze st); [repeat split; discriminate|].
  destruct (Api.analyzeData backend (Page.analyze_options st)) as [log r].
  destruct (match r with
            | Returned response =>
                Page.store_response response
                  (Page.run_callbacks log (Page.begin_analysis st))
            | Threw _ => None
            end) as [st3|] eqn:E.
  - destruct r as [response|e]; [|discriminate].
    apply store_response_fields in E as (Hq & Hf & Hp & Hd & _).
    rewrite run_callbacks_spec in Hq, Hf, Hp, Hd.
    cbn in Hq, Hf, Hp, Hd. cbn. repeat split; assumption.
  - rewrite run_callbacks_spec. cbn. repeat split.
Qed.

Lemma handleAnalyze_settles_witness :
  Page.isAnalyzing
    (fst (fst (Page.handleAnalyze Examples.late_backend Examples.asking_page)))
  = false.
Proof.
  apply (proj2 (proj2 (proj2 (proj2 (proj2
           (handleAnalyze_settles Examples.late_backend
              Examples.asking_page)))))).
  reflexivity.
Defined.

Lemma handleAnalyze_good_reply
    (backend : Api.FormData -> Api.exchange) (st : Page.PageState)
    (form : Api.FormData) (status : N) (data : jsval) (steps : list jsval) :
  Page.nothing_to_analyze st = false ->
  Api.build_form (Page.analyze_options st) = Some form ->
  (Api.latency (backend form) <= 120000)%N ->
  Api.reply (backend form) = Api.Reply status data ->
  Api.ok_status status = true ->
  get_prop data (lit "thinking_trace") = Some (VArr steps) ->
  fst (fst (Page.handleAnalyze backend st))
  = {| Page.sessionId := Props.field (lit "session_id") data;
       Page.query := Page.query st; Page.files := Page.files st;
       Page.isAnalyzing := false;
       Page.thinkingSteps := map VStr Api.thinkingSteps ++ steps;
       Page.result := data;
       Page.charts := js_or (Props.field (lit "charts") data) (VArr []);
       Page.activePanel := Page.activePanel st;
       Page.isDockMinimized := false;
       Page.showDock := Page.showDock st |}.
Proof.
  intros Hgo Hform Hl Hr Hok Ht. unfold Page.handleAnalyze. rewrite Hgo.
  rewrite (@analyzeData_forwards backend (Page.analyze_options st) form Hform
             status data steps eq_refl Hl Hr Hok Ht).
  rewrite run_callbacks_spec, !callbacks_of_app, callbacks_of_map.
  unfold Page.store_response, Props.field.
  destruct data; try discriminate; try reflexivity.
  unfold get_prop.
  destruct (lookup (lit "session_id") fields); reflexivity.
Qed.

(** X4.  After a good reply in time whose [thinking_trace] is an array, the
    page holds the reply as its result, the session id and the charts the
    reply carries (no charts when it carries none), and in the console the
    four simulated steps followed by the steps of the reply. *)
Theorem handleAnalyze_success
    (backend : Api.FormData -> Api.exchange) (st : Page.PageState)
    (form : Api.FormData) (status : N) (data : jsval) (steps : list jsval) :
  Page.nothing_to_analyze st = false ->
  Api.build_form (Page.analyze_options st) = Some form ->
  (Api.latency (backend form) <= 120000)%N ->
  Api.reply (backend form) = Api.Reply status data ->
  Api.ok_status status = true ->
  get_prop data (lit "thinking_trace") = Some (VArr steps) ->
  fst (fst (Page.handleAnalyze backend st))
  = {| Page.sessionId := Props.field (lit "session_id") data;
       Page.query := Page.query st; Page.files := Page.files st;
       Page.isAnalyzing := false;
       Page.thinkingSteps := map VStr Api.thinkingSteps ++ steps;
       Page.result := data;
       Page.charts := js_or (Props.field (lit "charts") data) (VArr []);
       Page.activePanel := Page.activePanel st;
       Page.isDockMinimized := false;
       Page.showDock := Page.showDock st |}.
Proof.
  intros Hgo Hform Hl Hr Hok Ht.
  exact (@handleAnalyze_good_reply backend st form status data steps
           Hgo Hform Hl Hr Hok Ht).
Qed.

Lemma handleAnalyze_success_witness :
  Page.result
    (fst (fst (Page.handleAnalyze Examples.quick_backend Examples.asking_page)))
  = Examples.answer
  /\ Page.sessionId
       (fst (fst (Page.handleAnalyze Examples.quick_backend Examples.asking_page)))
     = VStr (lit "s-1").
Proof.
  rewrite (@handleAnalyze_success Examples.quick_backend Examples.asking_page
             [(lit "text", Api.FString (lit "What does BRCA1 do?"))]
             200%N Examples.answer [VStr (lit "Reading"); VStr (lit "Done")]
             eq_refl eq_refl).
  - split; reflexivity.
  - simpl. lia.
  - reflexivity.
  - reflexivity.
  - reflexivity.
Defined.

Lemma handleAnalyze_sends
    (backend : Api.FormData -> Api.exchange) (st : Page.PageState)
    (form : Api.FormData) :
  Page.nothing_to_analyze st = false ->
  Api.build_form (Page.analyze_options st) = Some form ->
  exists rest,
    snd (fst (Page.handleAnalyze backend st))
    = Props.simulated_steps ++ Props.analyze_request form :: rest.
Proof.
  intros H Hform. unfold Page.handleAnalyze. rewrite H.
  destruct (@analyzeData_starts backend (Page.analyze_options st) form Hform)
    as (rest & waited & E & _).
  cbn [Page.analyze_options Api.onThinkingStep] in E.
  destruct (Api.analyzeData backend (Page.analyze_options st)) as [log r].
  cbn [fst] in E.
  destruct (match r with
            | Returned response =>
                Page.store_response response
                  (Page.run_callbacks log (Page.begin_analysis st))
            | Threw _ => None
            end) as [st3|].
  - exists (Api.ASettled waited :: rest). exact E.
  - exists (Api.ASettled waited :: rest ++ [Api.AConsoleError]).
    cbn [fst snd]. rewrite E, <- app_assoc. reflexivity.
Qed.

(** ** The form [analyzeData] sends *)

Lemma form_files_app (a b : Api.FormData) :
  Props.form_files (a ++ b) = Props.form_files a ++ Props.form_files b.
Proof.
  induction a as [|[k [v|f]] a IH]; simpl; rewrite ?IH; reflexivity.
Qed.

Lemma form_texts_app (name : jsstring) (a b : Api.FormData) :
  Props.form_texts name (a ++ b)
  = Props.form_texts name a ++ Props.form_texts name b.
Proof.
  induction a as [|[k [v|f]] a IH]; simpl; rewrite ?IH; try reflexivity.
  now destruct (str_eqb k name).
Qed.

Lemma form_of_files (name : jsstring) (fs : list Api.File) :
  Props.form_files (map (fun f => (lit "files", Api.FFile f)) fs) = fs
  /\ Props.form_texts name (map (fun f => (lit "files", Api.FFile f)) fs) = [].
Proof.
  induction fs as [|f fs [IH1 IH2]]; [now split|].
  simpl. now rewrite IH1, IH2.
Qed.

Lemma build_form_fields (o : Api.AnalyzeOptions) (form : Api.FormData) :
  Api.build_form o = Some form ->
  Props.form_files form
  = match Api.files o with Some fs => fs | None => [] end
  /\ Props.form_texts (lit "text") form = [toUSVString (Api.query o)]
  /\ Props.form_texts (lit "session_id") form
     = if truthy (Api.sessionId o)
       then match ToString (Api.sessionId o) with
            | Some text => [toUSVString text]
            | None => []
            end
       else [].
Proof.
  unfold Api.build_form, Api.session_entry.
  destruct (form_of_files (lit "text")
              (match Api.files o with Some fs => fs | None => [] end))
    as [Hf Ht].
  destruct (form_of_files (lit "session_id")
              (match Api.files o with Some fs => fs | None => [] end))
    as [_ Hs].
  destruct (truthy (Api.sessionId o));
    [destruct (ToString (Api.sessionId o)) as [text|]; [|discriminate]|];
    intros H; injection H as <-;
    cbn [app Props.form_files Props.form_texts];
    rewrite Hf, Ht, Hs; repeat split; reflexivity.
Qed.

(** What [FormData.append] makes of a string is a USVString, and a
    USVString it leaves as it is. *)
Lemma toUSVString_well_formed_upto (n : nat) (s : jsstring) :
  length s <= n -> Props.well_formed (toUSVString s) = true.
Proof.
  revert s. induction n as [|n IH]; intros s Hn.
  - destruct s; [reflexivity|simpl in Hn; lia].
  - destruct s as [|c rest]; [reflexivity|].
    cbn [toUSVString].
    destruct (is_high_surrogate c) eqn:Hc.
    + destruct rest as [|d rest']; [reflexivity|].
      destruct (is_low_surrogate d) eqn:Hd.
      * cbn [Props.well_formed]. rewrite Hc, Hd. cbn [andb].
        apply IH. simpl in Hn. lia.
      * change (Props.well_formed (65533%N :: toUSVString (d :: rest')))
          with (Props.well_formed (toUSVString (d :: rest'))).
        apply IH. simpl in Hn |- *. lia.
    + destruct (is_low_surrogate c) eqn:Hl.
      * change (Props.well_formed (65533%N :: toUSVString rest))
          with (Props.well_formed (toUSVString rest)).
        apply IH. simpl in Hn. lia.
      * cbn [Props.well_formed]. rewrite Hc, Hl. cbn [negb andb].
        apply IH. simpl in Hn. lia.
Qed.

Lemma toUSVString_well_formed (s : jsstring) :
  Props.well_formed (toUSVString s) = true.
Proof. now apply (@toUSVString_well_formed_upto (length s)). Qed.

Lemma toUSVString_fixes_upto (n : nat) (s : jsstring) :
  length s <= n -> Props.well_formed s = true -> toUSVString s = s.
Proof.
  revert s. induction n as [|n IH]; intros s Hn Hs.
  - destruct s; [reflexivity|simpl in Hn; lia].
  - destruct s as [|c rest]; [reflexivity|].
    cbn [toUSVString Props.well_formed] in *.
    destruct (is_high_surrogate c).
    + destruct rest as [|d rest']; [discriminate|].
      apply andb_true_iff in Hs as [Hd Hs]. rewrite Hd.
      rewrite IH; [reflexivity| simpl in Hn; lia | exact Hs].
    + apply andb_true_iff in Hs as [Hl Hs].
      apply negb_true_iff in Hl. rewrite Hl.
      rewrite IH; [reflexivity| simpl in Hn; lia | exact Hs].
Qed.

Lemma toUSVString_fixes (s : jsstring) :
  Props.well_formed s = true -> toUSVString s = s.
Proof. now apply (@toUSVString_fixes_upto (length s)). Qed.

Lemma toUSVString_length (s : jsstring) :
  length (toUSVString s) = length s.
Proof.
  assert (H : forall n s, length s <= n -> length (toUSVString s) = length s).
  { clear s. induction n as [|n IH]; intros s Hn.
    - destruct s; [reflexivity|simpl in Hn; lia].
    - destruct s as [|c rest]; [reflexivity|].
      cbn [toUSVString].
      destruct (is_high_surrogate c).
      + destruct rest as [|d rest']; [reflexivity|].
        destruct (is_low_surrogate d).
        * cbn [length]. rewrite IH; [reflexivity|simpl in Hn; lia].
        * cbn [length]. rewrite (IH (d :: rest')); [reflexivity|].
          simpl in Hn |- *. lia.
      + destruct (is_low_surrogate c); cbn [length];
          (rewrite IH; [reflexivity|simpl in Hn; lia]). }
  now apply (H (length s)).
Qed.

Lemma requests_of_app (l1 l2 : list Api.action) :
  Props.requests_of (l1 ++ l2) = Props.requests_of l1 ++ Props.requests_of l2.
Proof.
  induction l1 as [|a l1 IH]; [reflexivity|].
  destruct a; simpl; rewrite ?IH; try reflexivity.
  now destruct (str_eqb _ _).
Qed.

Lemma requests_of_callbacks (steps : list jsval) :
  Props.requests_of (map Api.ACallback steps) = [].
Proof. induction steps; simpl; auto. Qed.

(** ** [analyzeData]: when it returns and what it forwards *)

Section AnalyzeDataMore.

Variable backend : Api.FormData -> Api.exchange.
Variable o : Api.AnalyzeOptions.
Variable form : Api.FormData.
Hypothesis Hform : Api.build_form o = Some form.

Let x := backend form.

(** The outcome of the call, case by case. *)
Lemma analyzeData_cases :
  Api.analyzeData backend o
  = let pre := (if Api.onThinkingStep o then Props.simulated_steps else [])
               ++ [Props.analyze_request form] in
    if (120000 <? Api.latency x)%N
    then (pre ++ [Api.ASettled 120000], Threw AxiosTimeout)
    else
      match Api.reply x with
      | Api.NoReply => (pre ++ [Api.ASettled (Api.latency x)], Threw AxiosNetwork)
      | Api.Reply status data =>
          if Api.ok_status status then
            if Api.onThinkingStep o then
              match get_prop data (lit "thinking_trace") with
              | None => (pre ++ [Api.ASettled (Api.latency x)], Threw JsTypeError)
              | Some trace =>
                  if truthy trace then
                    match iterate trace with
                    | None =>
                        (pre ++ [Api.ASettled (Api.latency x)], Threw JsTypeError)
                    | Some steps =>
                        (pre ++ Api.ASettled (Api.latency x)
                             :: map Api.ACallback steps,
                         Returned data)
                    end
                  else (pre ++ [Api.ASettled (Api.latency x)], Returned data)
              end
            else (pre ++ [Api.ASettled (Api.latency x)], Returned data)
          else (pre ++ [Api.ASettled (Api.latency x)],
                Threw (AxiosBadStatus status))
      end.
Proof.
  unfold Api.analyzeData, Api.axios_post, Props.analyze_request.
  rewrite Hform. fold x.
  destruct (Api.onThinkingStep o); rewrite ?simulated_steps_run;
    (destruct (120000 <? Api.latency x)%N;
     [ cbn; rewrite <- ?app_assoc; reflexivity | ]);
    (destruct (Api.reply x) as [status data|];
     [ destruct (Api.ok_status status) | ]);
    try (cbn; rewrite <- ?app_assoc; reflexivity).
  cbn [Api.bind Api.emit Api.ret app].
  destruct (get_prop data (lit "thinking_trace")) as [trace|];
    [ destruct (truthy trace);
      [ destruct (iterate trace) as [steps|];
        [ rewrite for_each_callbacks | ] | ] | ];
    cbn; rewrite <- ?app_assoc, ?app_nil_r; reflexivity.
Qed.

(** Whatever happens to it, one request is sent, with the form that was
    built. *)
Lemma analyzeData_one_request :
  Props.requests_of (fst (Api.analyzeData backend o)) = [form].
Proof.
  rewrite analyzeData_cases. cbn zeta.
  assert (Hpre : Props.requests_of
                   ((if Api.onThinkingStep o then Props.simulated_steps else [])
                    ++ [Props.analyze_request form]) = [form]).
  { rewrite requests_of_app. now destruct (Api.onThinkingStep o). }
  destruct (120000 <? Api.latency x)%N;
    [cbn [fst]; rewrite requests_of_app, Hpre; reflexivity|].
  destruct (Api.reply x) as [status data|];
    [|cbn [fst]; rewrite requests_of_app, Hpre; reflexivity].
  destruct (Api.ok_status status);
    [|cbn [fst]; rewrite requests_of_app, Hpre; reflexivity].
  destruct (Api.onThinkingStep o);
    [|cbn [fst]; rewrite requests_of_app, Hpre; reflexivity].
  destruct (get_prop data (lit "thinking_trace")) as [trace|];
    [|cbn [fst]; rewrite requests_of_app, Hpre; reflexivity].
  destruct (truthy trace);
    [|cbn [fst]; rewrite requests_of_app, Hpre; reflexivity].
  destruct (iterate trace) as [steps|];
    cbn [fst]; rewrite requests_of_app, Hpre; cbn [Props.requests_of];
    rewrite ?requests_of_callbacks; reflexivity.
Qed.

End AnalyzeDataMore.

(** X5.  [analyzeData] sends one request, and the form it carries holds
    every file once and in order and the query as its one [text] field,
    stored as [FormData.append] stores a string: as a USVString of the
    length of the query, which is the query itself when the query is one
    already.  A session id that is sent is a USVString too.  A session id
    that is truthy and has no string makes the call throw before anything
    is delivered or sent; that is the only way in which no form is built. *)
Theorem form_carries_the_request
    (backend : Api.FormData -> Api.exchange) (o : Api.AnalyzeOptions) :
  (forall form,
      Api.build_form o = Some form ->
      Props.requests_of (fst (Api.analyzeData backend o)) = [form]
      /\ Props.form_files form
         = match Api.files o with Some fs => fs | None => [] end
      /\ (exists text,
            Props.form_texts (lit "text") form = [text]
            /\ Props.well_formed text = true
            /\ length text = length (Api.query o)
            /\ (Props.well_formed (Api.query o) = true -> text = Api.query o))
      /\ (forall text,
            In text (Props.form_texts (lit "session_id") form) ->
            Props.well_formed text = true))
  /\ (Api.build_form o = None
      <-> truthy (Api.sessionId o) = true /\ ToString (Api.sessionId o) = None)
  /\ (Api.build_form o = None ->
      Api.analyzeData backend o = ([], Threw JsTypeError)).
Proof.
  split; [|split].
  - intros form Hform.
    destruct (build_form_fields o Hform) as (Hf & Ht & Hs).
    split; [exact (@analyzeData_one_request backend o form Hform)|].
    split; [exact Hf|]. split.
    + exists (toUSVString (Api.query o)).
      split; [exact Ht|]. split; [apply toUSVString_well_formed|].
      split; [apply toUSVString_length|apply toUSVString_fixes].
    + intros text Hin. rewrite Hs in Hin.
      destruct (truthy (Api.sessionId o)); [|contradiction].
      destruct (ToString (Api.sessionId o)) as [sid|]; [|contradiction].
      destruct Hin as [<-|[]]. apply toUSVString_well_formed.
  - unfold Api.build_form, Api.session_entry.
    destruct (truthy (Api.sessionId o));
      [destruct (ToString (Api.sessionId o))|];
      split; try discriminate; try (intros [? ?]; discriminate);
      try (now split).
  - intros Hnone. exact (@analyzeData_no_form backend o Hnone).
Qed.

Lemma form_carries_the_request_witness :
  Props.requests_of
    (fst (Api.analyzeData Examples.quick_backend
            {| Api.query := lit "gene " ++ [55357%N] ++ lit "?";
               Api.files := Some [Examples.paper];
               Api.sessionId := VStr (lit "s-1");
               Api.onThinkingStep := true |}))
  = [[ (lit "text", Api.FString (lit "gene " ++ [65533%N] ++ lit "?"));
       (lit "session_id", Api.FString (lit "s-1"));
       (lit "files", Api.FFile Examples.paper) ]]
  /\ Api.analyzeData Examples.quick_backend
       {| Api.query := lit "gene"; Api.files := None;
          Api.sessionId := VObj [(lit "toString", VNum (lit "1"))];
          Api.onThinkingStep := true |}
     = ([], Threw JsTypeError).
Proof.
  split.
  - apply (proj1 (form_carries_the_request Examples.quick_backend
                    {| Api.query := lit "gene " ++ [55357%N] ++ lit "?";
                       Api.files := Some [Examples.paper];
                       Api.sessionId := VStr (lit "s-1");
                       Api.onThinkingStep := true |})).
    reflexivity.
  - apply (proj2 (proj2 (form_carries_the_request Examples.quick_backend
                           {| Api.query := lit "gene"; Api.files := None;
                              Api.sessionId :=
                                VObj [(lit "toString", VNum (lit "1"))];
                              Api.onThinkingStep := true |}))).
    reflexivity.
Defined.

(** X6.  The session id that a good reply carries is sent with the next
    request of the page, whatever backend answers it, stored as
    [FormData.append] stores a string; a page that has no session yet
    sends no session id. *)
Theorem session_is_carried_over
    (backend backend' : Api.FormData -> Api.exchange) (st : Page.PageState)
    (form : Api.FormData) (status : N) (data : jsval) (steps : list jsval)
    (sid : jsstring) :
  Page.nothing_to_analyze st = false ->
  Api.build_form (Page.analyze_options st) = Some form ->
  (Api.latency (backend form) <= 120000)%N ->
  Api.reply (backend form) = Api.Reply status data ->
  Api.ok_status status = true ->
  get_prop data (lit "thinking_trace") = Some (VArr steps) ->
  get_prop data (lit "session_id") = Some (VStr sid) ->
  sid <> [] ->
  (Page.sessionId st = VNull ->
   Props.form_texts (lit "session_id") form = [])
  /\ exists form' rest,
       snd (fst (Page.handleAnalyze backend'
                   (fst (fst (Page.handleAnalyze backend st)))))
       = Props.simulated_steps
           ++ Api.ARequest (lit "/analyze") form' (Some 120000%N) :: rest
       /\ Props.form_texts (lit "session_id") form' = [toUSVString sid]
       /\ (Props.well_formed sid = true ->
           Props.form_texts (lit "session_id") form' = [sid]).
Proof.
  intros Hgo Hform Hl Hr Hok Ht Hsid Hne. split.
  - intros Hnull.
    destruct (build_form_fields (Page.analyze_options st) Hform) as (_ & _ & E).
    rewrite E. cbn [Page.analyze_options Api.sessionId].
    now rewrite Hnull.
  - rewrite (@handleAnalyze_good_reply backend st form status data steps
               Hgo Hform Hl Hr Hok Ht).
    unfold Props.field. rewrite Hsid.
    match goal with
    | |- context [Page.handleAnalyze backend' ?s] => set (st' := s)
    end.
    assert (Hgo' : Page.nothing_to_analyze st' = false) by exact Hgo.
    assert (Hne' : truthy (VStr sid) = true)
      by (destruct sid; [contradiction|reflexivity]).
    assert (Hform' : Api.build_form (Page.analyze_options st')
                     = Some ([(lit "text", Api.FString (toUSVString (Page.query st)))]
                             ++ [(lit "session_id", Api.FString (toUSVString sid))]
                             ++ map (fun f => (lit "files", Api.FFile f))
                                    (Page.files st))).
    { unfold Api.build_form, Api.session_entry.
      cbn [Page.analyze_options Api.sessionId Api.query Api.files st'
           Page.sessionId Page.query Page.files].
      unfold js_or. rewrite Hne', Hne'. reflexivity. }
    destruct (@handleAnalyze_sends backend' st' _ Hgo' Hform') as (rest & E).
    eexists. exists rest.
    split; [exact E|].
    destruct (build_form_fields (Page.analyze_options st') Hform')
      as (_ & _ & Es).
    assert (Es' : Props.form_texts (lit "session_id")
                    ([(lit "text", Api.FString (toUSVString (Page.query st)))]
                     ++ [(lit "session_id", Api.FString (toUSVString sid))]
                     ++ map (fun f => (lit "files", Api.FFile f))
                            (Page.files st))
                  = [toUSVString sid]).
    { rewrite Es.
      cbn [Page.analyze_options Api.sessionId st' Page.sessionId].
      unfold js_or. rewrite Hne', Hne'. reflexivity. }
    split; [exact Es'|].
    intros Hwf. now rewrite Es', (toUSVString_fixes sid Hwf).
Qed.

Lemma session_is_carried_over_witness :
  exists form' rest,
    snd (fst (Page.handleAnalyze Examples.late_backend
                (fst (fst (Page.handleAnalyze Examples.quick_backend
                             Examples.asking_page)))))
    = Props.simulated_steps
        ++ Api.ARequest (lit "/analyze") form' (Some 120000%N) :: rest
    /\ Props.form_texts (lit "session_id") form' = [lit "s-1"].
Proof.
  destruct (@session_is_carried_over Examples.quick_backend Examples.late_backend
              Examples.asking_page
              [(lit "text", Api.FString (lit "What does BRCA1 do?"))]
              200%N Examples.answer
              [VStr (lit "Reading"); VStr (lit "Done")] (lit "s-1")
              eq_refl eq_refl ltac:(simpl; lia) eq_refl eq_refl eq_refl eq_refl
              ltac:(discriminate))
    as (_ & form' & rest & E & Hs & _).
  exists form', rest. split; [exact E|exact Hs].
Defined.

(** X7.  After [handleNewAnalysis] the page has nothing to analyze, so a
    call of [handleAnalyze] sends nothing and changes nothing; the session
    id is kept, so the next analysis continues the session. *)
Theorem new_analysis_keeps_the_session
    (backend : Api.FormData -> Api.exchange) (st : Page.PageState) :
  Page.handleAnalyze backend (Page.handleNewAnalysis st)
  = (Page.handleNewAnalysis st, [], Returned tt)
  /\ Page.sessionId (Page.handleNewAnalysis st) = Page.sessionId st
  /\ Page.thinkingSteps (Page.handleNewAnalysis st) = []
  /\ Page.result (Page.handleNewAnalysis st) = VNull.
Proof. repeat split. Qed.

(** X8.  Without a callback [analyzeData] calls no callback and makes no
    pause: all it does is send the request, with the form it has built, and
    wait for it, at most 120000 ms. *)
Theorem without_callback_only_the_request
    (backend : Api.FormData -> Api.exchange) (o : Api.AnalyzeOptions)
    (form : Api.FormData) :
  Api.onThinkingStep o = false ->
  Api.build_form o = Some form ->
  exists waited,
    fst (Api.analyzeData backend o)
    = [Props.analyze_request form; Api.ASettled waited]
    /\ (waited <= 120000)%N
    /\ Props.callbacks_of (fst (Api.analyzeData backend o)) = []
    /\ Props.elapsed (fst (Api.analyzeData backend o)) = waited.
Proof.
  intros Hcb Hform. rewrite (@analyzeData_cases backend o form Hform), Hcb.
  cbn zeta.
  destruct (N.ltb_spec 120000 (Api.latency (backend form))) as [Hl|Hl].
  - exists 120000%N. cbn [fst app Props.callbacks_of Props.elapsed Props.analyze_request].
    repeat split; lia.
  - exists (Api.latency (backend form)).
    destruct (Api.reply (backend form)) as [status data|];
      [destruct (Api.ok_status status)|];
      cbn [fst app Props.callbacks_of Props.elapsed Props.analyze_request];
      repeat split; lia.
Qed.

Lemma without_callback_only_the_request_witness :
  exists waited,
    fst (Api.analyzeData Examples.quick_backend
           {| Api.query := lit "What does BRCA1 do?"; Api.files := None;
              Api.sessionId := VStr (lit "s-1"); Api.onThinkingStep := false |})
    = [Props.analyze_request
         [(lit "text", Api.FString (lit "What does BRCA1 do?"));
          (lit "session_id", Api.FString (lit "s-1"))];
       Api.ASettled waited].
Proof.
  destruct (@without_callback_only_the_request Examples.quick_backend
              {| Api.query := lit "What does BRCA1 do?"; Api.files := None;
                 Api.sessionId := VStr (lit "s-1");
                 Api.onThinkingStep := false |}
              [(lit "text", Api.FString (lit "What does BRCA1 do?"));
               (lit "session_id", Api.FString (lit "s-1"))]
              eq_refl eq_refl)
    as (waited & E & _).
  exists waited. exact E.
Defined.

(** X9.  [analyzeData] returns, and then returns the body of the reply as
    it is, exactly when its form can be built, the reply comes within
    120000 ms with a status in the 2xx range and, if a callback is
    supplied, the body is neither [null] nor [undefined] and its
    [thinking_trace] is falsy or can be iterated.  In every other case the
    call throws. *)
Theorem analyzeData_returns_iff
    (backend : Api.FormData -> Api.exchange) (o : Api.AnalyzeOptions)
    (d : jsval) :
  snd (Api.analyzeData backend o) = Returned d
  <-> exists form,
        Api.build_form o = Some form
        /\ (Api.latency (backend form) <= 120000)%N
        /\ (exists status,
              Api.reply (backend form) = Api.Reply status d
              /\ Api.ok_status status = true)
        /\ (Api.onThinkingStep o = true ->
            exists trace,
              get_prop d (lit "thinking_trace") = Some trace
              /\ (truthy trace = false \/ iterate trace <> None)).
Proof.
  destruct (Api.build_form o) as [form|] eqn:Hform.
  2:{ rewrite (@analyzeData_no_form backend o Hform).
      split; [discriminate|]. intros (form & H & _). discriminate. }
  rewrite (@analyzeData_cases backend o form Hform). cbn zeta.
  assert (Hback : forall P : Api.FormData -> Prop,
             (exists form', Some form = Some form' /\ P form') <-> P form).
  { intros P. split.
    - intros (form' & E & H). now injection E as <-.
    - intros H. now exists form. }
  rewrite (Hback (fun form' =>
             (Api.latency (backend form') <= 120000)%N
             /\ (exists status,
                   Api.reply (backend form') = Api.Reply status d
                   /\ Api.ok_status status = true)
             /\ (Api.onThinkingStep o = true ->
                 exists trace,
                   get_prop d (lit "thinking_trace") = Some trace
                   /\ (truthy trace = false \/ iterate trace <> None)))).
  clear Hback.
  destruct (N.ltb_spec 120000 (Api.latency (backend form))) as [Hl|Hl].
  { split; [discriminate|]. intros (H & _). lia. }
  destruct (Api.reply (backend form)) as [status data|].
  2:{ split; [discriminate|]. intros (_ & (status & H & _) & _). discriminate. }
  destruct (Api.ok_status status) eqn:Hok.
  2:{ split; [discriminate|].
      intros (_ & (status' & H & Hok') & _).
      injection H as -> _. congruence. }
  destruct (Api.onThinkingStep o).
  2:{ split.
      - intros H. injection H as ->. repeat split; eauto. discriminate.
      - intros (_ & (status' & H & _) & _). now injection H as _ ->. }
  destruct (get_prop data (lit "thinking_trace")) as [trace|] eqn:Ht.
  2:{ split; [discriminate|].
      intros (_ & (status' & H & _) & Hcb). injection H as _ <-.
      destruct (Hcb eq_refl) as (trace & E & _). congruence. }
  destruct (truthy trace) eqn:Htruthy.
  2:{ split.
      - intros H. injection H as ->. repeat split; eauto.
      - intros (_ & (status' & H & _) & _). now injection H as _ ->. }
  destruct (iterate trace) as [steps|] eqn:Hit.
  - split.
    + intros H. injection H as ->. repeat split; eauto.
      intros _. exists trace. split; [exact Ht|]. right. congruence.
    + intros (_ & (status' & H & _) & _). now injection H as _ ->.
  - split; [discriminate|].
    intros (_ & (status' & H & _) & Hcb). injection H as _ <-.
    destruct (Hcb eq_refl) as (trace' & E & [Hf | Hi]).
    + congruence.
    + rewrite Ht in E. injection E as <-. contradiction.
Qed.

Lemma analyzeData_returns_iff_witness :
  snd (Api.analyzeData Examples.quick_backend Examples.question)
  = Returned Examples.answer.
Proof.
  apply (proj2 (analyzeData_returns_iff Examples.quick_backend
                  Examples.question Examples.answer)).
  exists [(lit "text", Api.FString (lit "What does BRCA1 do?"))].
  split; [reflexivity|].
  split; [simpl; lia|split].
  - exists 200%N. split; reflexivity.
  - intros _. exists (VArr [VStr (lit "Reading"); VStr (lit "Done")]).
    split; [reflexivity|]. right. discriminate.
Defined.

(** X10.  A good reply whose [thinking_trace] is truthy but cannot be
    iterated (an object, a number, [true]) makes the analysis fail although
    the answer arrived: the page shows the four simulated steps and the
    failure step, keeps no result, and leaves the session as it was. *)
Theorem trace_that_cannot_be_iterated
    (backend : Api.FormData -> Api.exchange) (st : Page.PageState)
    (form : Api.FormData) (status : N) (data trace : jsval) :
  Page.nothing_to_analyze st = false ->
  Api.build_form (Page.analyze_options st) = Some form ->
  (Api.latency (backend form) <= 120000)%N ->
  Api.reply (backend form) = Api.Reply status data ->
  Api.ok_status status = true ->
  get_prop data (lit "thinking_trace") = Some trace ->
  truthy trace = true ->
  iterate trace = None ->
  snd (Api.analyzeData backend (Page.analyze_options st)) = Threw JsTypeError
  /\ Page.thinkingSteps (fst (fst (Page.handleAnalyze backend st)))
     = map VStr Api.thinkingSteps ++ [VStr Page.failure_step]
  /\ Page.result (fst (fst (Page.handleAnalyze backend st))) = VNull
  /\ Page.sessionId (fst (fst (Page.handleAnalyze backend st)))
     = Page.sessionId st.
Proof.
  intros Hgo Hform Hl Hr Hok Ht Htruthy Hit. apply N.ltb_ge in Hl.
  assert (E : Api.analyzeData backend (Page.analyze_options st)
              = (Props.simulated_steps
                   ++ [Props.analyze_request form]
                   ++ [Api.ASettled (Api.latency (backend form))],
                 Threw JsTypeError)).
  { rewrite (@analyzeData_cases backend (Page.analyze_options st) form Hform).
    cbn zeta.
    rewrite Hl, Hr, Hok, Ht, Htruthy, Hit.
    cbn [Page.analyze_options Api.onThinkingStep].
    now rewrite <- app_assoc. }
  split; [now rewrite E|].
  unfold Page.handleAnalyze. rewrite Hgo, E. cbn [fst snd].
  rewrite run_callbacks_spec, callbacks_of_app. cbn. repeat split.
Qed.

Lemma trace_that_cannot_be_iterated_witness :
  Page.result
    (fst (fst (Page.handleAnalyze (Examples.odd_backend (VObj []))
                 Examples.asking_page)))
  = VNull.
Proof.
  apply (@trace_that_cannot_be_iterated (Examples.odd_backend (VObj []))
           Examples.asking_page
           [(lit "text", Api.FString (lit "What does BRCA1 do?"))]
           200%N (Examples.odd_answer (VObj [])) (VObj [])).
  - reflexivity.
  - reflexivity.
  - simpl. lia.
  - reflexivity.
  - reflexivity.
  - reflexivity.
  - reflexivity.
  - reflexivity.
Defined.

Lemma code_points_single (d : code_unit) (s : jsstring) :
  is_high_surrogate d = false ->
  code_points (d :: s) = [d] :: code_points s.
Proof.
  intros H. cbn [code_points]. destruct s as [|e s]; [reflexivity|].
  now rewrite H.
Qed.

Lemma low_is_not_high (d : code_unit) :
  is_low_surrogate d = true -> is_high_surrogate d = false.
Proof.
  unfold is_low_surrogate, is_high_surrogate. intros H.
  apply andb_true_iff in H as [H _]. apply N.leb_le in H.
  apply andb_false_iff. right. apply N.leb_gt. lia.
Qed.

Lemma code_points_step (c d : code_unit) (s : jsstring) :
  code_points (c :: d :: s)
  = if is_high_surrogate c && is_low_surrogate d
    then [c; d] :: code_points s
    else [c] :: code_points (d :: s).
Proof.
  change (code_points (c :: d :: s))
    with (if is_high_surrogate c && is_low_surrogate d
          then match code_points (d :: s) with
               | _ :: rest => [c; d] :: rest
               | [] => [[c; d]]
               end
          else [c] :: code_points (d :: s)).
  destruct (is_high_surrogate c); [|reflexivity].
  destruct (is_low_surrogate d) eqn:Hd; [|reflexivity].
  cbn [andb]. now rewrite (@code_points_single d s (low_is_not_high d Hd)).
Qed.

Lemma code_points_concat_upto (n : nat) (s : jsstring) :
  length s <= n -> concat (code_points s) = s.
Proof.
  revert s. induction n as [|n IH]; intros s Hn.
  - destruct s; [reflexivity|simpl in Hn; lia].
  - destruct s as [|c [|d s]]; [reflexivity|reflexivity|].
    rewrite code_points_step.
    destruct (is_high_surrogate c && is_low_surrogate d); cbn [concat app].
    + rewrite IH; [reflexivity|]. simpl in Hn. lia.
    + rewrite (IH (d :: s)); [reflexivity|]. simpl in Hn |- *. lia.
Qed.

Lemma code_points_concat (s : jsstring) : concat (code_points s) = s.
Proof. now apply (@code_points_concat_upto (length s)). Qed.

(** X11.  A [thinking_trace] that is a text and not a list is forwarded
    piece by piece, one call of the callback for each code point, after the
    reply is in; the pieces put together are the text. *)
Theorem text_trace_is_forwarded_in_pieces
    (backend : Api.FormData -> Api.exchange) (o : Api.AnalyzeOptions)
    (form : Api.FormData) (status : N) (data : jsval) (text : jsstring) :
  Api.onThinkingStep o = true ->
  Api.build_form o = Some form ->
  (Api.latency (backend form) <= 120000)%N ->
  Api.reply (backend form) = Api.Reply status data ->
  Api.ok_status status = true ->
  get_prop data (lit "thinking_trace") = Some (VStr text) ->
  text <> [] ->
  Props.callbacks_of (fst (Api.analyzeData backend o))
  = map VStr Api.thinkingSteps ++ map VStr (code_points text)
  /\ concat (code_points text) = text
  /\ snd (Api.analyzeData backend o) = Returned data.
Proof.
  intros Hcb Hform Hl Hr Hok Ht Hne. apply N.ltb_ge in Hl.
  rewrite (@analyzeData_cases backend o form Hform). cbn zeta.
  rewrite Hcb, Hl, Hr, Hok, Ht.
  assert (Htruthy : truthy (VStr text) = true) by (destruct text; [contradiction|reflexivity]).
  rewrite Htruthy. cbn [iterate fst snd].
  split; [|split; [apply code_points_concat|reflexivity]].
  rewrite <- app_assoc, !callbacks_of_app. cbn [Props.callbacks_of app].
  now rewrite callbacks_of_map.
Qed.

Lemma text_trace_is_forwarded_in_pieces_witness :
  Props.callbacks_of
    (fst (Api.analyzeData (Examples.odd_backend (VStr (lit "ok")))
            Examples.question))
  = map VStr Api.thinkingSteps ++ [VStr (lit "o"); VStr (lit "k")].
Proof.
  apply (@text_trace_is_forwarded_in_pieces
           (Examples.odd_backend (VStr (lit "ok"))) Examples.question
           [(lit "text", Api.FString (lit "What does BRCA1 do?"))]
           200%N (Examples.odd_answer (VStr (lit "ok"))) (lit "ok")).
  - reflexivity.
  - reflexivity.
  - simpl. lia.
  - reflexivity.
  - reflexivity.
  - reflexivity.
  - discriminate.
Defined.

(** ** [analyzeWithStreaming]: chunk boundaries and failures *)

Section StreamingMore.

Variable JSON_parse : jsstring -> option jsval.

Lemma events_across_line_end (a b : jsstring) :
  Props.events_of_chunk JSON_parse (a ++ 10%N :: b)
  = Props.events_of_chunk JSON_parse a ++ Props.events_of_chunk JSON_parse b.
Proof.
  unfold Props.events_of_chunk.
  now rewrite split_at_separator, flat_map_app.
Qed.

Lemma events_of_empty_chunk : Props.events_of_chunk JSON_parse [] = [].
Proof. reflexivity. Qed.

Lemma callbacks_of_chunk_logs (chunks : list jsstring) :
  Props.callbacks_of (flat_map (Props.chunk_log JSON_parse) chunks)
  = Props.contents_of (lit "thinking")
      (flat_map (Props.events_of_chunk JSON_parse) chunks).
Proof.
  induction chunks as [|chunk chunks IH]; [reflexivity|].
  cbn [flat_map]. rewrite callbacks_of_app, contents_of_app, IH.
  unfold Props.chunk_log. cbn [Props.callbacks_of].
  now rewrite callbacks_of_map.
Qed.

Lemma reads_of_app (l1 l2 : list Api.action) :
  Props.reads_of (l1 ++ l2) = Props.reads_of l1 ++ Props.reads_of l2.
Proof.
  induction l1 as [|a l1 IH]; [reflexivity|].
  destruct a; simpl; rewrite IH; reflexivity.
Qed.

Lemma reads_of_chunk_logs (chunks : list jsstring) :
  Props.reads_of (flat_map (Props.chunk_log JSON_parse) chunks) = chunks.
Proof.
  induction chunks as [|chunk chunks IH]; [reflexivity|].
  cbn [flat_map]. rewrite reads_of_app, IH.
  unfold Props.chunk_log. cbn [Props.reads_of app]. f_equal.
  induction (Props.contents_of (lit "thinking")
               (Props.events_of_chunk JSON_parse chunk)); simpl; auto.
Qed.

(** The reading loop, however the stream ends. *)
Lemma read_loop_spec (chunks : list jsstring) (fin : Api.stream_end)
    (r : Api.AnalysisResult) :
  Api.read_loop JSON_parse chunks fin r
  = (flat_map (Props.chunk_log JSON_parse) chunks
       ++ match fin with Api.StreamDone => [Api.AEnd] | Api.StreamBroken => [] end,
     match fin with
     | Api.StreamDone =>
         Returned (Props.extend r
                     (flat_map (Props.events_of_chunk JSON_parse) chunks))
     | Api.StreamBroken => Threw StreamFailed
     end).
Proof.
  revert r. induction chunks as [|chunk chunks IH]; intros r.
  - destruct fin; simpl; now rewrite ?extend_nil.
  - cbn [Api.read_loop flat_map].
    rewrite process_chunk_extend, IH.
    unfold Props.chunk_log, Api.emit, Api.emits, Api.bind.
    rewrite extend_app. cbn [app]. rewrite <- app_assoc.
    destruct fin; reflexivity.
Qed.

End StreamingMore.

(** X12.  Where the chunks are cut does not matter as long as they are cut
    after a line end: a chunk that ends with a line end followed by the
    next chunk gives the same result, and the same calls of the callback,
    as the two in one chunk. *)
Theorem chunks_cut_at_line_ends (JSON_parse : jsstring -> option jsval)
    (status : N) (before after : list jsstring) (a b : jsstring)
    (fin : Api.stream_end) (now : jsstring) (formData : Api.FormData) :
  snd (Api.analyzeWithStreaming JSON_parse
         (Api.FetchResolved status
            (Some (before ++ (a ++ [10%N]) :: b :: after, fin)))
         now formData)
  = snd (Api.analyzeWithStreaming JSON_parse
           (Api.FetchResolved status
              (Some (before ++ (a ++ 10%N :: b) :: after, fin)))
           now formData)
  /\ Props.callbacks_of
       (fst (Api.analyzeWithStreaming JSON_parse
               (Api.FetchResolved status
                  (Some (before ++ (a ++ [10%N]) :: b :: after, fin)))
               now formData))
     = Props.callbacks_of
         (fst (Api.analyzeWithStreaming JSON_parse
                 (Api.FetchResolved status
                    (Some (before ++ (a ++ 10%N :: b) :: after, fin)))
                 now formData)).
Proof.
  assert (Hev : flat_map (Props.events_of_chunk JSON_parse)
                  (before ++ (a ++ [10%N]) :: b :: after)
                = flat_map (Props.events_of_chunk JSON_parse)
                    (before ++ (a ++ 10%N :: b) :: after)).
  { rewrite !flat_map_app. cbn [flat_map].
    rewrite !events_across_line_end, events_of_empty_chunk, app_nil_r.
    now rewrite <- app_assoc. }
  unfold Api.analyzeWithStreaming.
  destruct (Api.ok_status status); cbn [negb]; [|split; reflexivity].
  rewrite !read_loop_spec. unfold Api.emit, Api.bind. cbn [fst snd].
  rewrite Hev. split; [reflexivity|].
  cbn [app Props.callbacks_of].
  now rewrite !callbacks_of_app, !callbacks_of_chunk_logs, Hev.
Qed.

(** X13.  The streamed call returns a result exactly when the reply has a
    2xx status and a body whose stream ends well, and the result is then
    what the events of the chunks add to the empty result; a failed
    [fetch], any other status, a missing body and a stream that breaks all
    make the call throw. *)
Theorem streaming_returns_iff (JSON_parse : jsstring -> option jsval)
    (server : Api.fetch_reply) (now : jsstring) (formData : Api.FormData)
    (r : Api.AnalysisResult) :
  snd (Api.analyzeWithStreaming JSON_parse server now formData) = Returned r
  <-> exists status chunks,
        server = Api.FetchResolved status (Some (chunks, Api.StreamDone))
        /\ Api.ok_status status = true
        /\ r = Props.extend (Api.initial_result now)
                 (flat_map (Props.events_of_chunk JSON_parse) chunks).
Proof.
  unfold Api.analyzeWithStreaming. split.
  - destruct server as [|status [[chunks fin]|]]; [discriminate| |].
    + destruct (Api.ok_status status) eqn:Hok; cbn [negb]; [|discriminate].
      rewrite read_loop_spec. unfold Api.emit, Api.bind. cbn [snd].
      destruct fin; [|discriminate].
      intros H. injection H as <-. now exists status, chunks.
    + destruct (Api.ok_status status); discriminate.
  - intros (status & chunks & -> & Hok & ->).
    rewrite Hok. cbn [negb]. rewrite read_loop_spec. reflexivity.
Qed.

Lemma streaming_returns_iff_witness :
  snd (Api.analyzeWithStreaming Json.parse Examples.mixed_stream
         Examples.now [])
  = Returned
      {| Api.session_id := VStr [];
         Api.result := lit "n=421,,x[object Object]";
         Api.thinking_trace := [];
         Api.charts := [];
         Api.memory_context := [];
         Api.timestamp := Examples.now |}.
Proof.
  apply (proj2 (streaming_returns_iff Json.parse Examples.mixed_stream
                  Examples.now []
                  {| Api.session_id := VStr [];
                     Api.result := lit "n=421,,x[object Object]";
                     Api.thinking_trace := [];
                     Api.charts := [];
                     Api.memory_context := [];
                     Api.timestamp := Examples.now |})).
  eexists. eexists. split; [reflexivity|]. split; reflexivity.
Defined.

(** X14.  When the stream breaks after some chunks the call throws and no
    result comes back, but every chunk was read and the thinking steps of
    all of them were delivered to the callback before. *)
Theorem broken_stream_after_delivery (JSON_parse : jsstring -> option jsval)
    (status : N) (chunks : list jsstring) (now : jsstring)
    (formData : Api.FormData) :
  Api.ok_status status = true ->
  snd (Api.analyzeWithStreaming JSON_parse
         (Api.FetchResolved status (Some (chunks, Api.StreamBroken)))
         now formData)
  = Threw StreamFailed
  /\ Props.reads_of
       (fst (Api.analyzeWithStreaming JSON_parse
               (Api.FetchResolved status (Some (chunks, Api.StreamBroken)))
               now formData))
     = chunks
  /\ Props.callbacks_of
       (fst (Api.analyzeWithStreaming JSON_parse
               (Api.FetchResolved status (Some (chunks, Api.StreamBroken)))
               now formData))
     = Props.contents_of (lit "thinking")
         (flat_map (Props.events_of_chunk JSON_parse) chunks).
Proof.
  intros Hok. unfold Api.analyzeWithStreaming. rewrite Hok. cbn [negb].
  rewrite read_loop_spec. unfold Api.emit, Api.bind. cbn [fst snd].
  rewrite app_nil_r. cbn [app Props.reads_of Props.callbacks_of].
  now rewrite reads_of_chunk_logs, callbacks_of_chunk_logs.
Qed.

Lemma broken_stream_after_delivery_witness :
  Props.callbacks_of
    (fst (Api.analyzeWithStreaming Json.parse
            (Api.FetchResolved 200
               (Some ([Examples.chunk1; Examples.chunk2], Api.StreamBroken)))
            Examples.now []))
  = [VStr (lit "Reading")].
Proof.
  apply (proj2 (proj2 (@broken_stream_after_delivery Json.parse 200%N
                         [Examples.chunk1; Examples.chunk2] Examples.now []
                         eq_refl))).
Defined.

Lemma whole_lines_end (chunk : jsstring) :
  Props.whole_lines chunk = true ->
  chunk = [] \/ exists a, chunk = a ++ [10%N].
Proof.
  destruct chunk as [|c chunk]; [now left|]. intros H. right.
  exists (removelast (c :: chunk)).
  unfold Props.whole_lines in H. apply N.eqb_eq in H.
  rewrite (@app_removelast_last _ (c :: chunk) 0%N) at 1 by discriminate.
  now rewrite H.
Qed.

Lemma events_after_whole_lines (JSON_parse : jsstring -> option jsval)
    (chunk rest : jsstring) :
  Props.whole_lines chunk = true ->
  Props.events_of_chunk JSON_parse (chunk ++ rest)
  = Props.events_of_chunk JSON_parse chunk
    ++ Props.events_of_chunk JSON_parse rest.
Proof.
  intros H. destruct (@whole_lines_end chunk H) as [-> | [a ->]].
  - reflexivity.
  - rewrite <- app_assoc. cbn [app].
    rewrite !events_across_line_end, events_of_empty_chunk, app_nil_r.
    reflexivity.
Qed.

(** Reads that end at line ends carry the events of the body. *)
Lemma events_of_body (JSON_parse : jsstring -> option jsval)
    (chunks : list jsstring) :
  Props.cut_at_line_ends chunks ->
  flat_map (Props.events_of_chunk JSON_parse) chunks
  = Props.events_of_chunk JSON_parse (concat chunks).
Proof.
  unfold Props.cut_at_line_ends.
  induction chunks as [|chunk chunks IH]; intros H; [reflexivity|].
  destruct chunks as [|next chunks].
  - cbn [flat_map concat]. now rewrite !app_nil_r.
  - change (removelast (chunk :: next :: chunks))
      with (chunk :: removelast (next :: chunks)) in H.
    cbn [forallb] in H. apply andb_true_iff in H as [Hc Hrest].
    change (flat_map (Props.events_of_chunk JSON_parse) (chunk :: next :: chunks))
      with (Props.events_of_chunk JSON_parse chunk
            ++ flat_map (Props.events_of_chunk JSON_parse) (next :: chunks)).
    change (concat (chunk :: next :: chunks))
      with (chunk ++ concat (next :: chunks)).
    now rewrite (IH Hrest), events_after_whole_lines.
Qed.

(** X22.  When every read but the last ends at a line end, the streamed
    call gives what the events of the whole body give, however the body was
    cut: the events are the payloads of the lines of the body that start
    with [data: ] and parse; the contents of the [thinking] events make up
    [thinking_trace] and are what the callback is called with, in order;
    [result] is the strings of the contents of the [response] events, one
    after the other, a content that has no string adding nothing; the
    contents of the [chart] events make up [charts]; and [session_id] is
    that of the last [complete] event. *)
Theorem whole_line_reads_give_the_events
    (JSON_parse : jsstring -> option jsval)
    (status : N) (chunks : list jsstring) (now : jsstring)
    (formData : Api.FormData) :
  Api.ok_status status = true ->
  Props.cut_at_line_ends chunks ->
  snd (Api.analyzeWithStreaming JSON_parse
         (Api.FetchResolved status (Some (chunks, Api.StreamDone))) now formData)
  = Returned
      {| Api.session_id :=
           Props.last_session_id (VStr [])
             (Props.events_of_chunk JSON_parse (concat chunks));
         Api.result :=
           concat (map Props.text_of
                     (Props.contents_of (lit "response")
                        (Props.events_of_chunk JSON_parse (concat chunks))));
         Api.thinking_trace :=
           Props.contents_of (lit "thinking")
             (Props.events_of_chunk JSON_parse (concat chunks));
         Api.charts :=
           Props.contents_of (lit "chart")
             (Props.events_of_chunk JSON_parse (concat chunks));
         Api.memory_context := [];
         Api.timestamp := now |}
  /\ Props.callbacks_of
       (fst (Api.analyzeWithStreaming JSON_parse
               (Api.FetchResolved status (Some (chunks, Api.StreamDone)))
               now formData))
     = Props.contents_of (lit "thinking")
         (Props.events_of_chunk JSON_parse (concat chunks)).
Proof.
  intros Hok Hcut.
  rewrite (@analyzeWithStreaming_done JSON_parse status chunks now formData Hok).
  cbn [fst snd]. rewrite (@events_of_body JSON_parse chunks Hcut). split.
  - reflexivity.
  - cbn [Props.callbacks_of].
    rewrite callbacks_of_app, callbacks_of_chunk_logs.
    cbn [Props.callbacks_of]. rewrite app_nil_r.
    now rewrite (@events_of_body JSON_parse chunks Hcut).
Qed.

Lemma whole_line_reads_give_the_events_witness :
  snd (Api.analyzeWithStreaming Json.parse Examples.stream Examples.now [])
  = Returned
      {| Api.session_id := VStr (lit "s-1");
         Api.result := lit "Hello world";
         Api.thinking_trace := [VStr (lit "Reading")];
         Api.charts := [VObj [(lit "kind", VStr (lit "bar"))]];
         Api.memory_context := [];
         Api.timestamp := Examples.now |}
  /\ Props.callbacks_of
       (fst (Api.analyzeWithStreaming Json.parse Examples.stream
               Examples.now []))
     = [VStr (lit "Reading")].
Proof.
  apply (@whole_line_reads_give_the_events Json.parse 200%N
           [Examples.chunk1; Examples.chunk2] Examples.now []).
  - reflexivity.
  - reflexivity.
Defined.

(** ** The drop zone: what a drop adds and how sizes are shown *)

Lemma nearest_tenths_bounds (num den : N) :
  (2 <= den)%N -> (den mod 2 = 0)%N ->
  (den * FileUpload.nearest_tenths num den <= 10 * num + den / 2)%N
  /\ (10 * num < den * FileUpload.nearest_tenths num den + den / 2)%N.
Proof.
  intros Hden Heven. unfold FileUpload.nearest_tenths.
  assert (Hd : den <> 0%N) by lia.
  pose proof (N.div_mod (num * 10 + den / 2) den Hd) as Hdm.
  pose proof (N.mod_lt (num * 10 + den / 2) den Hd) as Hlt.
  pose proof (N.div_mod den 2 ltac:(lia)) as Hhalf.
  rewrite Heven in Hhalf. clear Heven.
  set (h := (den / 2)%N) in *.
  set (q := ((num * 10 + h) / den)%N) in *.
  set (m := ((num * 10 + h) mod den)%N) in *.
  set (p := (den * q)%N) in *.
  clearbody p m q h. split; lia.
Qed.

(** X15.  [formatFileSize] shows bytes below 1024, kilobytes below
    1048576 and megabytes from there on, for every size that a double holds
    exactly (below 2^53); the number shown, with its one decimal, is the
    size in that unit to within one twentieth, so a size just below a
    megabyte is shown as 1024.0 KB. *)
Theorem file_size_display (bytes : N) :
  ((bytes < 1024)%N ->
     FileUpload.formatFileSize bytes = Some (decimal bytes ++ lit " B"))
  /\ ((1024 <= bytes < 1048576)%N ->
      exists tenths,
        FileUpload.formatFileSize bytes
        = Some (decimal (tenths / 10) ++ lit "." ++ decimal (tenths mod 10)
                  ++ lit " KB")
        /\ (1024 * tenths <= 10 * bytes + 512)%N
        /\ (10 * bytes < 1024 * tenths + 512)%N
        /\ (10 <= tenths <= 10240)%N)
  /\ ((1048576 <= bytes < 9007199254740992)%N ->
      exists tenths,
        FileUpload.formatFileSize bytes
        = Some (decimal (tenths / 10) ++ lit "." ++ decimal (tenths mod 10)
                  ++ lit " MB")
        /\ (1048576 * tenths <= 10 * bytes + 524288)%N
        /\ (10 * bytes < 1048576 * tenths + 524288)%N
        /\ (10 <= tenths)%N).
Proof.
  unfold FileUpload.formatFileSize, FileUpload.toFixed1, FileUpload.MAX_SAFE_SIZE.
  change (1024 * 1024)%N with 1048576%N.
  split; [|split].
  - intros H. apply N.ltb_lt in H. now rewrite H.
  - intros [H1 H2].
    apply N.ltb_ge in H1 as H1'. apply N.ltb_lt in H2 as H2'.
    rewrite H1', H2'.
    exists (FileUpload.nearest_tenths bytes 1024).
    destruct (@nearest_tenths_bounds bytes 1024%N) as [Ha Hb];
      [lia|reflexivity|].
    change (1024 / 2)%N with 512%N in Ha, Hb.
    split; [now rewrite <- !app_assoc|]. repeat split; lia.
  - intros [H1 H3].
    assert (H1' : (bytes <? 1024)%N = false) by (apply N.ltb_ge; lia).
    apply N.ltb_ge in H1 as H2'. apply N.ltb_lt in H3 as H3'.
    rewrite H1', H2', H3'.
    exists (FileUpload.nearest_tenths bytes 1048576).
    destruct (@nearest_tenths_bounds bytes 1048576%N) as [Ha Hb];
      [lia|reflexivity|].
    change (1048576 / 2)%N with 524288%N in Ha, Hb.
    split; [now rewrite <- !app_assoc|]. repeat split; lia.
Qed.

Lemma file_size_display_witness :
  FileUpload.formatFileSize 1023 = Some (lit "1023 B")
  /\ (exists tenths,
        FileUpload.formatFileSize 1048575
        = Some (decimal (tenths / 10) ++ lit "." ++ decimal (tenths mod 10)
                  ++ lit " KB")
        /\ (1024 * tenths <= 10 * 1048575 + 512)%N
        /\ (10 * 1048575 < 1024 * tenths + 512)%N
        /\ (10 <= tenths <= 10240)%N)
  /\ (exists tenths,
        FileUpload.formatFileSize 52428800
        = Some (decimal (tenths / 10) ++ lit "." ++ decimal (tenths mod 10)
                  ++ lit " MB")
        /\ (1048576 * tenths <= 10 * 52428800 + 524288)%N
        /\ (10 * 52428800 < 1048576 * tenths + 524288)%N
        /\ (10 <= tenths)%N).
Proof.
  split; [|split].
  - apply (proj1 (file_size_display 1023)). lia.
  - apply (proj1 (proj2 (file_size_display 1048575))). lia.
  - apply (proj2 (proj2 (file_size_display 52428800))). lia.
Defined.

Example just_below_a_megabyte :
  FileUpload.formatFileSize 1048575 = Some (lit "1024.0 KB")
  /\ FileUpload.formatFileSize 1048576 = Some (lit "1.0 MB")
  /\ FileUpload.formatFileSize FileUpload.maxSize = Some (lit "50.0 MB")
  /\ FileUpload.formatFileSize 1587 = Some (lit "1.5 KB")
  /\ FileUpload.formatFileSize 9007199254740992 = None.
Proof. repeat split. Qed.

(** X16.  A drop never removes or reorders the files already chosen.  Each
    file it adds is an offered file as file-selector gives it, with its
    name and its size and with its type unless it had none; it is at most
    50 MB (52428800 bytes), so it is never shown as more than 50.0 MB; and
    no offered file that passes the tests is left out. *)
Theorem dropped_files_fit (COMMON_MIME_TYPES : jsstring -> option jsstring)
    (offered : list Api.File) (st : Page.PageState) :
  exists added,
    Page.files (FileUpload.onDrop COMMON_MIME_TYPES offered st)
    = Page.files st ++ added
    /\ length added <= length offered
    /\ (forall g, In g added ->
          (exists f,
             In f offered
             /\ Api.file_name g = Api.file_name f
             /\ Api.file_size g = Api.file_size f
             /\ (Api.file_type f <> [] -> g = f))
          /\ (Api.file_size g <= 52428800)%N
          /\ (FileUpload.nearest_tenths (Api.file_size g) 1048576 <= 500)%N
          /\ FileUpload.formatFileSize (Api.file_size g) <> None)
    /\ (forall f, In f offered ->
          FileUpload.accepted COMMON_MIME_TYPES f = true ->
          In (FileUpload.withMimeType COMMON_MIME_TYPES f) added).
Proof.
  exists (filter (fun f => FileUpload.fileAccepted f && FileUpload.fileMatchSize f)
            (map (FileUpload.withMimeType COMMON_MIME_TYPES) offered)).
  split; [reflexivity|]. split; [|split].
  - rewrite <- (length_map (FileUpload.withMimeType COMMON_MIME_TYPES) offered).
    apply filter_length_le.
  - intros g Hg. apply filter_In in Hg as [Hin Hacc].
    apply in_map_iff in Hin as (f & <- & Hf).
    destruct (withMimeType_keeps COMMON_MIME_TYPES f) as (Hname & Hsize & Hsame).
    apply andb_true_iff in Hacc as [_ Hfit].
    unfold FileUpload.fileMatchSize in Hfit.
    apply negb_true_iff, N.ltb_ge in Hfit.
    change FileUpload.maxSize with 52428800%N in Hfit.
    split; [exists f; now repeat split|].
    split; [exact Hfit|]. split.
    + unfold FileUpload.nearest_tenths.
      change (1048576 / 2)%N with 524288%N.
      apply N.lt_succ_r. apply N.Div0.div_lt_upper_bound. lia.
    + unfold FileUpload.formatFileSize, FileUpload.MAX_SAFE_SIZE.
      destruct (_ <? 1024)%N; [discriminate|].
      destruct (_ <? 1024 * 1024)%N; [discriminate|].
      destruct (N.ltb_spec
                  (Api.file_size
                     (FileUpload.withMimeType COMMON_MIME_TYPES f))
                  9007199254740992) as [_|Hbig]; [discriminate|lia].
  - intros f Hf Hacc. apply filter_In. split.
    + apply in_map_iff. now exists f.
    + exact Hacc.
Qed.

(** A drop of four files: the report gets its type and is taken, the film
    is too large, the archive is of no accepted type. *)
Example a_drop_of_four_files :
  Page.files
    (FileUpload.onDrop Examples.mime_table
       [Examples.report; Examples.film; Examples.archive; Examples.csv_file]
       Page.initial)
  = [ {| Api.file_name := lit "Report.HTML"; Api.file_type := lit "text/html";
         Api.file_size := 1200 |};
      Examples.csv_file ].
Proof. reflexivity. Qed.

(** ** The memory panel *)

(** X17.  [clearMemories] never throws.  Without a session it sends
    nothing and changes nothing; when the DELETE fails, by status or by
    connection, the list shown is kept and the error text is set; when it
    succeeds the list is emptied and the error is left as it was. *)
Theorem clearMemories_outcomes (sessionId : option jsstring)
    (x : Api.exchange) (st : MemoryPanel.PanelState) :
  snd (MemoryPanel.clearMemories sessionId x st) = Returned tt
  /\ (sessionId = None \/ sessionId = Some [] ->
      fst (MemoryPanel.clearMemories sessionId x st) = (st, []))
  /\ (forall c sid, sessionId = Some (c :: sid) ->
        (forall status data,
            Api.reply x = Api.Reply status data -> Api.ok_status status = false) ->
        MemoryPanel.memories (fst (fst (MemoryPanel.clearMemories sessionId x st)))
        = MemoryPanel.memories st
        /\ MemoryPanel.error (fst (fst (MemoryPanel.clearMemories sessionId x st)))
           = Some (lit "Failed to clear memories"))
  /\ (forall c sid status data,
        sessionId = Some (c :: sid) ->
        Api.reply x = Api.Reply status data -> Api.ok_status status = true ->
        MemoryPanel.memories (fst (fst (MemoryPanel.clearMemories sessionId x st)))
        = []
        /\ MemoryPanel.error (fst (fst (MemoryPanel.clearMemories sessionId x st)))
           = MemoryPanel.error st).
Proof.
  split; [|split; [|split]].
  - destruct sessionId as [[|c sid]|]; try reflexivity.
    unfold MemoryPanel.clearMemories, Api.axios_delete.
    destruct (Api.reply x) as [status data|];
      [destruct (Api.ok_status status)|]; reflexivity.
  - intros [-> | ->]; reflexivity.
  - intros c sid -> Hbad.
    unfold MemoryPanel.clearMemories, Api.axios_delete.
    destruct (Api.reply x) as [status data|].
    + rewrite (Hbad status data eq_refl). now split.
    + now split.
  - intros c sid status data -> Hr Hok.
    unfold MemoryPanel.clearMemories, Api.axios_delete.
    rewrite Hr, Hok. now split.
Qed.

Lemma clearMemories_outcomes_witness :
  MemoryPanel.error
    (fst (fst (MemoryPanel.clearMemories (Some (lit "s-1"))
                 {| Api.latency := 40; Api.reply := Api.Reply 500 VNull |}
                 {| MemoryPanel.memories := [Examples.stored_interaction];
                    MemoryPanel.isLoading := false;
                    MemoryPanel.error := None |})))
  = Some (lit "Failed to clear memories").
Proof.
  apply (proj1 (proj2 (proj2
           (clearMemories_outcomes (Some (lit "s-1"))
              {| Api.latency := 40; Api.reply := Api.Reply 500 VNull |}
              {| MemoryPanel.memories := [Examples.stored_interaction];
                 MemoryPanel.isLoading := false;
                 MemoryPanel.error := None |})))
           115%N (lit "-1") eq_refl).
  intros status data H. injection H as <- _. reflexivity.
Defined.

(** X18.  For a memory that is an object or a list without a truthy
    [query], and whose [result] is a text or is missing or falsy,
    [getContentPreview] gives a text of at most 103 code units that ends
    with three dots, also when the text was short; a memory with a truthy
    [query] is previewed by that query alone. *)
Theorem preview_is_short (JSON_stringify : jsval -> jsstring)
    (content : jsval) :
  ((exists elems, content = VArr elems)
   \/ (exists fields, content = VObj fields)) ->
  (truthy (Props.field (lit "query") content) = true ->
   MemoryPanel.getContentPreview JSON_stringify content
   = Returned (Props.field (lit "query") content))
  /\ (truthy (Props.field (lit "query") content) = false ->
      (truthy (Props.field (lit "result") content) = false
       \/ exists text, Props.field (lit "result") content = VStr text) ->
      exists shown,
        MemoryPanel.getContentPreview JSON_stringify content
        = Returned (VStr (shown ++ lit "..."))
        /\ length shown <= 100
        /\ (forall text, Props.field (lit "result") content = VStr text ->
              text <> [] -> shown = firstn 100 text)).
Proof.
  intros Hshape.
  assert (E : MemoryPanel.getContentPreview JSON_stringify content
              = let q := Props.field (lit "query") content in
                if truthy q then Returned q
                else
                  let r := Props.field (lit "result") content in
                  if truthy r then
                    match r with
                    | VStr text => Returned (VStr (firstn 100 text ++ lit "..."))
                    | VArr elems =>
                        match ToString (VArr (firstn 100 elems)) with
                        | Some text => Returned (VStr (text ++ lit "..."))
                        | None => Threw JsTypeError
                        end
                    | _ => Threw JsTypeError
                    end
                  else Returned (VStr (firstn 100 (JSON_stringify content)
                                         ++ lit "..."))).
  { destruct Hshape as [[elems ->] | [fields ->]]; reflexivity. }
  rewrite E. cbn zeta. split.
  - intros Hq. now rewrite Hq.
  - intros Hq Hr. rewrite Hq.
    destruct (truthy (Props.field (lit "result") content)) eqn:Htr.
    + destruct Hr as [Hr | [text Hr]]; [discriminate|].
      rewrite Hr. exists (firstn 100 text).
      split; [reflexivity|split; [apply firstn_le_length|]].
      intros text' H _. now injection H as <-.
    + exists (firstn 100 (JSON_stringify content)).
      split; [reflexivity|split; [apply firstn_le_length|]].
      intros text H Hne. rewrite H in Htr.
      destruct text; [contradiction|discriminate].
Qed.

Lemma preview_is_short_witness :
  exists shown,
    MemoryPanel.getContentPreview (fun _ => lit "{}") Examples.stored_interaction
    = Returned (VStr (shown ++ lit "..."))
    /\ length shown <= 100.
Proof.
  destruct (@preview_is_short (fun _ => lit "{}") Examples.stored_interaction)
    as [_ H].
  - right.
    exists [ (lit "query", VStr []);
             (lit "result", VStr (lit "BRCA1 repairs DNA.")) ].
    reflexivity.
  - destruct H as (shown & E & Hlen & _).
    + reflexivity.
    + right. exists (lit "BRCA1 repairs DNA."). reflexivity.
    + exists shown. split; assumption.
Defined.

(** ** The chart panel *)

Lemma next_is_successor_mod (length i : Z) :
  (0 <= i < length)%Z ->
  ChartLab.goToNextChart length i = ((i + 1) mod length)%Z.
Proof.
  intros H. unfold ChartLab.goToNextChart.
  destruct (Z.ltb_spec i (length - 1)) as [Hlt|Hge].
  - symmetry. apply Z.mod_small. lia.
  - assert (i + 1 = length)%Z as -> by lia.
    symmetry. apply Z.mod_same. lia.
Qed.

Lemma prev_is_predecessor_mod (length i : Z) :
  (0 <= i < length)%Z ->
  ChartLab.goToPrevChart length i = ((i - 1) mod length)%Z.
Proof.
  intros H. unfold ChartLab.goToPrevChart.
  destruct (Z.ltb_spec 0 i) as [Hlt|Hge].
  - symmetry. apply Z.mod_small. lia.
  - assert (i = 0)%Z as -> by lia.
    replace (0 - 1)%Z with (length - 1 + (-1) * length)%Z by lia.
    rewrite Z.mod_add by lia. symmetry. apply Z.mod_small. lia.
Qed.

(** X19.  With the active chart in range, the two arrows keep it in range,
    and each undoes the other. *)
Theorem chart_arrows_stay_in_range (length i : Z) :
  (0 <= i < length)%Z ->
  (0 <= ChartLab.goToPrevChart length i < length)%Z
  /\ (0 <= ChartLab.goToNextChart length i < length)%Z
  /\ ChartLab.goToNextChart length (ChartLab.goToPrevChart length i) = i
  /\ ChartLab.goToPrevChart length (ChartLab.goToNextChart length i) = i.
Proof.
  intros H. unfold ChartLab.goToPrevChart, ChartLab.goToNextChart.
  destruct (Z.ltb_spec 0 i), (Z.ltb_spec i (length - 1));
    repeat split; try lia;
    repeat match goal with
           | |- context [(?a <? ?b)%Z] => destruct (Z.ltb_spec a b)
           end; lia.
Qed.

Lemma chart_arrows_stay_in_range_witness :
  ChartLab.goToNextChart 3 (ChartLab.goToPrevChart 3 0) = 0%Z
  /\ ChartLab.goToPrevChart 3 0 = 2%Z.
Proof.
  destruct (@chart_arrows_stay_in_range 3%Z 0%Z ltac:(lia)) as (_ & _ & H & _).
  split; [exact H|reflexivity].
Defined.

(** X20.  Pressing the next arrow [k] times moves the active chart [k]
    places round the ring of charts, and the previous arrow moves it back
    as many; as many presses as there are charts come back to the chart
    one started from. *)
Theorem chart_arrows_go_round (length i : Z) (k : nat) :
  (0 <= i < length)%Z ->
  Nat.iter k (ChartLab.goToNextChart length) i
  = ((i + Z.of_nat k) mod length)%Z
  /\ Nat.iter k (ChartLab.goToPrevChart length) i
     = ((i - Z.of_nat k) mod length)%Z
  /\ Nat.iter (Z.to_nat length) (ChartLab.goToNextChart length) i = i.
Proof.
  intros H.
  assert (Hnext : forall n,
             Nat.iter n (ChartLab.goToNextChart length) i
             = ((i + Z.of_nat n) mod length)%Z).
  { induction n as [|n IH].
    - simpl. rewrite Z.add_0_r. symmetry. apply Z.mod_small. lia.
    - rewrite Nat.iter_succ, IH.
      rewrite next_is_successor_mod by (apply Z.mod_pos_bound; lia).
      rewrite Zplus_mod_idemp_l. f_equal. lia. }
  assert (Hprev : forall n,
             Nat.iter n (ChartLab.goToPrevChart length) i
             = ((i - Z.of_nat n) mod length)%Z).
  { induction n as [|n IH].
    - simpl. rewrite Z.sub_0_r. symmetry. apply Z.mod_small. lia.
    - rewrite Nat.iter_succ, IH.
      rewrite prev_is_predecessor_mod by (apply Z.mod_pos_bound; lia).
      rewrite Zminus_mod_idemp_l. f_equal. lia. }
  split; [apply Hnext|split; [apply Hprev|]].
  rewrite Hnext, Z2Nat.id by lia.
  replace (i + length)%Z with (i + 1 * length)%Z by lia.
  rewrite Z.mod_add by lia. apply Z.mod_small. lia.
Qed.

Lemma chart_arrows_go_round_witness :
  Nat.iter 5 (ChartLab.goToNextChart 3) 1%Z = 0%Z.
Proof.
  rewrite (proj1 (@chart_arrows_go_round 3%Z 1%Z 5 ltac:(lia))).
  reflexivity.
Defined.

Lemma underscore_is_not_whitespace : is_whitespace 95%N = false.
Proof. reflexivity. Qed.

Lemma underscore_runs_no_whitespace (in_run : bool) (s : jsstring) :
  forallb (fun c => negb (is_whitespace c)) (ChartLab.underscore_runs in_run s)
  = true.
Proof.
  revert in_run. induction s as [|c s IH]; intros in_run; [reflexivity|].
  simpl. destruct (is_whitespace c) eqn:Ec.
  - destruct in_run; simpl; rewrite ?underscore_is_not_whitespace; apply IH.
  - simpl. now rewrite Ec, IH.
Qed.

Lemma underscore_runs_unchanged (in_run : bool) (s : jsstring) :
  forallb (fun c => negb (is_whitespace c)) s = true ->
  ChartLab.underscore_runs in_run s = s.
Proof.
  revert in_run. induction s as [|c s IH]; intros in_run H; [reflexivity|].
  simpl in H |- *. apply andb_true_iff in H as [Hc Hs].
  apply negb_true_iff in Hc. rewrite Hc. now rewrite IH.
Qed.

Lemma underscore_runs_length (in_run : bool) (s : jsstring) :
  length (ChartLab.underscore_runs in_run s) <= length s.
Proof.
  revert in_run. induction s as [|c s IH]; intros in_run; [simpl; lia|].
  simpl. destruct (is_whitespace c).
  - destruct in_run; simpl; [specialize (IH true); lia|].
    specialize (IH true). lia.
  - simpl. specialize (IH false). lia.
Qed.

Lemma startsWith_prefix (p s : jsstring) : startsWith (p ++ s) p = true.
Proof.
  induction p as [|c p IH]; [now destruct s|].
  simpl. now rewrite N.eqb_refl, IH.
Qed.

(** X21.  Whenever [handleDownload] starts a download, the file name
    offered has no white space in it, is the title with each run of white
    space replaced by one underscore followed by [.png] (the title itself
    when it has no white space), and the link holds the image as a PNG data
    address; a chart without an image starts no download. *)
Theorem download_name_has_no_space (charts : list jsval) (activeChart : nat)
    (d : ChartLab.download) :
  ChartLab.handleDownload charts activeChart = Returned (Some d) ->
  forallb (fun c => negb (is_whitespace c)) (ChartLab.file_name d) = true
  /\ endsWith (ChartLab.file_name d) (lit ".png") = true
  /\ startsWith (ChartLab.href d) (lit "data:image/png;base64,") = true
  /\ exists chart title,
       nth_error charts activeChart = Some chart
       /\ truthy (Props.field (lit "image_base64") chart) = true
       /\ get_prop chart (lit "title") = Some (VStr title)
       /\ length (ChartLab.file_name d) <= length title + 4
       /\ (forallb (fun c => negb (is_whitespace c)) title = true ->
           ChartLab.file_name d = title ++ lit ".png").
Proof.
  unfold ChartLab.handleDownload.
  destruct (nth_error charts activeChart) as [chart|]; [|discriminate].
  destruct (get_prop chart (lit "image_base64")) as [image|] eqn:Ei;
    [|discriminate].
  destruct (truthy image) eqn:Ht; [|discriminate].
  destruct (ToString image) as [text|]; [|discriminate].
  destruct (get_prop chart (lit "title")) as [[| | | | title | |]|] eqn:Et;
    try discriminate.
  intros H. injection H as <-. cbn [ChartLab.file_name ChartLab.href].
  split; [|split; [|split]].
  - rewrite forallb_app, underscore_runs_no_whitespace. reflexivity.
  - unfold endsWith. rewrite length_app.
    replace (length (ChartLab.underscore_runs false title) + length (lit ".png")
             - length (lit ".png"))
      with (length (ChartLab.underscore_runs false title)) by lia.
    rewrite skipn_app, Nat.sub_diag, skipn_all. cbn [skipn app].
    rewrite str_eqb_refl, andb_true_r. apply Nat.leb_le. lia.
  - exact (startsWith_prefix (lit "data:image/png;base64,") text).
  - exists chart, title. unfold Props.field. rewrite Ei.
    repeat split; auto.
    + rewrite length_app.
      pose proof (underscore_runs_length false title). simpl. lia.
    + intros Hclean. now rewrite underscore_runs_unchanged.
Qed.

Lemma download_name_has_no_space_witness :
  forallb (fun c => negb (is_whitespace c)) (lit "Expression_by_tissue.png")
  = true.
Proof.
  destruct (@download_name_has_no_space [Examples.bar_chart] 0
              {| ChartLab.href := lit "data:image/png;base64,iVBORw0KGgo=";
                 ChartLab.file_name := lit "Expression_by_tissue.png" |}
              eq_refl) as (H & _).
  exact H.
Defined.
